(** * rvi.c: connection and service indexes of the RVI library

    A shallow embedding of [src/rvi.c].  The C [int] is a 32-bit signed
    integer carried by [Z]; pointers that may be NULL are [option]s; the
    operations a function performs besides updating the context (output,
    allocation, release, transport I/O) are recorded as a list of [event]s. *)

From Stdlib Require Import ZArith List String Ascii Bool Lia.
Import ListNotations.
Open Scope Z_scope.

(** ** C integers and C strings *)

Module CInt.

Definition int_min : Z := - 2 ^ 31.
Definition int_max : Z := 2 ^ 31 - 1.

Definition in_range (z : Z) : Prop := int_min <= z <= int_max.

(** Result of a signed 32-bit operation, wrapped around. *)
Definition wrap (z : Z) : Z := (z + 2 ^ 31) mod 2 ^ 32 - 2 ^ 31.

Definition sub (a b : Z) : Z := wrap (a - b).

End CInt.

Module CString.

Definition code (c : ascii) : Z := Z.of_N (N_of_ascii c).

(** [strcmp]: the difference of the first two bytes that differ, read as
    [unsigned char]; the end of a string reads as byte 0. *)
Fixpoint strcmp (a b : string) : Z :=
  match a, b with
  | EmptyString, EmptyString => 0
  | EmptyString, String d _ => 0 - code d
  | String c _, EmptyString => code c
  | String c a', String d b' =>
      if Ascii.eqb c d then strcmp a' b' else code c - code d
  end.

Definition nl : string := String "010"%char EmptyString.
Definition dq : string := String "034"%char EmptyString.

Definition strlen (s : string) : Z := Z.of_nat (String.length s).

End CString.

(** ** The ordered index of btree.h *)

Module Btree.

(** What [btree_insert] does with a key that compares equal to a stored
    one is not visible from rvi.c: both behaviours are modelled. *)
Inductive dup_policy : Type := DupKeep | DupReject.

(** Modelled from the spec: btree.h and btree.c are not among the
    sources.  The spec calls each index an ordered index over its
    records; the model is the sequence of stored records in comparator
    order together with the comparator given to [btree_create].  The
    field [count] of the C struct is the length of that sequence.  [R] is
    what the comparator yields: [Z] for a comparator that cannot fault
    ([compare_fd], [compare_registrant]), [option Z] for one that can
    ([compare_name], which hands the names to [strcmp] unchecked). *)
Record btree {A R : Type} : Type := mk_btree
  { order : Z;
    compare : A -> A -> R;
    elems : list A }.

Arguments btree : clear implicits.

Abbreviation btree_t A := (btree A Z).

(** Modelled from the spec: [btree_create] yields the empty index of the
given order and comparator. *)
Definition btree_create {A R : Type} (ord : Z) (cmp : A -> A -> R)
  : btree A R :=
  {| order := ord; compare := cmp; elems := [] |}.

(** Modelled from the spec: the field [count], the number of stored
records. *)
Definition count {A R : Type} (t : btree A R) : Z :=
  Z.of_nat (List.length (elems t)).

Section Generic.
Context {A : Type}.

Definition matches (t : btree_t A) (key e : A) : bool :=
  compare t key e =? 0.

(** Modelled from the spec: [btree_search] returns the stored record
    that compares equal to the key, NULL when there is none. *)
Definition btree_search (t : btree_t A) (key : A) : option A :=
  find (matches t key) (elems t).

Fixpoint remove_first (p : A -> bool) (l : list A) : list A :=
  match l with
  | [] => []
  | e :: l' => if p e then l' else e :: remove_first p l'
  end.

(** Modelled from the spec: [btree_delete] removes the stored record
    that compares equal to the key; rvi.c reads a negative result as
    failure.  The subtree argument of the C function is always the root
    of the same tree and is left out. *)
Definition btree_delete (t : btree_t A) (key : A) : btree_t A * Z :=
  if existsb (matches t key) (elems t)
  then ({| order := order t; compare := compare t;
           elems := remove_first (matches t key) (elems t) |}, 0)
  else (t, -1).

Fixpoint insert_sorted (cmp : A -> A -> Z) (x : A) (l : list A) : list A :=
  match l with
  | [] => [x]
  | e :: l' => if cmp x e <? 0 then x :: e :: l'
               else e :: insert_sorted cmp x l'
  end.

(** Modelled from the spec: [btree_insert] stores the record at its
    place in comparator order. *)
Definition btree_insert (dup : dup_policy) (t : btree_t A) (x : A)
  : btree_t A * Z :=
  match dup with
  | DupReject =>
      if existsb (matches t x) (elems t) then (t, -1)
      else ({| order := order t; compare := compare t;
               elems := insert_sorted (compare t) x (elems t) |}, 0)
  | DupKeep =>
      ({| order := order t; compare := compare t;
          elems := insert_sorted (compare t) x (elems t) |}, 0)
  end.

(** Modelled from the spec: [btree_find] followed by [btree_iter_data]
    yields the first stored record that is not below the key (rvi.c
    uses it with the least key to reach the first record of a tree). *)
Definition btree_find (t : btree_t A) (key : A) : option A :=
  find (fun e => compare t key e <=? 0) (elems t).

End Generic.

(** The same walks where a step can fault: the record read has been
    freed ([live] is false on it) or the comparator faults on it.  The
    outer [None] is the fault; the walk stops at the first record that
    answers it, as above, and reads no record beyond. *)
Section Faulting.
Context {A : Type}.
Variable live : A -> bool.
Variable cmp : A -> A -> option Z.

Definition probe (test : Z -> bool) (key e : A) : option bool :=
  if live e then option_map test (cmp key e) else None.

Fixpoint find_f (test : Z -> bool) (key : A) (l : list A)
  : option (option A) :=
  match l with
  | [] => Some None
  | e :: l' =>
      match probe test key e with
      | None => None
      | Some true => Some (Some e)
      | Some false => find_f test key l'
      end
  end.

(** The list without the first record that compares equal to the key,
    [None] inside when there is no such record. *)
Fixpoint remove_first_f (key : A) (l : list A) : option (option (list A)) :=
  match l with
  | [] => Some None
  | e :: l' =>
      match probe (fun z => z =? 0) key e with
      | None => None
      | Some true => Some (Some l')
      | Some false =>
          match remove_first_f key l' with
          | None => None
          | Some None => Some None
          | Some (Some l'') => Some (Some (e :: l''))
          end
      end
  end.

End Faulting.

(** Modelled from the spec: [btree_search], [btree_find] and
    [btree_delete] on a tree whose comparator can fault. *)
Definition btree_search_f {A : Type} (live : A -> bool)
  (t : btree A (option Z)) (key : A) : option (option A) :=
  find_f live (compare t) (fun z => z =? 0) key (elems t).

Definition btree_find_f {A : Type} (live : A -> bool)
  (t : btree A (option Z)) (key : A) : option (option A) :=
  find_f live (compare t) (fun z => z <=? 0) key (elems t).

Definition btree_delete_f {A : Type} (live : A -> bool)
  (t : btree A (option Z)) (key : A) : option (btree A (option Z) * Z) :=
  match remove_first_f live (compare t) key (elems t) with
  | None => None
  | Some None => Some (t, -1)
  | Some (Some l) =>
      Some ({| order := order t; compare := compare t; elems := l |}, 0)
  end.

End Btree.

Import Btree.

(** ** Data structures of rvi.c *)

(** Handles of the OpenSSL and regex libraries, known by their address. *)
Definition BIO : Type := Z.
Definition SSL : Type := Z.
Definition SSL_CTX : Type := Z.
Definition regex_t : Type := Z.

(** Address of a callback function; parameters of an invocation. *)
Definition rvi_callback_t : Type := Z.
Definition json_t : Type := string.

(** Data for connection to remote node. *)
Record rvi_remote_t : Type := mk_remote
  { fd : Z;
    right_to_register : option regex_t;
    right_to_invoke : option regex_t;
    buf : option string;
    sbio : option BIO }.

(** Data for service. *)
Record rvi_service_t : Type := mk_service
  { name : option string;
    may_register : option (list Z);
    may_invoke : option (list Z);
    registrant : Z;
    callback : option rvi_callback_t }.

(** RVI context.  The two rights of the node itself carry the prefix
    [own_], the field names being taken by [rvi_remote_t]. *)
Record rvi_context_t : Type := mk_context
  { remote_idx : btree_t rvi_remote_t;
    service_name_idx : btree rvi_service_t (option Z);
    service_reg_idx : btree_t rvi_service_t;
    cadir : option string;
    creddir : option string;
    certfile : option string;
    keyfile : option string;
    cafile : option string;
    cred : list (option string);
    ssl_ctx : option SSL_CTX;
    own_right_to_register : option regex_t;
    own_right_to_invoke : option regex_t }.

Definition set_remote_idx (ctx : rvi_context_t) (t : btree_t rvi_remote_t)
  : rvi_context_t :=
  {| remote_idx := t;
     service_name_idx := service_name_idx ctx;
     service_reg_idx := service_reg_idx ctx;
     cadir := cadir ctx; creddir := creddir ctx; certfile := certfile ctx;
     keyfile := keyfile ctx; cafile := cafile ctx; cred := cred ctx;
     ssl_ctx := ssl_ctx ctx;
     own_right_to_register := own_right_to_register ctx;
     own_right_to_invoke := own_right_to_invoke ctx |}.

Definition set_service_name_idx (ctx : rvi_context_t)
  (t : btree rvi_service_t (option Z)) : rvi_context_t :=
  {| remote_idx := remote_idx ctx;
     service_name_idx := t;
     service_reg_idx := service_reg_idx ctx;
     cadir := cadir ctx; creddir := creddir ctx; certfile := certfile ctx;
     keyfile := keyfile ctx; cafile := cafile ctx; cred := cred ctx;
     ssl_ctx := ssl_ctx ctx;
     own_right_to_register := own_right_to_register ctx;
     own_right_to_invoke := own_right_to_invoke ctx |}.

Definition set_service_reg_idx (ctx : rvi_context_t)
  (t : btree_t rvi_service_t) : rvi_context_t :=
  {| remote_idx := remote_idx ctx;
     service_name_idx := service_name_idx ctx;
     service_reg_idx := t;
     cadir := cadir ctx; creddir := creddir ctx; certfile := certfile ctx;
     keyfile := keyfile ctx; cafile := cafile ctx; cred := cred ctx;
     ssl_ctx := ssl_ctx ctx;
     own_right_to_register := own_right_to_register ctx;
     own_right_to_invoke := own_right_to_invoke ctx |}.

(** Return codes.  [RVI_OK] is 0 by the comments of rvi.c; [EINVAL] is the
    value of errno.h. *)
Definition RVI_OK : Z := 0.
Definition EINVAL : Z := 22.

(** ** Operations performed besides updating the context *)

(** The three trees of a context. *)
Inductive tree_id : Type := Remote_idx | Service_name_idx | Service_reg_idx.

Inductive event : Type :=
| Printf (msg : string)
| Malloc_service
| Malloc_remote
| Strdup (s : string)
| Free_service (s : rvi_service_t)
| Free_remote (r : rvi_remote_t)
| BIO_free_all (b : option BIO)
| BIO_puts (b : BIO) (msg : string)
| BIO_read (b : BIO) (len : Z)
| BIO_write_stdout (data : string)
| SSL_CTX_free (c : option SSL_CTX)
| Call (cb : rvi_callback_t) (parameters : json_t)
| Btree_destroy (which : tree_id)
| Free_string (s : option string)
| Free_cred_array
| Free_context.

(** What an API call leaves behind: the context, the returned [int] and
    the operations performed, in order. *)
Record result : Type := mk_result
  { r_ctx : rvi_context_t;
    r_ret : Z;
    r_out : list event }.

(** ** Comparison functions *)

Definition compare_fd (a b : rvi_remote_t) : Z := CInt.sub (fd a) (fd b).

Definition compare_registrant (a b : rvi_service_t) : Z :=
  let result := CInt.sub (registrant a) (registrant b) in
  if result =? 0 then
    match name a, name b with
    | Some na, Some nb => CString.strcmp na nb
    | _, _ => result
    end
  else result.

(** [compare_name] hands both names to [strcmp] unchecked: on a NULL name
    it faults ([None]). *)
Definition compare_name (a b : rvi_service_t) : option Z :=
  match name a, name b with
  | Some na, Some nb => Some (CString.strcmp na nb)
  | _, _ => None
  end.

(** ** Construction and destruction of records *)

(** [malloc] and [strdup] are taken to succeed. *)
Definition rvi_service_create (name : option string) (registrant : Z)
  (callback : option rvi_callback_t) : option rvi_service_t * list event :=
  match name with
  | None => (None, [])
  | Some n =>
      if registrant <? 0 then (None, [])
      else (Some {| name := Some n;
                    may_register := None;
                    may_invoke := None;
                    registrant := registrant;
                    callback := callback |},
            [Malloc_service; Strdup n])
  end.

Definition rvi_service_destroy (service : option rvi_service_t)
  : list event :=
  match service with
  | None => []
  | Some s => [Free_service s]
  end.

Definition rvi_remote_create (sbio : option BIO) (fd : Z)
  : option rvi_remote_t * list event :=
  match sbio with
  | None => (None, [])
  | Some b =>
      if fd <? 0 then (None, [])
      else (Some {| fd := fd;
                    right_to_register := None;
                    right_to_invoke := None;
                    buf := None;
                    sbio := Some b |},
            [Malloc_remote])
  end.

Definition rvi_remote_destroy (remote : option rvi_remote_t) : list event :=
  match remote with
  | None => []
  | Some r => [BIO_free_all (sbio r); Free_remote r]
  end.

(** ** Initialization *)

(** The context [rvi_init] returns once the configuration is parsed and the
    SSL context is set up: three empty trees of order 2. *)
Definition rvi_init_context (cadir creddir certfile keyfile cafile : option string)
  (cred : list (option string)) (ssl_ctx : option SSL_CTX) : rvi_context_t :=
  {| remote_idx := btree_create 2 compare_fd;
     service_name_idx := btree_create 2 compare_name;
     service_reg_idx := btree_create 2 compare_registrant;
     cadir := cadir; creddir := creddir; certfile := certfile;
     keyfile := keyfile; cafile := cafile; cred := cred;
     ssl_ctx := ssl_ctx;
     own_right_to_register := None;
     own_right_to_invoke := None |}.

(** ** Connection management *)

(** The zero-initialized keys [rkey] and [skey] of rvi.c. *)
Definition rkey_of (fd : Z) : rvi_remote_t :=
  {| fd := fd; right_to_register := None; right_to_invoke := None;
     buf := None; sbio := None |}.

Definition skey_of_registrant (fd : Z) : rvi_service_t :=
  {| name := None; may_register := None; may_invoke := None;
     registrant := fd; callback := None |}.

Definition skey_of_name (n : string) : rvi_service_t :=
  {| name := Some n; may_register := None; may_invoke := None;
     registrant := 0; callback := None |}.

(** The loop of [rvi_disconnect] over the services of one registrant:
    [while ((stmp = btree_search (ctx->service_reg_idx, &skey)))].  The C
    loop has no bound; [fuel] counts the iterations still allowed and
    [None] means that they did not suffice. *)
Fixpoint disconnect_services (fuel : nat) (reg : btree_t rvi_service_t)
  (skey : rvi_service_t) : option (btree_t rvi_service_t * list event) :=
  match btree_search reg skey with
  | None => Some (reg, [])
  | Some stmp =>
      match fuel with
      | O => None
      | S fuel' =>
          let '(reg', res) := btree_delete reg stmp in
          let out :=
            if res <? 0
            then [Printf ("Error deleting service key from tree" ++ CString.nl)]
            else rvi_service_destroy (Some stmp) in
          match disconnect_services fuel' reg' skey with
          | None => None
          | Some (reg'', out') => Some (reg'', out ++ out')
          end
      end
  end.

Definition rvi_disconnect (fuel : nat) (ctx : rvi_context_t) (fd : Z)
  : option result :=
  let rkey := rkey_of fd in
  match btree_search (remote_idx ctx) rkey with
  | None =>
      Some {| r_ctx := ctx; r_ret := -1;
              r_out := [Printf ("No such connection" ++ CString.nl)] |}
  | Some rtmp =>
      let '(ridx, res) := btree_delete (remote_idx ctx) rtmp in
      if res <? 0 then
        Some {| r_ctx := set_remote_idx ctx ridx; r_ret := -1;
                r_out := [Printf ("Error deleting remote key from tree"
                                   ++ CString.nl)] |}
      else
        let skey := skey_of_registrant fd in
        match disconnect_services fuel (service_reg_idx ctx) skey with
        | None => None
        | Some (sidx, out) =>
            Some {| r_ctx := set_service_reg_idx (set_remote_idx ctx ridx) sidx;
                    r_ret := RVI_OK;
                    r_out := BIO_free_all (sbio rtmp) :: out
                             ++ [Free_remote rtmp] |}
        end
  end.

(** The first loop of [rvi_cleanup]: disconnect the first remote of the
    tree until the tree is empty. *)
Fixpoint cleanup_remotes (fuel : nat) (ctx : rvi_context_t)
  : option (rvi_context_t * list event) :=
  if count (remote_idx ctx) =? 0 then Some (ctx, [])
  else
    match fuel with
    | O => None
    | S fuel' =>
        match btree_find (remote_idx ctx) (rkey_of 0) with
        | Some rtmp =>
            match rvi_disconnect fuel' ctx (fd rtmp) with
            | None => None
            | Some r =>
                match cleanup_remotes fuel' (r_ctx r) with
                | None => None
                | Some (ctx', out) => Some (ctx', r_out r ++ out)
                end
            end
        | None => cleanup_remotes fuel' ctx
        end
    end.

(** What the transport layer answers during one [rvi_connect]. *)
Record transport : Type := mk_transport
  { new_ssl_connect : option BIO;
    get_ssl : option SSL;
    do_connect : Z;
    do_handshake : Z;
    ssl_get_fd : Z;
    read_len : Z;
    read_data : string }.

(** The text [sprintf] writes into [au]. *)
Definition au_message (c : string) : string :=
  let dq := CString.dq in
  ("{" ++ dq ++ "cmd" ++ dq ++ ":" ++ dq ++ "au" ++ dq ++ ","
       ++ dq ++ "ver" ++ dq ++ ":" ++ dq ++ "1.1" ++ dq ++ ","
       ++ dq ++ "creds" ++ dq ++ ":  [" ++ dq ++ c ++ dq ++ "]}")%string.

Section Connect.

  (** Constant of rvi.h, which is not among the sources. *)
Variable RVI_ERROR_OPENSSL : Z.

  (** Behaviour of [btree_insert] on an equal key. *)
Variable dup : dup_policy.

  (** [rvi_connect] on a valid handle.  [None] is undefined behaviour of
      the C code: [remote->fd] read through a NULL [remote], a NULL
      credential given to [%s], or a message that overruns [au[500]]. *)
Definition rvi_connect (ctx : rvi_context_t) (addr port : option string)
    (net : transport) : option result :=
    match addr, port with
    | Some _, Some _ =>
        match new_ssl_connect net with
        | None =>
            Some {| r_ctx := ctx; r_ret := - RVI_ERROR_OPENSSL;
                    r_out := [Printf ("Can't locate BIO chain" ++ CString.nl)] |}
        | Some sbio =>
            match get_ssl net with
            | None =>
                Some {| r_ctx := ctx; r_ret := - RVI_ERROR_OPENSSL;
                        r_out := [Printf ("Can't locate SSL pointer"
                                           ++ CString.nl);
                                  BIO_free_all (Some sbio)] |}
            | Some _ =>
                if do_connect net <=? 0 then
                  Some {| r_ctx := ctx; r_ret := -1;
                          r_out := [Printf ("Error connecting to server"
                                             ++ CString.nl);
                                    BIO_free_all (Some sbio)] |}
                else if do_handshake net <=? 0 then
                  Some {| r_ctx := ctx; r_ret := -1;
                          r_out := [Printf ("Error establishing SSL connection"
                                             ++ CString.nl);
                                    BIO_free_all (Some sbio)] |}
                else
                  match rvi_remote_create (Some sbio) (ssl_get_fd net) with
                  | (None, _) => None
                  | (Some remote, out_create) =>
                      let ridx := fst (btree_insert dup (remote_idx ctx) remote) in
                      match hd None (cred ctx) with
                      | None => None
                      | Some c =>
                          let au := au_message c in
                          if 500 <=? CString.strlen au then None
                          else
                            let out_read :=
                              if read_len net <=? 0
                              then [Printf ("Error receiving server reply"
                                             ++ CString.nl)]
                              else [BIO_write_stdout
                                      (substring 0 (Z.to_nat (read_len net))
                                         (read_data net))] in
                            Some {| r_ctx := set_remote_idx ctx ridx;
                                    r_ret := fd remote;
                                    r_out := out_create
                                             ++ [BIO_puts sbio au;
                                                 BIO_read sbio (read_len net)]
                                             ++ out_read |}
                      end
                  end
            end
        end
    | _, _ => Some {| r_ctx := ctx; r_ret := - EINVAL; r_out := [] |}
    end.

End Connect.

Definition rvi_get_connections (ctx : rvi_context_t) : result :=
  {| r_ctx := ctx; r_ret := RVI_OK;
     r_out := [Printf ("write the get connections function..." ++ CString.nl)] |}.

(** ** Service management *)

Definition rvi_register_service (ctx : rvi_context_t)
  (service_name : option string) (callback : option rvi_callback_t)
  (service_data : Z) : result :=
  {| r_ctx := ctx; r_ret := 0;
     r_out := [Printf ("Write the register service function." ++ CString.nl)] |}.

Definition rvi_unregister_service (ctx : rvi_context_t)
  (service_name : option string) : result :=
  {| r_ctx := ctx; r_ret := 0;
     r_out := [Printf ("Write the unregister service function."
                        ++ CString.nl)] |}.

Definition rvi_get_services (ctx : rvi_context_t) : result :=
  {| r_ctx := ctx; r_ret := RVI_OK;
     r_out := [Printf ("Write the get services function." ++ CString.nl)] |}.

Definition rvi_invoke_remote_service (ctx : rvi_context_t)
  (service_name : option string) (parameters : json_t) : result :=
  {| r_ctx := ctx; r_ret := 0;
     r_out := [Printf ("Write the invoke service function." ++ CString.nl)] |}.

(** ** I/O management *)

(** The body of [rvi_process_input] reads nothing: it prints and
    returns 0. *)
Definition rvi_process_input (ctx : rvi_context_t) (fd_arr : list Z)
  (fd_len : Z) : result :=
  {| r_ctx := ctx; r_ret := 0;
     r_out := [Printf ("Finish the process input function..."
                        ++ CString.nl)] |}.

(** ** Statement vocabulary *)

(** The comparators [rvi_init] gives to the three trees. *)
Definition wf_context (ctx : rvi_context_t) : Prop :=
  compare (remote_idx ctx) = compare_fd /\
  compare (service_name_idx ctx) = compare_name /\
  compare (service_reg_idx ctx) = compare_registrant.

Definition remote_present (ctx : rvi_context_t) (fd_ : Z) : Prop :=
  exists r, In r (elems (remote_idx ctx)) /\ fd r = fd_.

Definition in_name_idx (ctx : rvi_context_t) (s : rvi_service_t) : Prop :=
  In s (elems (service_name_idx ctx)).

Definition in_reg_idx (ctx : rvi_context_t) (s : rvi_service_t) : Prop :=
  In s (elems (service_reg_idx ctx)).

(** The two service indexes hold the same services. *)
Definition dual_index_consistent (ctx : rvi_context_t) : Prop :=
  forall s, in_name_idx ctx s <-> in_reg_idx ctx s.

(** The descriptors of a [may_invoke] array; a NULL array has none. *)
Definition may_invoke_set (s : rvi_service_t) : list Z :=
  match may_invoke s with Some l => l | None => [] end.

(** The operations of the API that the service indexes depend on. *)
Inductive api_op : Type :=
| Op_register (service_name : option string) (cb : option rvi_callback_t)
    (service_data : Z)
| Op_unregister (service_name : option string)
| Op_disconnect (fd_ : Z).

Definition run_op (fuel : nat) (ctx : rvi_context_t) (op : api_op)
  : option rvi_context_t :=
  match op with
  | Op_register n cb d => Some (r_ctx (rvi_register_service ctx n cb d))
  | Op_unregister n => Some (r_ctx (rvi_unregister_service ctx n))
  | Op_disconnect fd_ => option_map r_ctx (rvi_disconnect fuel ctx fd_)
  end.

Fixpoint run_ops (fuel : nat) (ctx : rvi_context_t) (ops : list api_op)
  : option rvi_context_t :=
  match ops with
  | [] => Some ctx
  | op :: ops' =>
      match run_op fuel ctx op with
      | None => None
      | Some ctx' => run_ops fuel ctx' ops'
      end
  end.

(** ** A context with one remote and two services *)

Module Sample.

Definition remote5 : rvi_remote_t :=
  {| fd := 5; right_to_register := None; right_to_invoke := None;
     buf := None; sbio := Some 4096 |}.

(** Registered by the local process (stdin, descriptor 0). *)
Definition diag_ping : rvi_service_t :=
  {| name := Some "diag.ping"%string; may_register := None;
     may_invoke := None; registrant := 0; callback := Some 8192 |}.

(** Registered by the remote on descriptor 5. *)
Definition fleet_status : rvi_service_t :=
  {| name := Some "fleet.status"%string; may_register := None;
     may_invoke := None; registrant := 5; callback := None |}.

Definition ctx : rvi_context_t :=
  {| remote_idx := {| order := 2; compare := compare_fd;
                      elems := [remote5] |};
     service_name_idx := {| order := 2; compare := compare_name;
                            elems := [diag_ping; fleet_status] |};
     service_reg_idx := {| order := 2; compare := compare_registrant;
                           elems := [diag_ping; fleet_status] |};
     cadir := None; creddir := Some "creds"%string; certfile := None;
     keyfile := None; cafile := None;
     cred := [Some "eyJhbGciOiJSUzI1NiJ9"%string];
     ssl_ctx := Some 12288;
     own_right_to_register := None;
     own_right_to_invoke := None |}.

(** A handshake that succeeds on descriptor 5 and a 2-byte reply. *)
Definition net5 : transport :=
  {| new_ssl_connect := Some 16384; get_ssl := Some 20480;
     do_connect := 1; do_handshake := 1; ssl_get_fd := 5;
     read_len := 2; read_data := "{}"%string |}.

End Sample.

(** ** Configuration file and credentials *)

(** A C string holds no NUL byte. *)
Fixpoint c_string (s : string) : bool :=
  match s with
  | EmptyString => true
  | String c s' => negb (Ascii.eqb c Ascii.zero) && c_string s'
  end.

(** [strstr (hay, needle) != NULL]. *)
Fixpoint strstr_found (hay needle : string) : bool :=
  if String.prefix needle hay then true
  else
    match hay with
    | EmptyString => false
    | String _ hay' => strstr_found hay' needle
    end.

(** Store into slot [i] of an array; [None] past its end. *)
Fixpoint store_at {A : Type} (i : nat) (l : list A) (v : A)
  : option (list A) :=
  match l, i with
  | [], _ => None
  | _ :: l', O => Some (v :: l')
  | x :: l', S i' =>
      match store_at i' l' v with
      | None => None
      | Some l'' => Some (x :: l'')
      end
  end.

Definition set_config (ctx : rvi_context_t)
  (cadir' creddir' certfile' keyfile' cafile' : option string)
  (cred' : list (option string)) (ssl_ctx' : option SSL_CTX)
  : rvi_context_t :=
  {| remote_idx := remote_idx ctx;
     service_name_idx := service_name_idx ctx;
     service_reg_idx := service_reg_idx ctx;
     cadir := cadir'; creddir := creddir'; certfile := certfile';
     keyfile := keyfile'; cafile := cafile'; cred := cred';
     ssl_ctx := ssl_ctx';
     own_right_to_register := own_right_to_register ctx;
     own_right_to_invoke := own_right_to_invoke ctx |}.

Definition set_keyfile (ctx : rvi_context_t) (v : option string) :=
  set_config ctx (cadir ctx) (creddir ctx) (certfile ctx) v (cafile ctx)
    (cred ctx) (ssl_ctx ctx).

Definition set_certfile (ctx : rvi_context_t) (v : option string) :=
  set_config ctx (cadir ctx) (creddir ctx) v (keyfile ctx) (cafile ctx)
    (cred ctx) (ssl_ctx ctx).

Definition set_cadir (ctx : rvi_context_t) (v : option string) :=
  set_config ctx v (creddir ctx) (certfile ctx) (keyfile ctx) (cafile ctx)
    (cred ctx) (ssl_ctx ctx).

Definition set_creddir (ctx : rvi_context_t) (v : option string) :=
  set_config ctx (cadir ctx) v (certfile ctx) (keyfile ctx) (cafile ctx)
    (cred ctx) (ssl_ctx ctx).

Definition set_cafile (ctx : rvi_context_t) (v : option string) :=
  set_config ctx (cadir ctx) (creddir ctx) (certfile ctx) (keyfile ctx) v
    (cred ctx) (ssl_ctx ctx).

Definition set_cred (ctx : rvi_context_t) (v : list (option string)) :=
  set_config ctx (cadir ctx) (creddir ctx) (certfile ctx) (keyfile ctx)
    (cafile ctx) v (ssl_ctx ctx).

Definition set_ssl_ctx (ctx : rvi_context_t) (v : option SSL_CTX) :=
  set_config ctx (cadir ctx) (creddir ctx) (certfile ctx) (keyfile ctx)
    (cafile ctx) (cred ctx) v.

(** What the files answer during one [parse_config]:
    - [read_pairs f]: [None] when [fopen (f, "r")] fails; otherwise the
      key and value of each successive [fscanf (fp, "%s = %s", key, val)]
      that returns 2, up to the first one that does not;
    - [fopen_errno]: the value of [errno] after a failed [fopen];
    - [read_dir d]: [None] when [opendir (d)] fails; otherwise the
      [d_name] of each entry in [readdir] order;
    - [read_token f]: [None] when [fopen (f, "r")] fails; otherwise what
      [fscanf (fp, "%s", cred)] stores, [None] when it stores nothing. *)
Record filesystem : Type := mk_filesystem
  { read_pairs : string -> option (list (string * string));
    fopen_errno : Z;
    read_dir : string -> option (list string);
    read_token : string -> option (option string) }.

(** The chain of [strcmp] tests on one key of the configuration file. *)
Definition assign_key (ctx : rvi_context_t) (key val : string)
  : rvi_context_t :=
  if CString.strcmp key "device.key" =? 0 then set_keyfile ctx (Some val)
  else if CString.strcmp key "device.cert" =? 0
       then set_certfile ctx (Some val)
  else if CString.strcmp key "ca.dir" =? 0 then set_cadir ctx (Some val)
  else if CString.strcmp key "cred.dir" =? 0 then set_creddir ctx (Some val)
  else if CString.strcmp key "ca.cert" =? 0 then set_cafile ctx (Some val)
  else ctx.

(** The [while (fscanf ...)] loop.  [key] and [val] are [char[100]]: a
    token of 100 bytes or more overruns them ([None]). *)
Fixpoint read_config (ctx : rvi_context_t) (pairs : list (string * string))
  : option rvi_context_t :=
  match pairs with
  | [] => Some ctx
  | (key, val) :: rest =>
      if (CString.strlen key <? 100) && (CString.strlen val <? 100)
      then read_config (assign_key ctx key val) rest
      else None
  end.

(** The [while (readdir ...)] loop.  [i] is the next slot of [ctx->cred]
    and [buf] the content of [char cred[2048]], which is not cleared
    between two files.  [None] is undefined behaviour: [fscanf] on the
    NULL stream of a file that did not open, a token that overruns
    [cred], or a store past the end of [ctx->cred]. *)
Fixpoint read_creds (fs : filesystem) (entries : list string) (i : nat)
  (buf : string) (creds : list (option string))
  : option (list (option string)) :=
  match entries with
  | [] => Some creds
  | d_name :: rest =>
      if strstr_found d_name ".jwt" then
        match read_token fs d_name with
        | None => None
        | Some tok =>
            let buf' := match tok with Some t => t | None => buf end in
            if 2048 <=? CString.strlen buf' then None
            else
              match store_at i creds (Some buf') with
              | None => None
              | Some creds' => read_creds fs rest (S i) buf' creds'
              end
        end
      else read_creds fs rest i buf creds
  end.

Section Init.

(** Constant of rvi.h, which is not among the sources. *)
Variable RVI_ERROR_NOCRED : Z.

(** [parse_config] on a valid handle: the context and the returned code;
    [None] is undefined behaviour of the C code. *)
Definition parse_config (fs : filesystem) (ctx : rvi_context_t)
  (filename : option string) : option (rvi_context_t * Z) :=
  match filename with
  | None => Some (ctx, EINVAL)
  | Some f =>
      match read_pairs fs f with
      | None => Some (ctx, fopen_errno fs)
      | Some pairs =>
          match read_config ctx pairs with
          | None => None
          | Some ctx1 =>
              match creddir ctx1 with
              | None => Some (ctx1, RVI_ERROR_NOCRED)
              | Some d =>
                  match read_dir fs d with
                  | None => Some (ctx1, RVI_ERROR_NOCRED)
                  | Some entries =>
                      match read_creds fs entries 0 EmptyString (cred ctx1) with
                      | None => None
                      | Some creds => Some (set_cred ctx1 creds, RVI_OK)
                      end
                  end
              end
          end
      end
  end.

(** What OpenSSL answers during one [setup_client_ctx]. *)
Record openssl : Type := mk_openssl
  { ssl_ctx_new : option SSL_CTX;
    load_verify_locations : option string -> option string -> Z;
    set_default_verify_paths : Z;
    use_certificate_chain_file : option string -> Z;
    use_PrivateKey_file : option string -> Z }.

(** [setup_client_ctx] on a valid handle.  The calls that only configure
    the OpenSSL object (options, verify mode, verify depth) leave no trace
    here.  The result of [SSL_CTX_new] is used unchecked: [None] when it is
    NULL. *)
Definition setup_client_ctx (lib : openssl) (ctx : rvi_context_t)
  : option (option SSL_CTX) :=
  match ssl_ctx_new lib with
  | None => None
  | Some c =>
      if negb (load_verify_locations lib (cafile ctx) (cadir ctx) =? 1)
      then Some None
      else if negb (set_default_verify_paths lib =? 1) then Some None
      else if negb (use_certificate_chain_file lib (certfile ctx) =? 1)
           then Some None
      else if negb (use_PrivateKey_file lib (keyfile ctx) =? 1)
           then Some None
      else Some (Some c)
  end.

(** [rvi_init].  [malloc_ok] tells whether the context could be
    allocated.  The C code creates the three trees last; no step before
    that reads them and the model, whose context has no NULL tree, starts
    from the context with the empty trees. *)
Definition rvi_init (malloc_ok : bool) (fs : filesystem) (lib : openssl)
  (config_filename : option string)
  : option (option rvi_context_t * list event) :=
  if negb malloc_ok
  then Some (None, [Printf ("Error allocating memory." ++ CString.nl)])
  else
    let ctx0 :=
      rvi_init_context None None None None None (repeat None 20) None in
    match parse_config fs ctx0 (Some "rvi.config"%string) with
    | None => None
    | Some (ctx1, ret) =>
        if negb (ret =? 0)
        then Some (None, [Printf ("Error reading config file" ++ CString.nl)])
        else
          match setup_client_ctx lib ctx1 with
          | None => None
          | Some None =>
              Some (None,
                    [Printf ("Error setting up SSL context" ++ CString.nl)])
          | Some (Some c) => Some (Some (set_ssl_ctx ctx1 (Some c)), [])
          end
    end.

End Init.

(** The loop of [rvi_cleanup] that frees the credentials:
    [while (ctx->cred[i] != NULL)].  It yields the credentials freed;
    [None] when the loop runs past the end of the array. *)
Fixpoint free_creds (creds : list (option string)) : option (list string) :=
  match creds with
  | [] => None
  | None :: _ => Some []
  | Some c :: rest =>
      match free_creds rest with
      | None => None
      | Some freed => Some (c :: freed)
      end
  end.

(** ** Further statement vocabulary *)

(** The name of a service, when it has one, is a C string. *)
Definition name_ok (s : rvi_service_t) : Prop :=
  match name s with Some n => c_string n = true | None => True end.

(** Every stored descriptor and registrant is a value of type [int]. *)
Definition fds_in_range (ctx : rvi_context_t) : Prop :=
  forall r, In r (elems (remote_idx ctx)) -> CInt.in_range (fd r).

Definition registrants_in_range (ctx : rvi_context_t) : Prop :=
  forall s, In s (elems (service_reg_idx ctx)) -> CInt.in_range (registrant s).

(** One entry per descriptor in the connection registry. *)
Definition unique_fds (ctx : rvi_context_t) : Prop :=
  NoDup (map fd (elems (remote_idx ctx))).

(** A handshake that succeeds on a descriptor of type [int]. *)
Definition handshake_ok (net : transport) (b : BIO) : Prop :=
  new_ssl_connect net = Some b /\
  (exists s, get_ssl net = Some s) /\
  0 < do_connect net /\
  0 < do_handshake net /\
  0 <= ssl_get_fd net <= CInt.int_max.

(** The first credential is there and its [au] message fits [au[500]]. *)
Definition cred_ok (ctx : rvi_context_t) : Prop :=
  exists c, hd None (cred ctx) = Some c /\
            CString.strlen (au_message c) < 500.

(** The remote that [rvi_remote_create] builds for a BIO chain and a
    descriptor that it accepts. *)
Definition remote_of (b : BIO) (fd_ : Z) : rvi_remote_t :=
  {| fd := fd_; right_to_register := None; right_to_invoke := None;
     buf := None; sbio := Some b |}.

(** Every stored descriptor is one that [rvi_remote_create] accepts. *)
Definition fds_created (ctx : rvi_context_t) : Prop :=
  forall r, In r (elems (remote_idx ctx)) -> 0 <= fd r <= CInt.int_max.

(** Every service of the name index has a name, as [rvi_service_create]
    gives it, and no two have the same. *)
Definition services_named (ctx : rvi_context_t) : Prop :=
  forall s, in_name_idx ctx s ->
            exists n, name s = Some n /\ c_string n = true.

Definition unique_names (ctx : rvi_context_t) : Prop :=
  NoDup (map name (elems (service_name_idx ctx))).

(** The field of the context that a key of the configuration file sets. *)
Definition config_field (key : string)
  : option (rvi_context_t -> option string) :=
  if String.eqb key "device.key" then Some keyfile
  else if String.eqb key "device.cert" then Some certfile
  else if String.eqb key "ca.dir" then Some cadir
  else if String.eqb key "cred.dir" then Some creddir
  else if String.eqb key "ca.cert" then Some cafile
  else None.

(** The directory entries whose name contains [.jwt]. *)
Definition jwt_entries (entries : list string) : list string :=
  filter (fun d => strstr_found d ".jwt") entries.

(** Every token of the configuration file fits its buffer. *)
Definition tokens_fit (pairs : list (string * string)) : Prop :=
  forall k v, In (k, v) pairs ->
              CString.strlen k < 100 /\ CString.strlen v < 100.

(** ** A configuration with one credential *)

Module SampleInit.

Definition fs : filesystem :=
  {| read_pairs :=
       fun f => if String.eqb f "rvi.config"
                then Some [("cred.dir", "creds"); ("device.key", "k.pem")]%string
                else None;
     fopen_errno := 2;
     read_dir := fun _ => Some ["node.jwt"; "README"]%string;
     read_token := fun _ => Some (Some "tok"%string) |}.

Definition lib : openssl :=
  {| ssl_ctx_new := Some 12288;
     load_verify_locations := fun _ _ => 1;
     set_default_verify_paths := 1;
     use_certificate_chain_file := fun _ => 1;
     use_PrivateKey_file := fun _ => 1 |}.

End SampleInit.

(** No service is registered by a remote that is still connected. *)
Definition no_connected_registrant (ctx : rvi_context_t) : Prop :=
  forall s, in_reg_idx ctx s -> ~ remote_present ctx (registrant s).

(** ** A context whose services belong to no connected remote *)

Module SampleLocal.

Definition remote7 : rvi_remote_t :=
  {| fd := 7; right_to_register := None; right_to_invoke := None;
     buf := None; sbio := Some 4100 |}.

(** Two credential slots, the second one NULL. *)
Definition ctx : rvi_context_t :=
  set_cred
    (set_remote_idx Sample.ctx
       {| order := 2; compare := compare_fd; elems := [remote7] |})
    [Some "eyJhbGciOiJSUzI1NiJ9"%string; None].

End SampleLocal.

(** ** [rvi_cleanup] *)

(** How a call that loops ends: with a result, in undefined behaviour of
    the C code, or with the iterations allowed used up. *)
Inductive outcome (A : Type) : Type :=
| Done (a : A)
| Undefined
| Out_of_fuel.

Arguments Done {A} a.
Arguments Undefined {A}.
Arguments Out_of_fuel {A}.

Definition service_eq_dec (a b : rvi_service_t) : {a = b} + {a <> b}.
Proof. repeat decide equality. Defined.

(** The services that a run has passed to [free]. *)
Fixpoint freed_services (out : list event) : list rvi_service_t :=
  match out with
  | [] => []
  | Free_service s :: out' => s :: freed_services out'
  | _ :: out' => freed_services out'
  end.

(** The two indexes hold pointers to the same records: a record that has
    been freed is freed in both.  A record is known here by its contents. *)
Definition live_service (freed : list rvi_service_t) (s : rvi_service_t)
  : bool :=
  if in_dec service_eq_dec s freed then false else true.

(** [btree_delete] on the registrant index, whose comparator does not
    fault, while records may have been freed. *)
Definition btree_delete_live {A : Type} (live : A -> bool) (t : btree_t A)
  (key : A) : option (btree_t A * Z) :=
  match remove_first_f live (fun a b => Some (compare t a b)) key (elems t)
  with
  | None => None
  | Some None => Some (t, -1)
  | Some (Some l) =>
      Some ({| order := order t; compare := compare t; elems := l |}, 0)
  end.

(** The second loop of [rvi_cleanup]: find the first service of the name
    index, delete it from the name index and from the registrant index,
    then free it.  [freed] are the records freed so far. *)
Fixpoint cleanup_services (fuel : nat) (freed : list rvi_service_t)
  (ctx : rvi_context_t) : outcome (rvi_context_t * list event) :=
  if count (service_name_idx ctx) =? 0 then Done (ctx, [])
  else
    match fuel with
    | O => Out_of_fuel
    | S fuel' =>
        match btree_find_f (live_service freed) (service_name_idx ctx)
                (skey_of_name EmptyString) with
        | None => Undefined
        | Some None => cleanup_services fuel' freed ctx
        | Some (Some stmp) =>
            match btree_delete_f (live_service freed) (service_name_idx ctx)
                    stmp with
            | None => Undefined
            | Some (nidx, _) =>
                match btree_delete_live (live_service freed)
                        (service_reg_idx ctx) stmp with
                | None => Undefined
                | Some (ridx, _) =>
                    let ctx2 :=
                      set_service_reg_idx (set_service_name_idx ctx nidx)
                        ridx in
                    match cleanup_services fuel' (stmp :: freed) ctx2 with
                    | Done (ctx', out) =>
                        Done (ctx', rvi_service_destroy (Some stmp) ++ out)
                    | Undefined => Undefined
                    | Out_of_fuel => Out_of_fuel
                    end
                end
            end
        end
    end.

(** [rvi_cleanup] on a context whose records are all live.  The iterator
    that [btree_find] allocates leaves no trace here. *)
Definition rvi_cleanup (fuel : nat) (ctx : rvi_context_t) : outcome result :=
  match cleanup_remotes fuel ctx with
  | None => Out_of_fuel
  | Some (ctx1, out1) =>
      match cleanup_services fuel (freed_services out1) ctx1 with
      | Undefined => Undefined
      | Out_of_fuel => Out_of_fuel
      | Done (ctx2, out2) =>
          match free_creds (cred ctx2) with
          | None => Undefined
          | Some freed =>
              Done {| r_ctx := ctx2;
                      r_ret := RVI_OK;
                      r_out :=
                        SSL_CTX_free (ssl_ctx ctx) :: out1
                        ++ [Btree_destroy Remote_idx]
                        ++ out2
                        ++ [Btree_destroy Service_name_idx;
                            Btree_destroy Service_reg_idx]
                        ++ map (fun c => Free_string (Some c)) freed
                        ++ [Free_cred_array;
                            Free_string (certfile ctx2);
                            Free_string (keyfile ctx2);
                            Free_string (cafile ctx2);
                            Free_string (cadir ctx2);
                            Free_string (creddir ctx2);
                            Free_context] |}
          end
      end
  end.

(** ** The contexts that rvi.c builds *)

(** A context is reachable when it is a handle returned by [rvi_init] or
    the context that a call of the API leaves from a reachable one.  The
    descriptor that the transport hands to [rvi_connect] is an [int]. *)
Inductive reachable (RVI_ERROR_OPENSSL : Z) (dup : dup_policy)
  : rvi_context_t -> Prop :=
| reach_init :
    forall nocred malloc_ok fs lib config_filename ctx out,
      rvi_init nocred malloc_ok fs lib config_filename
        = Some (Some ctx, out) ->
      reachable RVI_ERROR_OPENSSL dup ctx
| reach_connect :
    forall ctx addr port net r,
      reachable RVI_ERROR_OPENSSL dup ctx ->
      CInt.in_range (ssl_get_fd net) ->
      rvi_connect RVI_ERROR_OPENSSL dup ctx addr port net = Some r ->
      reachable RVI_ERROR_OPENSSL dup (r_ctx r)
| reach_disconnect :
    forall fuel ctx fd_ r,
      reachable RVI_ERROR_OPENSSL dup ctx ->
      rvi_disconnect fuel ctx fd_ = Some r ->
      reachable RVI_ERROR_OPENSSL dup (r_ctx r)
| reach_get_connections :
    forall ctx,
      reachable RVI_ERROR_OPENSSL dup ctx ->
      reachable RVI_ERROR_OPENSSL dup (r_ctx (rvi_get_connections ctx))
| reach_register_service :
    forall ctx service_name cb service_data,
      reachable RVI_ERROR_OPENSSL dup ctx ->
      reachable RVI_ERROR_OPENSSL dup
        (r_ctx (rvi_register_service ctx service_name cb service_data))
| reach_unregister_service :
    forall ctx service_name,
      reachable RVI_ERROR_OPENSSL dup ctx ->
      reachable RVI_ERROR_OPENSSL dup
        (r_ctx (rvi_unregister_service ctx service_name))
| reach_get_services :
    forall ctx,
      reachable RVI_ERROR_OPENSSL dup ctx ->
      reachable RVI_ERROR_OPENSSL dup (r_ctx (rvi_get_services ctx))
| reach_invoke_remote_service :
    forall ctx service_name parameters,
      reachable RVI_ERROR_OPENSSL dup ctx ->
      reachable RVI_ERROR_OPENSSL dup
        (r_ctx (rvi_invoke_remote_service ctx service_name parameters))
| reach_process_input :
    forall ctx fd_arr fd_len,
      reachable RVI_ERROR_OPENSSL dup ctx ->
      reachable RVI_ERROR_OPENSSL dup
        (r_ctx (rvi_process_input ctx fd_arr fd_len)).

(** ** A handle and a connection made on it *)

Module SampleRun.

(** The handle that [rvi_init] returns on [SampleInit.fs] and
    [SampleInit.lib]. *)
Definition handle : rvi_context_t :=
  set_ssl_ctx
    (set_cred
       (set_keyfile
          (set_creddir
             (rvi_init_context None None None None None (repeat None 20) None)
             (Some "creds"%string))
          (Some "k.pem"%string))
       (Some "tok"%string :: repeat None 19))
    (Some 12288).

(** The context after [rvi_connect] on [handle] with [Sample.net5]. *)
Definition connected : rvi_context_t :=
  set_remote_idx handle
    {| order := 2; compare := compare_fd;
       elems := [remote_of 16384 5] |}.

End SampleRun.

(** The fields that [parse_config] and [setup_client_ctx] set are the
    same in two contexts. *)
Definition same_config (a b : rvi_context_t) : Prop :=
  cred a = cred b /\ certfile a = certfile b /\ keyfile a = keyfile b /\
  cafile a = cafile b /\ cadir a = cadir b /\ creddir a = creddir b /\
  ssl_ctx a = ssl_ctx b.

(** * Properties *)

(** ** Integer and string comparison *)

Module CIntFacts.

Lemma sub_diag (a : Z) : CInt.sub a a = 0.
Proof.
  unfold CInt.sub, CInt.wrap. rewrite Z.sub_diag. reflexivity.
Qed.

Lemma sub_eq0 (a b : Z) :
  CInt.in_range a -> CInt.in_range b -> CInt.sub a b = 0 -> a = b.
Proof.
  unfold CInt.in_range, CInt.int_min, CInt.int_max, CInt.sub, CInt.wrap.
  intros Ha Hb H.
  assert (E31 : 2 ^ 31 = 2147483648) by reflexivity.
  assert (E32 : 2 ^ 32 = 4294967296) by reflexivity.
  rewrite E31, E32 in *.
  Z.to_euclidean_division_equations. lia.
Qed.

Lemma sub_neq0 (a b : Z) :
  CInt.in_range a -> CInt.in_range b -> a <> b -> CInt.sub a b <> 0.
Proof.
  intros Ha Hb Hne H. apply Hne. now apply sub_eq0.
Qed.

End CIntFacts.

Module CStringFacts.

Lemma strcmp_refl (s : string) : CString.strcmp s s = 0.
Proof.
  induction s as [|c s IH]; simpl.
  - reflexivity.
  - rewrite Ascii.eqb_refl. exact IH.
Qed.

End CStringFacts.

Lemma compare_fd_refl (r : rvi_remote_t) : compare_fd r r = 0.
Proof. unfold compare_fd. apply CIntFacts.sub_diag. Qed.

Lemma compare_registrant_refl (s : rvi_service_t) : compare_registrant s s = 0.
Proof.
  unfold compare_registrant. rewrite CIntFacts.sub_diag. simpl.
  destruct (name s); [apply CStringFacts.strcmp_refl | reflexivity].
Qed.

(** With the NULL name of [skey], [compare_registrant] looks at the
    registrant only. *)
Lemma compare_registrant_skey (fd_ : Z) (s : rvi_service_t) :
  compare_registrant (skey_of_registrant fd_) s = CInt.sub fd_ (registrant s).
Proof.
  unfold compare_registrant, skey_of_registrant. simpl.
  destruct (CInt.sub fd_ (registrant s) =? 0); reflexivity.
Qed.

(** ** The ordered index *)

Module BtreeFacts.

Section Generic.
Context {A : Type}.
Implicit Types (t : btree_t A) (l : list A) (p : A -> bool).

Lemma remove_first_length p l :
  existsb p l = true -> S (List.length (remove_first p l)) = List.length l.
Proof.
  induction l as [|e l IH]; simpl; intros H.
  - discriminate.
  - destruct (p e); simpl in *.
    + reflexivity.
    + now rewrite IH.
Qed.

Lemma remove_first_In p l (x : A) : In x (remove_first p l) -> In x l.
Proof.
  induction l as [|e l IH]; simpl; intros H.
  - exact H.
  - destruct (p e).
    + now right.
    + destruct H as [H|H]; [now left | right; auto].
Qed.

Lemma search_None t (key e : A) :
  btree_search t key = None -> In e (elems t) -> compare t key e <> 0.
Proof.
  unfold btree_search. intros Hf Hin Hc.
  pose proof (find_none _ _ Hf e Hin) as Hm.
  unfold matches in Hm. rewrite Hc in Hm. discriminate.
Qed.

Lemma search_Some t (key e : A) :
  btree_search t key = Some e -> In e (elems t) /\ compare t key e = 0.
Proof.
  unfold btree_search. intros Hf.
  destruct (find_some _ _ Hf) as [Hin Hm]. split; [exact Hin|].
  unfold matches in Hm. now apply Z.eqb_eq.
Qed.

Lemma search_None_intro t (key : A) :
  (forall e, In e (elems t) -> compare t key e <> 0) ->
  btree_search t key = None.
Proof.
  intros H. destruct (btree_search t key) as [e|] eqn:E; [|reflexivity].
  apply search_Some in E. destruct E as [Hin Hc]. now elim (H e Hin).
Qed.

Lemma search_found t (key e : A) :
  In e (elems t) -> compare t key e = 0 ->
  exists e', btree_search t key = Some e'.
Proof.
  intros Hin Hc. destruct (btree_search t key) as [e'|] eqn:E.
  - now exists e'.
  - now elim (search_None t key e E Hin).
Qed.

Lemma delete_present t (key e : A) :
  In e (elems t) -> compare t key e = 0 ->
  btree_delete t key =
    ({| order := order t; compare := compare t;
        elems := remove_first (matches t key) (elems t) |}, 0)
  /\ S (List.length (remove_first (matches t key) (elems t)))
     = List.length (elems t).
Proof.
  intros Hin Hc.
  assert (Hex : existsb (matches t key) (elems t) = true).
  { apply existsb_exists. exists e. split; [exact Hin|].
    unfold matches. now apply Z.eqb_eq. }
  unfold btree_delete. rewrite Hex. split; [reflexivity|].
  now apply remove_first_length.
Qed.

End Generic.

End BtreeFacts.

(** ** The service loop of [rvi_disconnect] *)

(** As many iterations as the registrant index has records suffice: the
    loop ends, and it ends with no record left under the key. *)
Lemma disconnect_services_enough (fuel : nat) :
  forall (reg : btree_t rvi_service_t) (skey : rvi_service_t),
    (forall e, compare reg e e = 0) ->
    (List.length (elems reg) <= fuel)%nat ->
    exists reg' out,
      disconnect_services fuel reg skey = Some (reg', out) /\
      compare reg' = compare reg /\
      btree_search reg' skey = None /\
      (forall e, In e (elems reg') -> In e (elems reg)).
Proof.
  induction fuel as [|fuel IH]; intros reg skey Hrefl Hlen.
  - assert (El : elems reg = []).
    { destruct (elems reg); [reflexivity | simpl in Hlen; lia]. }
    assert (Hs : btree_search reg skey = None).
    { unfold btree_search. now rewrite El. }
    exists reg, []. simpl. rewrite Hs. repeat split; auto.
  - destruct (btree_search reg skey) as [stmp|] eqn:Hs.
    + destruct (BtreeFacts.search_Some _ _ _ Hs) as [Hin _].
      destruct (BtreeFacts.delete_present reg stmp stmp Hin (Hrefl stmp))
        as [Hdel Hl].
      set (reg1 := {| order := order reg; compare := compare reg;
                      elems := remove_first (matches reg stmp) (elems reg) |})
        in *.
      destruct (IH reg1 skey) as (reg' & out & Hrun & Hcmp & Hnone & Hincl).
      { exact Hrefl. }
      { simpl. lia. }
      exists reg', (rvi_service_destroy (Some stmp) ++ out).
      simpl. rewrite Hs, Hdel. simpl. rewrite Hrun.
      repeat split; auto.
      intros e He. apply Hincl in He. simpl in He.
      now apply BtreeFacts.remove_first_In in He.
    + exists reg, []. simpl. rewrite Hs. repeat split; auto.
Qed.

Lemma btree_delete_incl {A : Type} (t : btree_t A) (key e : A) :
  In e (elems (fst (btree_delete t key))) -> In e (elems t).
Proof.
  unfold btree_delete.
  destruct (existsb (matches t key) (elems t)); simpl; intros H.
  - now apply BtreeFacts.remove_first_In in H.
  - exact H.
Qed.

Lemma disconnect_services_incl (fuel : nat) :
  forall (reg reg' : btree_t rvi_service_t) (skey : rvi_service_t) out,
    disconnect_services fuel reg skey = Some (reg', out) ->
    forall e, In e (elems reg') -> In e (elems reg).
Proof.
  induction fuel as [|fuel IH]; intros reg reg' skey out Hrun e He;
    simpl in Hrun; destruct (btree_search reg skey) as [stmp|];
    try discriminate.
  - injection Hrun as <- _. exact He.
  - pose proof (btree_delete_incl reg stmp e) as Hd.
    destruct (btree_delete reg stmp) as [reg1 res].
    destruct (disconnect_services fuel reg1 skey) as [[reg2 out2]|] eqn:E;
      [|discriminate].
    injection Hrun as <- _. apply Hd. simpl. eapply IH; eauto.
  - injection Hrun as <- _. exact He.
Qed.

(** [rvi_disconnect] never writes to the name index. *)
Lemma rvi_disconnect_name_idx (fuel : nat) (ctx : rvi_context_t) (fd_ : Z)
  (r : result) :
  rvi_disconnect fuel ctx fd_ = Some r ->
  service_name_idx (r_ctx r) = service_name_idx ctx.
Proof.
  unfold rvi_disconnect.
  destruct (btree_search (remote_idx ctx) (rkey_of fd_)) as [rtmp|].
  - destruct (btree_delete (remote_idx ctx) rtmp) as [ridx res].
    destruct (res <? 0).
    + intros [= <-]. reflexivity.
    + destruct (disconnect_services fuel (service_reg_idx ctx)
                  (skey_of_registrant fd_)) as [[sidx out]|]; [|discriminate].
      intros [= <-]. reflexivity.
  - intros [= <-]. reflexivity.
Qed.

Lemma rvi_disconnect_reg_idx_incl (fuel : nat) (ctx : rvi_context_t) (fd_ : Z)
  (r : result) :
  rvi_disconnect fuel ctx fd_ = Some r ->
  forall e, in_reg_idx (r_ctx r) e -> in_reg_idx ctx e.
Proof.
  unfold rvi_disconnect, in_reg_idx.
  destruct (btree_search (remote_idx ctx) (rkey_of fd_)) as [rtmp|].
  - destruct (btree_delete (remote_idx ctx) rtmp) as [ridx res].
    destruct (res <? 0).
    + intros [= <-] e He. exact He.
    + destruct (disconnect_services fuel (service_reg_idx ctx)
                  (skey_of_registrant fd_)) as [[sidx out]|] eqn:E;
        [|discriminate].
      intros [= <-] e He. simpl in He.
      eapply disconnect_services_incl; eauto.
  - intros [= <-] e He. exact He.
Qed.

(** Through the API of rvi.c as it stands no service enters an index:
    registration and unregistration are not written yet, so the two
    service indexes of a context that starts empty stay empty. *)
Remark api_services_stay_empty (fuel : nat) (ops : list api_op) :
  forall ctx ctx',
    elems (service_name_idx ctx) = [] ->
    elems (service_reg_idx ctx) = [] ->
    run_ops fuel ctx ops = Some ctx' ->
    elems (service_name_idx ctx') = [] /\ elems (service_reg_idx ctx') = [].
Proof.
  induction ops as [|op ops IH]; intros ctx ctx' Hn Hr Hrun; simpl in Hrun.
  - injection Hrun as <-. now split.
  - destruct (run_op fuel ctx op) as [ctx1|] eqn:Hop; [|discriminate].
    apply (IH ctx1 ctx'); auto; destruct op as [n cb d|n|fd_]; simpl in Hop;
      try (injection Hop as <-; assumption).
    + destruct (rvi_disconnect fuel ctx fd_) as [r|] eqn:Hd; [|discriminate].
      injection Hop as <-.
      now rewrite (rvi_disconnect_name_idx _ _ _ _ Hd).
    + destruct (rvi_disconnect fuel ctx fd_) as [r|] eqn:Hd; [|discriminate].
      injection Hop as <-.
      pose proof (rvi_disconnect_reg_idx_incl _ _ _ _ Hd) as Hincl.
      unfold in_reg_idx in Hincl. rewrite Hr in Hincl.
      destruct (elems (service_reg_idx (r_ctx r))) as [|e l]; [reflexivity|].
      elim (Hincl e). now left.
Qed.

(** ** What [rvi_disconnect] does to a known descriptor *)

Ltac in_int_range :=
  unfold CInt.in_range, CInt.int_min, CInt.int_max; simpl; lia.

(** Where one stored record at most carries a key, nothing under that key
    is left once the first match is removed. *)
Lemma remove_first_key {A : Type} (k : A -> Z) (p : A -> bool) (v : Z) :
  forall l : list A,
    (forall e, In e l -> (p e = true <-> k e = v)) ->
    NoDup (map k l) ->
    forall e, In e (remove_first p l) -> k e <> v.
Proof.
  induction l as [|a l IH]; simpl; intros Hp Hnd e He.
  - contradiction.
  - inversion Hnd as [|? ? Hnotin Hnd']; subst.
    destruct (p a) eqn:Pa.
    + assert (Ha : k a = v) by (apply Hp; auto).
      intros Hv. apply Hnotin. rewrite Ha, <- Hv. now apply in_map.
    + destruct He as [<-|He].
      * intros Hv. apply Hp in Hv; [congruence | now left].
      * apply IH; auto.
Qed.

(** On a registry with one entry per descriptor, disconnecting a known
    descriptor succeeds, removes its entry and every record of the
    registrant index registered by it, and writes nothing else: the name
    index is the one the call started with. *)
Lemma rvi_disconnect_effect (ctx : rvi_context_t) (fd_ : Z) :
  wf_context ctx ->
  CInt.in_range fd_ ->
  (forall r, In r (elems (remote_idx ctx)) -> CInt.in_range (fd r)) ->
  NoDup (map fd (elems (remote_idx ctx))) ->
  remote_present ctx fd_ ->
  exists r,
    rvi_disconnect (List.length (elems (service_reg_idx ctx))) ctx fd_
      = Some r /\
    r_ret r = RVI_OK /\
    ~ remote_present (r_ctx r) fd_ /\
    (forall s, in_reg_idx (r_ctx r) s -> registrant s <> fd_) /\
    btree_search (service_reg_idx (r_ctx r)) (skey_of_registrant fd_) = None /\
    service_name_idx (r_ctx r) = service_name_idx ctx.
Proof.
  intros (Hcf & Hcn & Hcr) Hfd Hrange Hnd (r0 & Hin0 & Hfd0).
  assert (Hk : compare (remote_idx ctx) (rkey_of fd_) r0 = 0).
  { rewrite Hcf. unfold compare_fd. simpl. rewrite Hfd0.
    apply CIntFacts.sub_diag. }
  destruct (BtreeFacts.search_found _ _ _ Hin0 Hk) as [rtmp Hsearch].
  destruct (BtreeFacts.search_Some _ _ _ Hsearch) as [Hinr Hcr0].
  assert (Hrfd : fd rtmp = fd_).
  { rewrite Hcf in Hcr0. unfold compare_fd in Hcr0. simpl in Hcr0.
    symmetry. apply CIntFacts.sub_eq0; auto. }
  assert (Hrr : compare (remote_idx ctx) rtmp rtmp = 0).
  { rewrite Hcf. apply compare_fd_refl. }
  destruct (BtreeFacts.delete_present _ rtmp rtmp Hinr Hrr) as [Hdel _].
  destruct (disconnect_services_enough
              (List.length (elems (service_reg_idx ctx)))
              (service_reg_idx ctx) (skey_of_registrant fd_))
    as (sidx & out & Hrun & Hcmp & Hnone & Hincl).
  { intros e. rewrite Hcr. apply compare_registrant_refl. }
  { lia. }
  eexists. unfold rvi_disconnect.
  rewrite Hsearch, Hdel. simpl. rewrite Hrun.
  split; [reflexivity|]. simpl.
  split; [reflexivity|].
  split; [|split; [|split; [exact Hnone | reflexivity]]].
  - intros (r & Hin & Hr). unfold set_remote_idx in Hin. simpl in Hin.
    revert Hr. rewrite <- Hrfd.
    apply (remove_first_key fd (matches (remote_idx ctx) rtmp) (fd rtmp)
             (elems (remote_idx ctx))); auto.
    intros e He. unfold matches. rewrite Hcf. unfold compare_fd.
    rewrite Z.eqb_eq. split.
    + intros H0. symmetry. apply CIntFacts.sub_eq0; auto.
    + intros ->. apply CIntFacts.sub_diag.
  - intros s Hs Hreg. unfold in_reg_idx in Hs. simpl in Hs.
    apply (BtreeFacts.search_None _ _ _ Hnone Hs).
    rewrite Hcmp, Hcr, compare_registrant_skey, Hreg.
    apply CIntFacts.sub_diag.
Qed.

(** ** Claims *)

(** A slip in the service loop of [rvi_disconnect] that no run of rvi.c
    meets, since no call stores a service: were a context to hold, in both
    indexes, a service registered by the disconnected descriptor, the call
    would take it out of the registrant index only and leave it, freed, in
    the name index. *)
Remark rvi_disconnect_breaks_dual_index :
  forall (ctx : rvi_context_t) (fd_ : Z) (s : rvi_service_t),
    wf_context ctx ->
    remote_present ctx fd_ ->
    dual_index_consistent ctx ->
    in_name_idx ctx s ->
    registrant s = fd_ ->
    exists r,
      rvi_disconnect (List.length (elems (service_reg_idx ctx))) ctx fd_
        = Some r /\
      r_ret r = RVI_OK /\
      in_name_idx (r_ctx r) s /\
      ~ in_reg_idx (r_ctx r) s /\
      ~ dual_index_consistent (r_ctx r).
Proof.
  intros ctx fd_ s (Hcf & Hcn & Hcr) (r0 & Hin0 & Hfd0) Hdual Hs Hreg.
  assert (Hk : compare (remote_idx ctx) (rkey_of fd_) r0 = 0).
  { rewrite Hcf. unfold compare_fd. simpl. rewrite Hfd0.
    apply CIntFacts.sub_diag. }
  destruct (BtreeFacts.search_found _ _ _ Hin0 Hk) as [rtmp Hsearch].
  destruct (BtreeFacts.search_Some _ _ _ Hsearch) as [Hinr _].
  assert (Hrr : compare (remote_idx ctx) rtmp rtmp = 0).
  { rewrite Hcf. apply compare_fd_refl. }
  destruct (BtreeFacts.delete_present _ rtmp rtmp Hinr Hrr) as [Hdel _].
  destruct (disconnect_services_enough
              (List.length (elems (service_reg_idx ctx)))
              (service_reg_idx ctx) (skey_of_registrant fd_))
    as (sidx & out & Hrun & Hcmp & Hnone & Hincl).
  { intros e. rewrite Hcr. apply compare_registrant_refl. }
  { lia. }
  assert (Hout : ~ In s (elems sidx)).
  { intros Hin. apply (BtreeFacts.search_None _ _ _ Hnone Hin).
    rewrite Hcmp, Hcr, compare_registrant_skey, Hreg.
    apply CIntFacts.sub_diag. }
  eexists. unfold rvi_disconnect.
  rewrite Hsearch, Hdel. simpl. rewrite Hrun.
  split; [reflexivity|]. simpl.
  split; [reflexivity|].
  split; [exact Hs|].
  split; [exact Hout|].
  intros Hd. apply Hout. apply (Hd s). exact Hs.
Qed.

Lemma rvi_disconnect_breaks_dual_index_witness :
  exists r,
    rvi_disconnect 2 Sample.ctx 5 = Some r /\
    r_ret r = RVI_OK /\
    in_name_idx (r_ctx r) Sample.fleet_status /\
    ~ in_reg_idx (r_ctx r) Sample.fleet_status /\
    ~ dual_index_consistent (r_ctx r).
Proof.
  apply (rvi_disconnect_breaks_dual_index Sample.ctx 5 Sample.fleet_status).
  - repeat split; reflexivity.
  - exists Sample.remote5. split; [now left | reflexivity].
  - intros s. unfold in_name_idx, in_reg_idx. simpl. tauto.
  - unfold in_name_idx. simpl. right. now left.
  - reflexivity.
Defined.

(** C3, as stated, fails: ["fleet.status"] is in the name index of the
    sample context and registering that name again returns [RVI_OK]. *)
Lemma rvi_register_service_duplicate_returns_ok :
  btree_search_f (fun _ => true) (service_name_idx Sample.ctx)
    (skey_of_name "fleet.status") = Some (Some Sample.fleet_status) /\
  r_ret (rvi_register_service Sample.ctx (Some "fleet.status"%string)
           (Some 8192) 0) = RVI_OK.
Proof. split; reflexivity. Qed.

(** C3, amended.  [rvi_register_service] returns 0 ([RVI_OK]) for every
    name, registered before or not, and leaves the context as it was, so
    that no record of the name index is overwritten. *)
Theorem rvi_register_service_no_effect :
  forall (ctx : rvi_context_t) (service_name : option string)
         (cb : option rvi_callback_t) (service_data : Z),
    let r := rvi_register_service ctx service_name cb service_data in
    r_ret r = RVI_OK /\
    r_ctx r = ctx /\
    (forall live key,
        btree_search_f live (service_name_idx (r_ctx r)) key
        = btree_search_f live (service_name_idx ctx) key).
Proof. intros. repeat split; reflexivity. Qed.

(** C4, as stated, fails: descriptor 5 is in the connection registry of
    the sample context and a connect whose socket is descriptor 5 returns
    5, not an error, whatever [btree_insert] does with an equal key; where
    [btree_insert] keeps equal keys the registry then holds two entries
    for descriptor 5.  (The first argument stands for
    [RVI_ERROR_OPENSSL], which this path does not return.) *)
Lemma rvi_connect_duplicate_fd_returns_fd :
  remote_present Sample.ctx 5 /\
  option_map r_ret
    (rvi_connect 1 DupKeep Sample.ctx (Some "peer"%string)
       (Some "8807"%string) Sample.net5) = Some 5 /\
  option_map r_ret
    (rvi_connect 1 DupReject Sample.ctx (Some "peer"%string)
       (Some "8807"%string) Sample.net5) = Some 5 /\
  option_map (fun r => map fd (elems (remote_idx (r_ctx r))))
    (rvi_connect 1 DupKeep Sample.ctx (Some "peer"%string)
       (Some "8807"%string) Sample.net5) = Some [5; 5].
Proof.
  split.
  - exists Sample.remote5. split; [now left | reflexivity].
  - repeat split; reflexivity.
Qed.

(** C4, amended.  [rvi_connect] checks nothing about the descriptor: when
    the handshake succeeds on a non-negative descriptor and the [au]
    message fits its buffer, the new remote is handed to [btree_insert],
    the result of the insertion is ignored and the descriptor is
    returned, present before or not; the service indexes are untouched. *)
Theorem rvi_connect_returns_fd :
  forall (RVI_ERROR_OPENSSL : Z) (dup : dup_policy) (ctx : rvi_context_t)
         (addr port : string) (net : transport) (b : BIO) (s : SSL)
         (c : string),
    new_ssl_connect net = Some b ->
    get_ssl net = Some s ->
    0 < do_connect net ->
    0 < do_handshake net ->
    0 <= ssl_get_fd net ->
    hd None (cred ctx) = Some c ->
    CString.strlen (au_message c) < 500 ->
    exists r,
      rvi_connect RVI_ERROR_OPENSSL dup ctx (Some addr) (Some port) net
        = Some r /\
      r_ret r = ssl_get_fd net /\
      remote_idx (r_ctx r)
        = fst (btree_insert dup (remote_idx ctx)
                 {| fd := ssl_get_fd net; right_to_register := None;
                    right_to_invoke := None; buf := None; sbio := Some b |}) /\
      service_name_idx (r_ctx r) = service_name_idx ctx /\
      service_reg_idx (r_ctx r) = service_reg_idx ctx.
Proof.
  intros E dup ctx addr port net b s c Hb Hs Hc Hh Hfd Hcred Hlen.
  unfold rvi_connect, rvi_remote_create. rewrite Hb, Hs.
  destruct (do_connect net <=? 0) eqn:E1; [apply Z.leb_le in E1; lia|].
  destruct (do_handshake net <=? 0) eqn:E2; [apply Z.leb_le in E2; lia|].
  destruct (ssl_get_fd net <? 0) eqn:E3; [apply Z.ltb_lt in E3; lia|].
  rewrite Hcred.
  destruct (500 <=? CString.strlen (au_message c)) eqn:E4;
    [apply Z.leb_le in E4; lia|].
  eexists. split; [reflexivity|]. repeat split; reflexivity.
Qed.

Lemma rvi_connect_returns_fd_witness :
  exists r,
    rvi_connect 1 DupKeep Sample.ctx (Some "peer"%string)
      (Some "8807"%string) Sample.net5 = Some r /\
    r_ret r = 5 /\
    remote_idx (r_ctx r)
      = fst (btree_insert DupKeep (remote_idx Sample.ctx)
               {| fd := 5; right_to_register := None;
                  right_to_invoke := None; buf := None;
                  sbio := Some 16384 |}) /\
    service_name_idx (r_ctx r) = service_name_idx Sample.ctx /\
    service_reg_idx (r_ctx r) = service_reg_idx Sample.ctx.
Proof.
  apply (rvi_connect_returns_fd 1 DupKeep Sample.ctx "peer" "8807"
           Sample.net5 16384 20480 "eyJhbGciOiJSUzI1NiJ9");
    try reflexivity; simpl; lia.
Defined.

(** C5, as stated, fails: ["fleet.status"] is registered in the sample
    context, descriptor 7 is not in its may-invoke set, and the invocation
    returns [RVI_OK]. *)
Lemma rvi_invoke_remote_service_unauthorized_returns_ok :
  btree_search_f (fun _ => true) (service_name_idx Sample.ctx)
    (skey_of_name "fleet.status") = Some (Some Sample.fleet_status) /\
  ~ In 7 (may_invoke_set Sample.fleet_status) /\
  r_ret (rvi_invoke_remote_service Sample.ctx (Some "fleet.status"%string)
           "{}"%string) = RVI_OK.
Proof.
  split; [reflexivity|]. split; [|reflexivity].
  simpl. tauto.
Qed.

(** C5, amended.  [rvi_invoke_remote_service] takes no invoker and checks
    no right: for every name and parameters it returns 0 ([RVI_OK]), calls
    no callback and leaves the connection registry and both service
    indexes as they were. *)
Theorem rvi_invoke_remote_service_no_effect :
  forall (ctx : rvi_context_t) (service_name : option string)
         (parameters : json_t),
    let r := rvi_invoke_remote_service ctx service_name parameters in
    r_ret r = RVI_OK /\
    (forall cb q, ~ In (Call cb q) (r_out r)) /\
    remote_idx (r_ctx r) = remote_idx ctx /\
    service_name_idx (r_ctx r) = service_name_idx ctx /\
    service_reg_idx (r_ctx r) = service_reg_idx ctx.
Proof.
  intros. repeat split; try reflexivity.
  intros cb q [H|[]]. discriminate.
Qed.

(** C8.  [rvi_service_create] returns NULL exactly when the name is NULL
    or the registrant is negative, and then performs no operation;
    otherwise the service carries the given name, registrant and callback
    and its [may_register] and [may_invoke] are empty. *)
Theorem rvi_service_create_spec :
  forall (n : option string) (reg : Z) (cb : option rvi_callback_t),
    (fst (rvi_service_create n reg cb) = None <-> (n = None \/ reg < 0)) /\
    match rvi_service_create n reg cb with
    | (None, out) => out = []
    | (Some s, _) =>
        name s = n /\ registrant s = reg /\ callback s = cb /\
        may_register s = None /\ may_invoke s = None
    end.
Proof.
  intros n reg cb. unfold rvi_service_create.
  destruct n as [n|].
  - destruct (reg <? 0) eqn:E; simpl.
    + apply Z.ltb_lt in E. split; [|reflexivity].
      split; intros; [now right | reflexivity].
    + apply Z.ltb_ge in E. split; [|repeat split].
      split; [discriminate|]. intros [H|H]; [discriminate | lia].
  - simpl. split; [|reflexivity]. split; intros; [now left | reflexivity].
Qed.

(** C9.  For a descriptor that no entry of the connection registry
    carries, [rvi_disconnect] returns -1 and leaves the context, hence
    the connection registry and both service indexes, unchanged. *)
Theorem rvi_disconnect_unknown_fd :
  forall (fuel : nat) (ctx : rvi_context_t) (fd_ : Z),
    wf_context ctx ->
    CInt.in_range fd_ ->
    (forall r, In r (elems (remote_idx ctx)) -> CInt.in_range (fd r)) ->
    ~ remote_present ctx fd_ ->
    exists r,
      rvi_disconnect fuel ctx fd_ = Some r /\
      r_ret r = -1 /\
      r_ctx r = ctx /\
      r_out r = [Printf ("No such connection" ++ CString.nl)].
Proof.
  intros fuel ctx fd_ (Hcf & _ & _) Hfd Hrange Habsent.
  assert (Hnone : btree_search (remote_idx ctx) (rkey_of fd_) = None).
  { apply BtreeFacts.search_None_intro. intros e He. rewrite Hcf.
    unfold compare_fd. simpl. apply CIntFacts.sub_neq0; auto.
    intros Heq. apply Habsent. exists e. now split. }
  eexists. unfold rvi_disconnect. rewrite Hnone.
  split; [reflexivity|]. repeat split; reflexivity.
Qed.

Lemma rvi_disconnect_unknown_fd_witness :
  exists r,
    rvi_disconnect 0 Sample.ctx 6 = Some r /\
    r_ret r = -1 /\
    r_ctx r = Sample.ctx /\
    r_out r = [Printf ("No such connection" ++ CString.nl)].
Proof.
  apply (rvi_disconnect_unknown_fd 0 Sample.ctx 6).
  - repeat split; reflexivity.
  - in_int_range.
  - intros r [<-|[]]. in_int_range.
  - intros (r & [<-|[]] & H). discriminate.
Defined.

(** C10.  [rvi_remote_create] returns NULL exactly when the BIO chain is
    NULL or the descriptor is negative; otherwise the remote carries the
    given descriptor and BIO chain, and its [right_to_register],
    [right_to_invoke] and buffer are empty. *)
Theorem rvi_remote_create_spec :
  forall (sb : option BIO) (fd_ : Z),
    (fst (rvi_remote_create sb fd_) = None <-> (sb = None \/ fd_ < 0)) /\
    match fst (rvi_remote_create sb fd_) with
    | None => True
    | Some r =>
        fd r = fd_ /\ sbio r = sb /\ right_to_register r = None /\
        right_to_invoke r = None /\ buf r = None
    end.
Proof.
  intros sb fd_. unfold rvi_remote_create.
  destruct sb as [b|].
  - destruct (fd_ <? 0) eqn:E; simpl.
    + apply Z.ltb_lt in E. split; [|exact I].
      split; intros; [now right | reflexivity].
    + apply Z.ltb_ge in E. split; [|repeat split].
      split; [discriminate|]. intros [H|H]; [discriminate | lia].
  - simpl. split; [|exact I]. split; intros; [now left | reflexivity].
Qed.

(** * Further properties of rvi.c *)

(** ** Comparison functions *)

Lemma wrap_small (z : Z) : CInt.in_range z -> CInt.wrap z = z.
Proof.
  unfold CInt.in_range, CInt.int_min, CInt.int_max, CInt.wrap.
  intros H.
  assert (E31 : 2 ^ 31 = 2147483648) by reflexivity.
  assert (E32 : 2 ^ 32 = 4294967296) by reflexivity.
  rewrite E31, E32 in *.
  rewrite Z.mod_small; lia.
Qed.

Lemma code_inj (c d : ascii) : CString.code c = CString.code d -> c = d.
Proof.
  unfold CString.code. intros H. apply N2Z.inj in H.
  rewrite <- (ascii_N_embedding c), <- (ascii_N_embedding d). now rewrite H.
Qed.

Lemma code_nonneg (c : ascii) : 0 <= CString.code c.
Proof. unfold CString.code. apply N2Z.is_nonneg. Qed.

Lemma strcmp_eq0 :
  forall a b : string,
    c_string a = true -> c_string b = true ->
    CString.strcmp a b = 0 -> a = b.
Proof.
  induction a as [|c a IH]; destruct b as [|d b]; simpl; intros Ha Hb H.
  - reflexivity.
  - apply andb_prop in Hb. destruct Hb as [Hd _].
    assert (d = Ascii.zero)
      by (apply code_inj; change (CString.code Ascii.zero) with 0; lia).
    subst d. discriminate.
  - apply andb_prop in Ha. destruct Ha as [Hc _].
    assert (c = Ascii.zero)
      by (apply code_inj; change (CString.code Ascii.zero) with 0; lia).
    subst c. discriminate.
  - apply andb_prop in Ha. destruct Ha as [_ Ha].
    apply andb_prop in Hb. destruct Hb as [_ Hb].
    destruct (Ascii.eqb c d) eqn:E.
    + apply Ascii.eqb_eq in E. subst d. f_equal. now apply IH.
    + apply Ascii.eqb_neq in E. elim E. apply code_inj. lia.
Qed.

(** On the empty string as first argument [strcmp] is never positive. *)
Lemma strcmp_empty_l (s : string) : CString.strcmp EmptyString s <= 0.
Proof.
  destruct s as [|d s]; simpl; [lia|]. pose proof (code_nonneg d). lia.
Qed.

(** X1.  On descriptors that [rvi_remote_create] accepts (not negative)
    the subtraction of [compare_fd] does not overflow: the result is the
    difference of the descriptors, so its sign orders the remotes by
    descriptor. *)
Theorem compare_fd_no_overflow :
  forall a b : rvi_remote_t,
    0 <= fd a <= CInt.int_max ->
    0 <= fd b <= CInt.int_max ->
    compare_fd a b = fd a - fd b /\
    (compare_fd a b < 0 <-> fd a < fd b) /\
    (compare_fd a b = 0 <-> fd a = fd b).
Proof.
  intros a b Ha Hb.
  assert (E : compare_fd a b = fd a - fd b).
  { unfold compare_fd, CInt.sub. apply wrap_small.
    unfold CInt.in_range, CInt.int_min, CInt.int_max in *. lia. }
  rewrite E. repeat split; lia.
Qed.

Lemma compare_fd_no_overflow_witness :
  compare_fd Sample.remote5 (rkey_of 7) = 5 - 7 /\
  (compare_fd Sample.remote5 (rkey_of 7) < 0 <-> 5 < 7) /\
  (compare_fd Sample.remote5 (rkey_of 7) = 0 <-> 5 = 7).
Proof.
  apply (compare_fd_no_overflow Sample.remote5 (rkey_of 7));
    unfold CInt.int_max; simpl; lia.
Defined.

(** When [compare_registrant] is 0 the registrants do not differ. *)
Lemma compare_registrant_zero_sub (a b : rvi_service_t) :
  compare_registrant a b = 0 -> CInt.sub (registrant a) (registrant b) = 0.
Proof.
  unfold compare_registrant.
  destruct (CInt.sub (registrant a) (registrant b) =? 0) eqn:E.
  - intros _. now apply Z.eqb_eq.
  - intros H. exact H.
Qed.

(** X2.  [compare_registrant] is 0 exactly on two records of the same
    registrant whose names are equal or of which one has no name: a key
    with a NULL name matches every service of its registrant. *)
Theorem compare_registrant_zero :
  forall a b : rvi_service_t,
    CInt.in_range (registrant a) ->
    CInt.in_range (registrant b) ->
    name_ok a -> name_ok b ->
    (compare_registrant a b = 0 <->
     registrant a = registrant b /\
     (name a = None \/ name b = None \/ name a = name b)).
Proof.
  intros a b Ra Rb Na Nb. unfold name_ok in *. split.
  - intros H. pose proof (compare_registrant_zero_sub a b H) as Hs.
    split; [now apply CIntFacts.sub_eq0|].
    unfold compare_registrant in H. rewrite Hs in H. simpl in H.
    destruct (name a) as [na|]; [|now left].
    destruct (name b) as [nb|]; [|right; now left].
    right. right. f_equal. now apply strcmp_eq0.
  - intros [Hr Hn]. unfold compare_registrant.
    rewrite Hr, CIntFacts.sub_diag. simpl.
    destruct (name a) as [na|]; [|reflexivity].
    destruct (name b) as [nb|]; [|reflexivity].
    destruct Hn as [Hn|[Hn|Hn]]; try discriminate.
    injection Hn as ->. apply CStringFacts.strcmp_refl.
Qed.

Lemma compare_registrant_zero_witness :
  compare_registrant (skey_of_registrant 5) Sample.fleet_status = 0 <->
  registrant (skey_of_registrant 5) = registrant Sample.fleet_status /\
  (name (skey_of_registrant 5) = None \/ name Sample.fleet_status = None \/
   name (skey_of_registrant 5) = name Sample.fleet_status).
Proof.
  apply (compare_registrant_zero (skey_of_registrant 5) Sample.fleet_status).
  - in_int_range.
  - in_int_range.
  - exact I.
  - reflexivity.
Defined.

(** ** [rvi_disconnect]: effect, frame and released resources *)

Lemma remove_first_keeps {A : Type} (p : A -> bool) (e : A) :
  forall l : list A, In e l -> p e = false -> In e (remove_first p l).
Proof.
  induction l as [|a l IH]; simpl; intros Hin Hp.
  - contradiction.
  - destruct (p a) eqn:Pa.
    + destruct Hin as [->|Hin]; [congruence | exact Hin].
    + destruct Hin as [->|Hin]; [now left | right; auto].
Qed.

(** The service loop, run with enough iterations on a registrant index
    ordered by [compare_registrant]: it ends; what is left is what was
    registered by somebody else; each record removed is freed once. *)
Lemma disconnect_services_spec (fd_ : Z) (fuel : nat) :
  forall reg : btree_t rvi_service_t,
    compare reg = compare_registrant ->
    CInt.in_range fd_ ->
    (forall e, In e (elems reg) -> CInt.in_range (registrant e)) ->
    (List.length (elems reg) <= fuel)%nat ->
    exists reg' out,
      disconnect_services fuel reg (skey_of_registrant fd_)
        = Some (reg', out) /\
      order reg' = order reg /\
      compare reg' = compare_registrant /\
      (forall e, In e (elems reg') <->
                 In e (elems reg) /\ registrant e <> fd_) /\
      (forall ev, In ev out ->
                  exists s, ev = Free_service s /\ In s (elems reg) /\
                            registrant s = fd_) /\
      (List.length out + List.length (elems reg')
       = List.length (elems reg))%nat.
Proof.
  induction fuel as [|fuel IH]; intros reg Hcmp Hfd Hrange Hlen.
  - assert (El : elems reg = []).
    { destruct (elems reg); [reflexivity | simpl in Hlen; lia]. }
    exists reg, []. simpl. unfold btree_search. rewrite El. simpl.
    repeat split; auto; try tauto.
  - destruct (btree_search reg (skey_of_registrant fd_)) as [stmp|] eqn:Hs.
    + destruct (BtreeFacts.search_Some _ _ _ Hs) as [Hin Hk].
      rewrite Hcmp, compare_registrant_skey in Hk.
      assert (Hreg : registrant stmp = fd_).
      { symmetry. apply CIntFacts.sub_eq0; auto. }
      assert (Hrefl : compare reg stmp stmp = 0).
      { rewrite Hcmp. apply compare_registrant_refl. }
      destruct (BtreeFacts.delete_present reg stmp stmp Hin Hrefl)
        as [Hdel Hl].
      set (reg1 := {| order := order reg; compare := compare reg;
                      elems := remove_first (matches reg stmp) (elems reg) |})
        in *.
      destruct (IH reg1) as (reg' & out & Hrun & Hord & Hc' & Hiff & Hev & Hn).
      { exact Hcmp. }
      { exact Hfd. }
      { intros e He. apply Hrange. simpl in He.
        now apply BtreeFacts.remove_first_In in He. }
      { simpl. lia. }
      exists reg', (Free_service stmp :: out).
      simpl. rewrite Hs, Hdel. simpl. rewrite Hrun.
      split; [reflexivity|]. split; [exact Hord|]. split; [exact Hc'|].
      split; [|split].
      * intros e. rewrite Hiff. simpl. split.
        -- intros [He Hne]. split; [|exact Hne].
           now apply BtreeFacts.remove_first_In in He.
        -- intros [He Hne]. split; [|exact Hne].
           apply remove_first_keeps; [exact He|].
           unfold matches. apply Z.eqb_neq. rewrite Hcmp. intros H0.
           apply compare_registrant_zero_sub in H0.
           apply CIntFacts.sub_eq0 in H0; auto. congruence.
      * intros ev [<-|Hin'].
        -- exists stmp. auto.
        -- destruct (Hev ev Hin') as (s & -> & Hs1 & Hs2).
           exists s. repeat split; auto. simpl in Hs1.
           now apply BtreeFacts.remove_first_In in Hs1.
      * simpl in Hn. simpl. lia.
    + exists reg, []. simpl. rewrite Hs.
      split; [reflexivity|]. split; [reflexivity|]. split; [exact Hcmp|].
      split; [|split; [intros ev [] | reflexivity]].
      intros e. split; [|tauto]. intros He. split; [exact He|].
      intros Hreg. apply (BtreeFacts.search_None _ _ _ Hs He).
      rewrite Hcmp, compare_registrant_skey, Hreg. apply CIntFacts.sub_diag.
Qed.


(** The result of [rvi_disconnect] on a known descriptor, in full. *)
Lemma rvi_disconnect_known (fuel : nat) (ctx : rvi_context_t) (fd_ : Z) :
  wf_context ctx ->
  CInt.in_range fd_ ->
  fds_in_range ctx ->
  registrants_in_range ctx ->
  unique_fds ctx ->
  remote_present ctx fd_ ->
  (List.length (elems (service_reg_idx ctx)) <= fuel)%nat ->
  exists rtmp ridx sidx out,
    rvi_disconnect fuel ctx fd_
    = Some {| r_ctx := set_service_reg_idx (set_remote_idx ctx ridx) sidx;
              r_ret := RVI_OK;
              r_out := BIO_free_all (sbio rtmp) :: out
                       ++ [Free_remote rtmp] |} /\
    In rtmp (elems (remote_idx ctx)) /\ fd rtmp = fd_ /\
    compare ridx = compare_fd /\
    (forall e, In e (elems ridx) <->
               In e (elems (remote_idx ctx)) /\ fd e <> fd_) /\
    S (List.length (elems ridx)) = List.length (elems (remote_idx ctx)) /\
    compare sidx = compare_registrant /\
    (forall s, In s (elems sidx) <->
               In s (elems (service_reg_idx ctx)) /\ registrant s <> fd_) /\
    (forall ev, In ev out ->
                exists s, ev = Free_service s /\
                          In s (elems (service_reg_idx ctx)) /\
                          registrant s = fd_) /\
    (List.length out + List.length (elems sidx)
     = List.length (elems (service_reg_idx ctx)))%nat.
Proof.
  intros (Hcf & Hcn & Hcr) Hfd Hrange Hsrange Hnd (r0 & Hin0 & Hfd0) Hfuel.
  assert (Hk : compare (remote_idx ctx) (rkey_of fd_) r0 = 0).
  { rewrite Hcf. unfold compare_fd. simpl. rewrite Hfd0.
    apply CIntFacts.sub_diag. }
  destruct (BtreeFacts.search_found _ _ _ Hin0 Hk) as [rtmp Hsearch].
  destruct (BtreeFacts.search_Some _ _ _ Hsearch) as [Hinr Hcr0].
  assert (Hrfd : fd rtmp = fd_).
  { rewrite Hcf in Hcr0. unfold compare_fd in Hcr0. simpl in Hcr0.
    symmetry. apply CIntFacts.sub_eq0; auto. }
  assert (Hrr : compare (remote_idx ctx) rtmp rtmp = 0).
  { rewrite Hcf. apply compare_fd_refl. }
  destruct (BtreeFacts.delete_present _ rtmp rtmp Hinr Hrr) as [Hdel Hlen].
  destruct (disconnect_services_spec fd_ fuel (service_reg_idx ctx))
    as (sidx & out & Hrun & _ & Hc' & Hiff & Hev & Hn); auto.
  assert (Hm : forall e, In e (elems (remote_idx ctx)) ->
                 (matches (remote_idx ctx) rtmp e = true <-> fd e = fd rtmp)).
  { intros e He. unfold matches. rewrite Hcf. unfold compare_fd.
    rewrite Z.eqb_eq. split.
    - intros H0. symmetry. apply CIntFacts.sub_eq0; auto.
    - intros ->. apply CIntFacts.sub_diag. }
  eexists rtmp, _, sidx, out.
  split.
  { unfold rvi_disconnect. rewrite Hsearch, Hdel. simpl. rewrite Hrun.
    reflexivity. }
  split; [exact Hinr|]. split; [exact Hrfd|]. split; [exact Hcf|].
  split; [|split; [exact Hlen|]].
  - intros e. simpl. split.
    + intros He. split; [now apply BtreeFacts.remove_first_In in He|].
      rewrite <- Hrfd.
      apply (remove_first_key fd (matches (remote_idx ctx) rtmp) (fd rtmp)
               (elems (remote_idx ctx))); auto.
    + intros [He Hne]. apply remove_first_keeps; [exact He|].
      destruct (matches (remote_idx ctx) rtmp e) eqn:M; [|reflexivity].
      apply Hm in M; [congruence | exact He].
  - split; [exact Hc'|]. split; [exact Hiff|]. split; [exact Hev | exact Hn].
Qed.

Ltac sample_ctx_facts :=
  match goal with
  | |- wf_context _ => repeat split; reflexivity
  | |- CInt.in_range _ => in_int_range
  | |- fds_in_range _ => intros ? [<-|[]]; in_int_range
  | |- registrants_in_range _ => intros ? [<-|[<-|[]]]; in_int_range
  | |- unique_fds _ =>
      unfold unique_fds; simpl; repeat constructor; simpl; tauto
  | |- remote_present _ _ =>
      exists Sample.remote5; split; [now left | reflexivity]
  | |- (_ <= _)%nat => simpl; lia
  end.

(** X3.  On a registry with one entry per descriptor, disconnecting a
    known descriptor returns [RVI_OK] and removes exactly that entry and
    exactly the records of the registrant index registered by it: every
    other connection and every service of another registrant stays. *)
Theorem rvi_disconnect_known_fd :
  forall (fuel : nat) (ctx : rvi_context_t) (fd_ : Z),
    wf_context ctx ->
    CInt.in_range fd_ ->
    fds_in_range ctx ->
    registrants_in_range ctx ->
    unique_fds ctx ->
    remote_present ctx fd_ ->
    (List.length (elems (service_reg_idx ctx)) <= fuel)%nat ->
    exists r,
      rvi_disconnect fuel ctx fd_ = Some r /\
      r_ret r = RVI_OK /\
      wf_context (r_ctx r) /\
      (forall e, In e (elems (remote_idx (r_ctx r))) <->
                 In e (elems (remote_idx ctx)) /\ fd e <> fd_) /\
      count (remote_idx (r_ctx r)) = count (remote_idx ctx) - 1 /\
      (forall s, in_reg_idx (r_ctx r) s <->
                 in_reg_idx ctx s /\ registrant s <> fd_).
Proof.
  intros fuel ctx fd_ Hwf Hfd Hr Hs Hu Hp Hfuel.
  destruct (rvi_disconnect_known fuel ctx fd_ Hwf Hfd Hr Hs Hu Hp Hfuel)
    as (rtmp & ridx & sidx & out & Hrun & _ & _ & Hcf & Hri & Hlen
        & Hcr & Hsi & _ & _).
  eexists. split; [exact Hrun|]. simpl.
  split; [reflexivity|].
  split; [|split; [exact Hri | split; [|exact Hsi]]].
  - destruct Hwf as (_ & Hcn & _). repeat split; assumption.
  - unfold count. rewrite <- Hlen. lia.
Qed.

Lemma rvi_disconnect_known_fd_witness :
  exists r,
    rvi_disconnect 2 Sample.ctx 5 = Some r /\
    r_ret r = RVI_OK /\
    wf_context (r_ctx r) /\
    (forall e, In e (elems (remote_idx (r_ctx r))) <->
               In e (elems (remote_idx Sample.ctx)) /\ fd e <> 5) /\
    count (remote_idx (r_ctx r)) = count (remote_idx Sample.ctx) - 1 /\
    (forall s, in_reg_idx (r_ctx r) s <->
               in_reg_idx Sample.ctx s /\ registrant s <> 5).
Proof.
  apply (rvi_disconnect_known_fd 2 Sample.ctx 5); sample_ctx_facts.
Defined.



(** X5.  What a successful [rvi_disconnect] releases: the BIO chain and
    the struct of the disconnected remote, and between the two one
    service per record taken out of the registrant index, each of them
    registered by the disconnected descriptor. *)
Theorem rvi_disconnect_releases :
  forall (fuel : nat) (ctx : rvi_context_t) (fd_ : Z),
    wf_context ctx ->
    CInt.in_range fd_ ->
    fds_in_range ctx ->
    registrants_in_range ctx ->
    unique_fds ctx ->
    remote_present ctx fd_ ->
    (List.length (elems (service_reg_idx ctx)) <= fuel)%nat ->
    exists r rtmp out,
      rvi_disconnect fuel ctx fd_ = Some r /\
      r_out r = BIO_free_all (sbio rtmp) :: out ++ [Free_remote rtmp] /\
      In rtmp (elems (remote_idx ctx)) /\ fd rtmp = fd_ /\
      (forall ev, In ev out ->
                  exists s, ev = Free_service s /\ in_reg_idx ctx s /\
                            registrant s = fd_) /\
      (List.length out + List.length (elems (service_reg_idx (r_ctx r)))
       = List.length (elems (service_reg_idx ctx)))%nat.
Proof.
  intros fuel ctx fd_ Hwf Hfd Hr Hs Hu Hp Hfuel.
  destruct (rvi_disconnect_known fuel ctx fd_ Hwf Hfd Hr Hs Hu Hp Hfuel)
    as (rtmp & ridx & sidx & out & Hrun & Hin & Hrfd & _ & _ & _
        & _ & _ & Hev & Hn).
  eexists. exists rtmp, out. split; [exact Hrun|]. simpl.
  repeat split; auto.
Qed.

Lemma rvi_disconnect_releases_witness :
  exists r rtmp out,
    rvi_disconnect 2 Sample.ctx 5 = Some r /\
    r_out r = BIO_free_all (sbio rtmp) :: out ++ [Free_remote rtmp] /\
    In rtmp (elems (remote_idx Sample.ctx)) /\ fd rtmp = 5 /\
    (forall ev, In ev out ->
                exists s, ev = Free_service s /\ in_reg_idx Sample.ctx s /\
                          registrant s = 5) /\
    (List.length out + List.length (elems (service_reg_idx (r_ctx r)))
     = List.length (elems (service_reg_idx Sample.ctx)))%nat.
Proof.
  apply (rvi_disconnect_releases 2 Sample.ctx 5); sample_ctx_facts.
Defined.

(** ** [rvi_connect]: insertion, lookup and failure paths *)

Lemma insert_sorted_In {A : Type} (cmp : A -> A -> Z) (x e : A) :
  forall l : list A, In e (insert_sorted cmp x l) <-> e = x \/ In e l.
Proof.
  induction l as [|a l IH]; simpl.
  - intuition.
  - destruct (cmp x a <? 0); simpl.
    + intuition.
    + rewrite IH. intuition.
Qed.

Lemma find_insert_sorted {A : Type} (cmp : A -> A -> Z) (p : A -> bool)
  (x : A) :
  forall l : list A,
    (forall e, In e l -> p e = false) -> p x = true ->
    find p (insert_sorted cmp x l) = Some x.
Proof.
  induction l as [|a l IH]; simpl; intros Hl Hx.
  - now rewrite Hx.
  - destruct (cmp x a <? 0); simpl.
    + now rewrite Hx.
    + rewrite (Hl a) by now left. apply IH; auto.
Qed.

Lemma remove_first_insert_sorted {A : Type} (cmp : A -> A -> Z)
  (p : A -> bool) (x : A) :
  forall l : list A,
    (forall e, In e l -> p e = false) -> p x = true ->
    remove_first p (insert_sorted cmp x l) = l.
Proof.
  induction l as [|a l IH]; simpl; intros Hl Hx.
  - now rewrite Hx.
  - destruct (cmp x a <? 0); simpl.
    + now rewrite Hx.
    + rewrite (Hl a) by now left. f_equal. apply IH; auto.
Qed.

Lemma existsb_none {A : Type} (p : A -> bool) (l : list A) :
  (forall e, In e l -> p e = false) -> existsb p l = false.
Proof.
  induction l as [|a l IH]; simpl; intros H.
  - reflexivity.
  - rewrite (H a) by now left. apply IH. auto.
Qed.

Lemma btree_insert_shape {A : Type} (dup : dup_policy) (t : btree_t A)
  (x : A) :
  order (fst (btree_insert dup t x)) = order t /\
  compare (fst (btree_insert dup t x)) = compare t /\
  (forall e, In e (elems (fst (btree_insert dup t x))) ->
             e = x \/ In e (elems t)) /\
  (forall e, In e (elems t) -> In e (elems (fst (btree_insert dup t x)))).
Proof.
  unfold btree_insert. destruct dup; simpl.
  - repeat split; auto; intros e He; apply insert_sorted_In in He || idtac;
      auto. apply insert_sorted_In. now right.
  - destruct (existsb (matches t x) (elems t)); simpl.
    + repeat split; auto.
    + repeat split; auto; intros e He; apply insert_sorted_In in He || idtac;
        auto. apply insert_sorted_In. now right.
Qed.

(** A key without equal in the tree is stored, whatever the policy. *)
Lemma btree_insert_fresh {A : Type} (dup : dup_policy) (t : btree_t A)
  (x : A) :
  (forall e, In e (elems t) -> matches t x e = false) ->
  btree_insert dup t x
  = ({| order := order t; compare := compare t;
        elems := insert_sorted (compare t) x (elems t) |}, 0).
Proof.
  intros H. unfold btree_insert. destruct dup; [reflexivity|].
  now rewrite (existsb_none _ _ H).
Qed.

(** The successful path of [rvi_connect], in full. *)
Lemma rvi_connect_success (E : Z) (dup : dup_policy) (ctx : rvi_context_t)
  (addr port : string) (net : transport) (b : BIO) :
  handshake_ok net b ->
  cred_ok ctx ->
  exists out,
    rvi_connect E dup ctx (Some addr) (Some port) net
    = Some {| r_ctx :=
                set_remote_idx ctx
                  (fst (btree_insert dup (remote_idx ctx)
                          (remote_of b (ssl_get_fd net))));
              r_ret := ssl_get_fd net;
              r_out := out |}.
Proof.
  intros (Hb & (s & Hs) & Hc & Hh & Hfd & _) (c & Hcred & Hlen).
  unfold rvi_connect, rvi_remote_create. rewrite Hb, Hs.
  destruct (do_connect net <=? 0) eqn:E1; [apply Z.leb_le in E1; lia|].
  destruct (do_handshake net <=? 0) eqn:E2; [apply Z.leb_le in E2; lia|].
  destruct (ssl_get_fd net <? 0) eqn:E3; [apply Z.ltb_lt in E3; lia|].
  rewrite Hcred.
  destruct (500 <=? CString.strlen (au_message c)) eqn:E4;
    [apply Z.leb_le in E4; lia|].
  eexists. reflexivity.
Qed.

Ltac sample_net_facts :=
  match goal with
  | |- handshake_ok _ _ =>
      split; [reflexivity|]; split; [eexists; reflexivity|];
      unfold CInt.int_max; simpl; lia
  | |- cred_ok _ => eexists; split; [reflexivity | vm_compute; reflexivity]
  | |- _ => sample_ctx_facts
  end.

(** X6.  After a successful [rvi_connect] a lookup of the returned
    descriptor in the connection registry finds an entry with that
    descriptor, whether [btree_insert] keeps or rejects equal keys. *)
Theorem rvi_connect_then_search :
  forall (E : Z) (dup : dup_policy) (ctx : rvi_context_t)
         (addr port : string) (net : transport) (b : BIO),
    wf_context ctx ->
    fds_in_range ctx ->
    handshake_ok net b ->
    cred_ok ctx ->
    exists r found,
      rvi_connect E dup ctx (Some addr) (Some port) net = Some r /\
      r_ret r = ssl_get_fd net /\
      btree_search (remote_idx (r_ctx r)) (rkey_of (r_ret r)) = Some found /\
      fd found = r_ret r.
Proof.
  intros E dup ctx addr port net b (Hcf & _ & _) Hrange Hok Hcred.
  destruct (rvi_connect_success E dup ctx addr port net b Hok Hcred)
    as [out Hrun].
  destruct Hok as (_ & _ & _ & _ & Hfd).
  set (x := remote_of b (ssl_get_fd net)) in *.
  set (t := remote_idx ctx) in *.
  destruct (btree_insert_shape dup t x) as (_ & Hcmp & Hsub & Hsup).
  assert (Hx : CInt.in_range (fd x)).
  { unfold CInt.in_range, CInt.int_min, CInt.int_max in *. simpl. lia. }
  assert (Hex : exists e, In e (elems (fst (btree_insert dup t x)))
                          /\ fd e = fd x).
  { unfold btree_insert. destruct dup; simpl.
    - exists x. split; [apply insert_sorted_In; now left | reflexivity].
    - destruct (existsb (matches t x) (elems t)) eqn:Ex; simpl.
      + apply existsb_exists in Ex. destruct Ex as (e & He & Hm).
        exists e. split; [exact He|].
        unfold matches in Hm. apply Z.eqb_eq in Hm.
        rewrite Hcf in Hm. unfold compare_fd in Hm.
        symmetry. apply CIntFacts.sub_eq0; auto.
      + exists x. split; [apply insert_sorted_In; now left | reflexivity]. }
  destruct Hex as (e & He & Hfe).
  assert (Hk : compare (fst (btree_insert dup t x))
                 (rkey_of (ssl_get_fd net)) e = 0).
  { rewrite Hcmp, Hcf. unfold compare_fd. simpl.
    rewrite Hfe. simpl. apply CIntFacts.sub_diag. }
  destruct (BtreeFacts.search_found _ _ _ He Hk) as [found Hfound].
  eexists. exists found. split; [exact Hrun|]. simpl.
  split; [reflexivity|]. split; [exact Hfound|].
  destruct (BtreeFacts.search_Some _ _ _ Hfound) as [Hin Hz].
  rewrite Hcmp, Hcf in Hz. unfold compare_fd in Hz. simpl in Hz.
  symmetry. apply CIntFacts.sub_eq0; auto.
  destruct (Hsub found Hin) as [->|Hold]; [exact Hx | now apply Hrange].
Qed.

Lemma rvi_connect_then_search_witness :
  exists r found,
    rvi_connect 1 DupReject Sample.ctx (Some "peer"%string)
      (Some "8807"%string) Sample.net5 = Some r /\
    r_ret r = 5 /\
    btree_search (remote_idx (r_ctx r)) (rkey_of (r_ret r)) = Some found /\
    fd found = r_ret r.
Proof.
  apply (rvi_connect_then_search 1 DupReject Sample.ctx "peer" "8807"
           Sample.net5 16384); sample_net_facts.
Defined.

Lemma btree_eta {A : Type} (t : btree_t A) :
  {| order := order t; compare := compare t; elems := elems t |} = t.
Proof. now destruct t. Qed.

Lemma context_eta (ctx : rvi_context_t) :
  set_service_reg_idx (set_remote_idx ctx (remote_idx ctx))
    (service_reg_idx ctx) = ctx.
Proof. now destruct ctx. Qed.

(** X7.  Round trip: a connection made on a descriptor that the registry
    does not hold, and for which no service is registered, is undone by
    [rvi_disconnect] of the returned descriptor: the call returns
    [RVI_OK], frees the BIO chain of the connection and hands back the
    context as it was before [rvi_connect]. *)
Theorem rvi_connect_disconnect_roundtrip :
  forall (E : Z) (dup : dup_policy) (fuel : nat) (ctx : rvi_context_t)
         (addr port : string) (net : transport) (b : BIO),
    wf_context ctx ->
    fds_in_range ctx ->
    registrants_in_range ctx ->
    ~ remote_present ctx (ssl_get_fd net) ->
    (forall s, in_reg_idx ctx s -> registrant s <> ssl_get_fd net) ->
    handshake_ok net b ->
    cred_ok ctx ->
    exists r1 r2,
      rvi_connect E dup ctx (Some addr) (Some port) net = Some r1 /\
      rvi_disconnect fuel (r_ctx r1) (r_ret r1) = Some r2 /\
      r_ret r2 = RVI_OK /\
      r_ctx r2 = ctx /\
      r_out r2 = [BIO_free_all (Some b);
                  Free_remote (remote_of b (ssl_get_fd net))].
Proof.
  intros E dup fuel ctx addr port net b (Hcf & Hcn & Hcr) Hrange Hsrange
         Habsent Hnosvc Hok Hcred.
  destruct (rvi_connect_success E dup ctx addr port net b Hok Hcred)
    as [out Hrun].
  destruct Hok as (_ & _ & _ & _ & Hfd).
  set (fd_ := ssl_get_fd net) in *.
  set (x := remote_of b fd_) in *.
  assert (Hx : CInt.in_range fd_).
  { unfold CInt.in_range, CInt.int_min, CInt.int_max in *. lia. }
  assert (Hother : forall (k : rvi_remote_t) e,
             fd k = fd_ -> In e (elems (remote_idx ctx)) ->
             matches (remote_idx ctx) k e = false).
  { intros k e Hk He. unfold matches. apply Z.eqb_neq. rewrite Hcf.
    unfold compare_fd. rewrite Hk. apply CIntFacts.sub_neq0; auto.
    intros Heq. apply Habsent. exists e. split; auto. }
  assert (Hself : forall k : rvi_remote_t,
             fd k = fd_ -> matches (remote_idx ctx) k x = true).
  { intros k Hk. unfold matches. apply Z.eqb_eq. rewrite Hcf.
    unfold compare_fd. rewrite Hk. simpl. apply CIntFacts.sub_diag. }
  rewrite (btree_insert_fresh dup (remote_idx ctx) x) in Hrun
    by (intros e He; now apply Hother).
  simpl fst in Hrun.
  set (t1 := {| order := order (remote_idx ctx);
                compare := compare (remote_idx ctx);
                elems := insert_sorted (compare (remote_idx ctx)) x
                           (elems (remote_idx ctx)) |}) in *.
  assert (Hsearch : btree_search t1 (rkey_of fd_) = Some x).
  { unfold btree_search. simpl.
    apply (find_insert_sorted _ (matches (remote_idx ctx) (rkey_of fd_))).
    - intros e He. now apply Hother.
    - now apply Hself. }
  assert (Hdel : btree_delete t1 x = (remote_idx ctx, 0)).
  { unfold btree_delete.
    assert (Hex : existsb (matches t1 x) (elems t1) = true).
    { apply existsb_exists. exists x. split.
      - simpl. apply insert_sorted_In. now left.
      - now apply (Hself x). }
    rewrite Hex. f_equal. simpl.
    rewrite (remove_first_insert_sorted _ (matches (remote_idx ctx) x)).
    - apply btree_eta.
    - intros e He. now apply Hother.
    - now apply Hself. }
  assert (Hnone : btree_search (service_reg_idx ctx) (skey_of_registrant fd_)
                  = None).
  { apply BtreeFacts.search_None_intro. intros s Hs.
    rewrite Hcr, compare_registrant_skey.
    apply CIntFacts.sub_neq0; auto.
    intros Heq. now apply (Hnosvc s Hs). }
  assert (Hloop : disconnect_services fuel (service_reg_idx ctx)
                    (skey_of_registrant fd_)
                  = Some (service_reg_idx ctx, [])).
  { destruct fuel; simpl; now rewrite Hnone. }
  eexists. eexists. split; [exact Hrun|]. simpl r_ctx. simpl r_ret.
  split.
  - unfold rvi_disconnect. simpl remote_idx. rewrite Hsearch, Hdel.
    simpl. rewrite Hloop. reflexivity.
  - simpl. split; [reflexivity|]. split; [|reflexivity].
    destruct ctx; reflexivity.
Qed.

Lemma rvi_connect_disconnect_roundtrip_witness :
  exists r1 r2,
    rvi_connect 1 DupKeep Sample.ctx (Some "peer"%string)
      (Some "8807"%string)
      {| new_ssl_connect := Some 16384; get_ssl := Some 20480;
         do_connect := 1; do_handshake := 1; ssl_get_fd := 9;
         read_len := 0; read_data := EmptyString |} = Some r1 /\
    rvi_disconnect 0 (r_ctx r1) (r_ret r1) = Some r2 /\
    r_ret r2 = RVI_OK /\
    r_ctx r2 = Sample.ctx /\
    r_out r2 = [BIO_free_all (Some 16384); Free_remote (remote_of 16384 9)].
Proof.
  apply (rvi_connect_disconnect_roundtrip 1 DupKeep 0 Sample.ctx "peer"
           "8807"
           {| new_ssl_connect := Some 16384; get_ssl := Some 20480;
              do_connect := 1; do_handshake := 1; ssl_get_fd := 9;
              read_len := 0; read_data := EmptyString |} 16384);
    try sample_net_facts.
  - intros (r & [<-|[]] & H). discriminate.
  - intros s [<-|[<-|[]]]; discriminate.
Defined.

(** X8.  [rvi_connect] never touches the service indexes, and it changes
    the context only on the path that returns the descriptor of a
    completed handshake: every other return leaves the context as it
    was. *)
Theorem rvi_connect_frame :
  forall (E : Z) (dup : dup_policy) (ctx : rvi_context_t)
         (addr port : option string) (net : transport) (r : result),
    rvi_connect E dup ctx addr port net = Some r ->
    service_name_idx (r_ctx r) = service_name_idx ctx /\
    service_reg_idx (r_ctx r) = service_reg_idx ctx /\
    (r_ctx r = ctx \/
     (r_ret r = ssl_get_fd net /\ 0 <= ssl_get_fd net /\
      0 < do_connect net /\ 0 < do_handshake net)).
Proof.
  intros E dup ctx addr port net r. unfold rvi_connect, rvi_remote_create.
  destruct addr as [a|]; [|intros [= <-]; simpl; auto].
  destruct port as [p|]; [|intros [= <-]; simpl; auto].
  destruct (new_ssl_connect net) as [b|]; [|intros [= <-]; simpl; auto].
  destruct (get_ssl net) as [s|]; [|intros [= <-]; simpl; auto].
  destruct (do_connect net <=? 0) eqn:E1; [intros [= <-]; simpl; auto|].
  destruct (do_handshake net <=? 0) eqn:E2; [intros [= <-]; simpl; auto|].
  destruct (ssl_get_fd net <? 0) eqn:E3; [discriminate|].
  destruct (hd None (cred ctx)) as [c|]; [|discriminate].
  destruct (500 <=? CString.strlen (au_message c)); [discriminate|].
  intros [= <-]. simpl.
  apply Z.leb_gt in E1. apply Z.leb_gt in E2. apply Z.ltb_ge in E3.
  split; [reflexivity|]. split; [reflexivity|]. right. repeat split; lia.
Qed.

Lemma rvi_connect_frame_witness :
  exists r,
    rvi_connect 1 DupKeep Sample.ctx (Some "peer"%string) None Sample.net5
      = Some r /\
    service_name_idx (r_ctx r) = service_name_idx Sample.ctx /\
    service_reg_idx (r_ctx r) = service_reg_idx Sample.ctx /\
    (r_ctx r = Sample.ctx \/
     (r_ret r = ssl_get_fd Sample.net5 /\ 0 <= ssl_get_fd Sample.net5 /\
      0 < do_connect Sample.net5 /\ 0 < do_handshake Sample.net5)).
Proof.
  eexists. split; [reflexivity|].
  apply (rvi_connect_frame 1 DupKeep Sample.ctx (Some "peer"%string) None
           Sample.net5).
  reflexivity.
Defined.

(** X9.  When the transport fails after the BIO chain exists (no SSL
    pointer, connect or handshake not positive), [rvi_connect] frees the
    chain, stores nothing and returns a negative code: -1 for a failed
    connect or handshake. *)
Theorem rvi_connect_failure_frees_bio :
  forall (E : Z) (dup : dup_policy) (ctx : rvi_context_t)
         (addr port : string) (net : transport) (b : BIO),
    new_ssl_connect net = Some b ->
    get_ssl net = None \/ do_connect net <= 0 \/ do_handshake net <= 0 ->
    exists r,
      rvi_connect E dup ctx (Some addr) (Some port) net = Some r /\
      r_ctx r = ctx /\
      In (BIO_free_all (Some b)) (r_out r) /\
      r_ret r = match get_ssl net with Some _ => -1 | None => - E end.
Proof.
  intros E dup ctx addr port net b Hb Hfail.
  unfold rvi_connect. rewrite Hb.
  destruct (get_ssl net) as [s|].
  - destruct (do_connect net <=? 0) eqn:E1.
    + eexists. split; [reflexivity|]. simpl. auto.
    + destruct (do_handshake net <=? 0) eqn:E2.
      * eexists. split; [reflexivity|]. simpl. auto.
      * apply Z.leb_gt in E1. apply Z.leb_gt in E2.
        destruct Hfail as [H|[H|H]]; [discriminate | lia | lia].
  - eexists. split; [reflexivity|]. simpl. auto.
Qed.

Lemma rvi_connect_failure_frees_bio_witness :
  exists r,
    rvi_connect 1 DupKeep Sample.ctx (Some "peer"%string)
      (Some "8807"%string)
      {| new_ssl_connect := Some 16384; get_ssl := Some 20480;
         do_connect := 1; do_handshake := 0; ssl_get_fd := 9;
         read_len := 0; read_data := EmptyString |} = Some r /\
    r_ctx r = Sample.ctx /\
    In (BIO_free_all (Some 16384)) (r_out r) /\
    r_ret r = -1.
Proof.
  apply (rvi_connect_failure_frees_bio 1 DupKeep Sample.ctx "peer" "8807"
           {| new_ssl_connect := Some 16384; get_ssl := Some 20480;
              do_connect := 1; do_handshake := 0; ssl_get_fd := 9;
              read_len := 0; read_data := EmptyString |} 16384).
  - reflexivity.
  - right. right. simpl. lia.
Defined.

(** X10.  [rvi_connect] does not check what [rvi_remote_create] returns:
    when the handshake succeeds and the socket descriptor is negative the
    remote is NULL and the function reads [remote->fd] through it. *)
Theorem rvi_connect_negative_fd :
  forall (E : Z) (dup : dup_policy) (ctx : rvi_context_t)
         (addr port : string) (net : transport) (b : BIO) (s : SSL),
    new_ssl_connect net = Some b ->
    get_ssl net = Some s ->
    0 < do_connect net ->
    0 < do_handshake net ->
    ssl_get_fd net < 0 ->
    fst (rvi_remote_create (Some b) (ssl_get_fd net)) = None /\
    rvi_connect E dup ctx (Some addr) (Some port) net = None.
Proof.
  intros E dup ctx addr port net b s Hb Hs Hc Hh Hfd.
  unfold rvi_connect, rvi_remote_create. rewrite Hb, Hs.
  destruct (do_connect net <=? 0) eqn:E1; [apply Z.leb_le in E1; lia|].
  destruct (do_handshake net <=? 0) eqn:E2; [apply Z.leb_le in E2; lia|].
  destruct (ssl_get_fd net <? 0) eqn:E3; [|apply Z.ltb_ge in E3; lia].
  split; reflexivity.
Qed.

Lemma rvi_connect_negative_fd_witness :
  fst (rvi_remote_create (Some 16384) (-1)) = None /\
  rvi_connect 1 DupKeep Sample.ctx (Some "peer"%string) (Some "8807"%string)
    {| new_ssl_connect := Some 16384; get_ssl := Some 20480;
       do_connect := 1; do_handshake := 1; ssl_get_fd := -1;
       read_len := 0; read_data := EmptyString |} = None.
Proof.
  apply (rvi_connect_negative_fd 1 DupKeep Sample.ctx "peer" "8807"
           {| new_ssl_connect := Some 16384; get_ssl := Some 20480;
              do_connect := 1; do_handshake := 1; ssl_get_fd := -1;
              read_len := 0; read_data := EmptyString |} 16384 20480);
    simpl; try reflexivity; lia.
Defined.


(** ** [rvi_cleanup]: termination and what it frees *)

Lemma remove_first_of_found {A : Type} (p q : A -> bool) (x : A) :
  forall l : list A,
    find q l = Some x ->
    (forall e, In e l -> p e = true -> q e = true) ->
    p x = true ->
    forall s, In s l -> s = x \/ In s (remove_first p l).
Proof.
  induction l as [|a l IH]; simpl; intros Hf Hpq Hx s Hs.
  - contradiction.
  - destruct (q a) eqn:Qa.
    + injection Hf as ->. rewrite Hx.
      destruct Hs as [->|Hs]; [now left | now right].
    + destruct (p a) eqn:Pa.
      * apply Hpq in Pa; [congruence | now left].
      * destruct Hs as [->|Hs]; [right; now left|].
        destruct (IH Hf (fun e He => Hpq e (or_intror He)) Hx s Hs)
          as [->|H]; [now left | right; now right].
Qed.

(** The service loop frees every record of the registrant. *)
Lemma disconnect_services_frees_all (fd_ : Z) (fuel : nat) :
  forall (reg reg' : btree_t rvi_service_t) (out : list event),
    compare reg = compare_registrant ->
    CInt.in_range fd_ ->
    (forall e, In e (elems reg) -> CInt.in_range (registrant e)) ->
    disconnect_services fuel reg (skey_of_registrant fd_) = Some (reg', out) ->
    forall s, In s (elems reg) -> registrant s = fd_ ->
              In (Free_service s) out.
Proof.
  induction fuel as [|fuel IH]; intros reg reg' out Hcmp Hfd Hrange Hrun s
    Hs Hreg; simpl in Hrun;
    destruct (btree_search reg (skey_of_registrant fd_)) as [stmp|] eqn:Hsr;
    try discriminate;
    try (exfalso; apply (BtreeFacts.search_None _ _ _ Hsr Hs);
         rewrite Hcmp, compare_registrant_skey, Hreg;
         apply CIntFacts.sub_diag).
  destruct (BtreeFacts.search_Some _ _ _ Hsr) as [Hin Hk].
  rewrite Hcmp, compare_registrant_skey in Hk.
  assert (Hst : registrant stmp = fd_).
  { symmetry. apply CIntFacts.sub_eq0; auto. }
  assert (Hrefl : compare reg stmp stmp = 0).
  { rewrite Hcmp. apply compare_registrant_refl. }
  destruct (BtreeFacts.delete_present reg stmp stmp Hin Hrefl) as [Hdel _].
  rewrite Hdel in Hrun. simpl in Hrun.
  set (reg1 := {| order := order reg; compare := compare reg;
                  elems := remove_first (matches reg stmp) (elems reg) |})
    in *.
  destruct (disconnect_services fuel reg1 (skey_of_registrant fd_))
    as [[reg2 out2]|] eqn:Hrec; [|discriminate].
  injection Hrun as <- <-.
  assert (Hcase : s = stmp \/ In s (elems reg1)).
  { apply (remove_first_of_found (matches reg stmp)
             (matches reg (skey_of_registrant fd_)) stmp (elems reg)); auto.
    - intros e Hie He. unfold matches in *. apply Z.eqb_eq in He.
      apply Z.eqb_eq. rewrite Hcmp in *. rewrite compare_registrant_skey.
      apply compare_registrant_zero_sub in He.
      apply CIntFacts.sub_eq0 in He; auto. rewrite <- He, Hst.
      apply CIntFacts.sub_diag.
    - unfold matches. now apply Z.eqb_eq. }
  destruct Hcase as [->|Hkeep].
  - now left.
  - right. apply (IH reg1 reg2 out2); auto.
    intros e He. apply Hrange. simpl in He.
    now apply BtreeFacts.remove_first_In in He.
Qed.

Lemma fds_created_in_range (ctx : rvi_context_t) :
  fds_created ctx -> fds_in_range ctx.
Proof.
  intros H r Hr. specialize (H r Hr).
  unfold CInt.in_range, CInt.int_min, CInt.int_max in *. lia.
Qed.

(** [rvi_disconnect] on a descriptor that some entry carries, without
    assuming that one entry only carries it. *)
Lemma rvi_disconnect_present (fuel : nat) (ctx : rvi_context_t) (fd_ : Z) :
  wf_context ctx ->
  CInt.in_range fd_ ->
  fds_in_range ctx ->
  registrants_in_range ctx ->
  remote_present ctx fd_ ->
  (List.length (elems (service_reg_idx ctx)) <= fuel)%nat ->
  exists r,
    rvi_disconnect fuel ctx fd_ = Some r /\
    wf_context (r_ctx r) /\
    S (List.length (elems (remote_idx (r_ctx r))))
      = List.length (elems (remote_idx ctx)) /\
    (forall e, In e (elems (remote_idx (r_ctx r))) ->
               In e (elems (remote_idx ctx))) /\
    (forall e, In e (elems (remote_idx ctx)) -> fd e <> fd_ ->
               In e (elems (remote_idx (r_ctx r)))) /\
    service_name_idx (r_ctx r) = service_name_idx ctx /\
    (forall s, in_reg_idx (r_ctx r) s <->
               in_reg_idx ctx s /\ registrant s <> fd_) /\
    (List.length (elems (service_reg_idx (r_ctx r)))
     <= List.length (elems (service_reg_idx ctx)))%nat /\
    (forall s, in_reg_idx ctx s -> registrant s = fd_ ->
               In (Free_service s) (r_out r)) /\
    r_ret r = RVI_OK /\
    same_config ctx (r_ctx r) /\
    (forall s, In (Free_service s) (r_out r) ->
               in_reg_idx ctx s /\ registrant s = fd_) /\
    (exists rtmp,
        fd rtmp = fd_ /\
        In rtmp (elems (remote_idx ctx)) /\
        In (Free_remote rtmp) (r_out r) /\
        In (BIO_free_all (sbio rtmp)) (r_out r) /\
        forall e, In e (elems (remote_idx ctx)) ->
                  e = rtmp \/ In e (elems (remote_idx (r_ctx r)))).
Proof.
  intros (Hcf & Hcn & Hcr) Hfd Hrange Hsrange (r0 & Hin0 & Hfd0) Hfuel.
  assert (Hk : compare (remote_idx ctx) (rkey_of fd_) r0 = 0).
  { rewrite Hcf. unfold compare_fd. simpl. rewrite Hfd0.
    apply CIntFacts.sub_diag. }
  destruct (BtreeFacts.search_found _ _ _ Hin0 Hk) as [rtmp Hsearch].
  destruct (BtreeFacts.search_Some _ _ _ Hsearch) as [Hinr Hcr0].
  assert (Hrfd : fd rtmp = fd_).
  { rewrite Hcf in Hcr0. unfold compare_fd in Hcr0. simpl in Hcr0.
    symmetry. apply CIntFacts.sub_eq0; auto. }
  assert (Hrr : compare (remote_idx ctx) rtmp rtmp = 0).
  { rewrite Hcf. apply compare_fd_refl. }
  destruct (BtreeFacts.delete_present _ rtmp rtmp Hinr Hrr) as [Hdel Hlen].
  destruct (disconnect_services_spec fd_ fuel (service_reg_idx ctx))
    as (sidx & out & Hrun & _ & Hc' & Hiff & Hev & Hn); auto.
  pose proof (disconnect_services_frees_all fd_ fuel (service_reg_idx ctx)
                sidx out Hcr Hfd Hsrange Hrun) as Hall.
  eexists. split.
  { unfold rvi_disconnect. rewrite Hsearch, Hdel. simpl. rewrite Hrun.
    reflexivity. }
  simpl. split; [repeat split; assumption|].
  split; [exact Hlen|].
  split; [intros e He; now apply BtreeFacts.remove_first_In in He|].
  split.
  { intros e He Hne. apply remove_first_keeps; [exact He|].
    unfold matches. apply Z.eqb_neq. rewrite Hcf. unfold compare_fd.
    apply CIntFacts.sub_neq0; auto. congruence. }
  split; [reflexivity|].
  split; [exact Hiff|].
  split; [lia|].
  split; [intros s Hs Hreg; right; apply in_or_app; left; now apply Hall|].
  split; [reflexivity|].
  split; [unfold same_config; simpl; repeat split|].
  split.
  { intros s [Hs|Hs]; [discriminate|].
    apply in_app_or in Hs. destruct Hs as [Hs|[Hs|[]]]; [|discriminate].
    destruct (Hev _ Hs) as (s' & E & Hin & Hreg). injection E as <-.
    now split. }
  exists rtmp. split; [exact Hrfd|]. split; [exact Hinr|].
  split; [right; apply in_or_app; right; now left|].
  split; [now left|].
  intros e He.
  apply (remove_first_of_found (matches (remote_idx ctx) rtmp)
           (matches (remote_idx ctx) (rkey_of fd_)) rtmp
           (elems (remote_idx ctx))); auto.
  - intros e' _. unfold matches. rewrite Hcf. unfold compare_fd. simpl.
    now rewrite Hrfd.
  - unfold matches. rewrite Hrr. reflexivity.
Qed.

Lemma cleanup_remotes_eq (fuel : nat) (ctx : rvi_context_t) :
  cleanup_remotes fuel ctx =
  if count (remote_idx ctx) =? 0 then Some (ctx, [])
  else
    match fuel with
    | O => None
    | S fuel' =>
        match btree_find (remote_idx ctx) (rkey_of 0) with
        | Some rtmp =>
            match rvi_disconnect fuel' ctx (fd rtmp) with
            | None => None
            | Some r =>
                match cleanup_remotes fuel' (r_ctx r) with
                | None => None
                | Some (ctx', out) => Some (ctx', r_out r ++ out)
                end
            end
        | None => cleanup_remotes fuel' ctx
        end
    end.
Proof. destruct fuel; reflexivity. Qed.

Lemma count_nil {A R : Type} (t : btree A R) :
  elems t = [] -> (count t =? 0) = true.
Proof. unfold count. intros ->. reflexivity. Qed.

Lemma count_cons {A R : Type} (t : btree A R) (a : A) (l : list A) :
  elems t = a :: l -> (count t =? 0) = false.
Proof. unfold count. intros ->. apply Z.eqb_neq. simpl. lia. Qed.

(** The loop over the remotes ends with an empty connection registry and
    frees every service whose registrant was connected. *)
Lemma cleanup_remotes_enough (fuel : nat) :
  forall ctx : rvi_context_t,
    wf_context ctx ->
    fds_created ctx ->
    registrants_in_range ctx ->
    (List.length (elems (remote_idx ctx))
     + List.length (elems (service_reg_idx ctx)) <= fuel)%nat ->
    exists ctx' out,
      cleanup_remotes fuel ctx = Some (ctx', out) /\
      elems (remote_idx ctx') = [] /\
      wf_context ctx' /\
      service_name_idx ctx' = service_name_idx ctx /\
      (forall s, in_reg_idx ctx' s -> in_reg_idx ctx s) /\
      (forall s, in_reg_idx ctx s -> remote_present ctx (registrant s) ->
                 In (Free_service s) out) /\
      same_config ctx ctx' /\
      (forall s, In (Free_service s) out ->
                 in_reg_idx ctx s /\ remote_present ctx (registrant s)) /\
      (forall e, In e (elems (remote_idx ctx)) ->
                 In (BIO_free_all (sbio e)) out /\ In (Free_remote e) out) /\
      (forall s, in_reg_idx ctx' s -> ~ remote_present ctx (registrant s)).
Proof.
  induction fuel as [|fuel IH]; intros ctx Hwf Hfds Hsr Hlen;
    rewrite cleanup_remotes_eq;
    destruct (elems (remote_idx ctx)) as [|e0 l] eqn:El;
    try (simpl in Hlen; lia);
    try (rewrite (count_nil _ El); exists ctx, [];
         split; [reflexivity|]; split; [exact El|]; split; [exact Hwf|];
         split; [reflexivity|]; split; [auto|];
         split; [intros s _ (r & Hr & _); rewrite El in Hr; contradiction|];
         split; [unfold same_config; repeat split|];
         split; [intros s []|]; split; [intros e []|];
         intros s _ (r & Hr & _); rewrite El in Hr; contradiction).
  rewrite (count_cons _ _ _ El).
  assert (H0 : 0 <= fd e0 <= CInt.int_max).
  { apply Hfds. rewrite El. now left. }
  assert (Hfind : btree_find (remote_idx ctx) (rkey_of 0) = Some e0).
  { unfold btree_find. rewrite El. simpl.
    destruct Hwf as (Hcf & _). rewrite Hcf.
    unfold compare_fd, CInt.sub. simpl. rewrite wrap_small.
    - destruct (- fd e0 <=? 0) eqn:E; [reflexivity|].
      apply Z.leb_gt in E. lia.
    - unfold CInt.in_range, CInt.int_min, CInt.int_max in *. lia. }
  rewrite Hfind.
  destruct (rvi_disconnect_present fuel ctx (fd e0))
    as (r & Hrun & Hwf1 & Hl1 & Hsub & Hkeep & Hname & Hiff & Hl2 & Hall
        & _ & Hcfg & Honly & (rtmp & _ & _ & Hfr & Hbio & Hrest));
    auto.
  { unfold CInt.in_range, CInt.int_min, CInt.int_max in *. lia. }
  { now apply fds_created_in_range. }
  { exists e0. split; [rewrite El; now left | reflexivity]. }
  { simpl in Hlen. lia. }
  rewrite Hrun.
  destruct (IH (r_ctx r)) as (ctx' & out & Hrec & Hempty & Hwf' & Hn' & Hreg'
                              & Hfree & Hcfg' & Honly' & Hfr' & Habs'); auto.
  { intros e He. apply Hfds. now apply Hsub. }
  { intros s Hs. apply Hsr. now apply Hiff in Hs. }
  { rewrite El in Hl1. simpl in Hl1, Hlen. lia. }
  rewrite Hrec. exists ctx', (r_out r ++ out).
  split; [reflexivity|]. split; [exact Hempty|]. split; [exact Hwf'|].
  split; [now rewrite Hn'|].
  split; [intros s Hs; apply Hreg' in Hs; now apply Hiff in Hs|].
  split.
  { intros s Hs (rr & Hrr & Hfrr). apply in_or_app.
    destruct (Z.eq_dec (registrant s) (fd e0)) as [Heq|Hne].
    + left. now apply Hall.
    + right. apply Hfree.
      * apply Hiff. now split.
      * exists rr. split; [|exact Hfrr]. apply Hkeep; [exact Hrr|].
        congruence. }
  split.
  { unfold same_config in *.
    destruct Hcfg as (C1 & C2 & C3 & C4 & C5 & C6 & C7).
    destruct Hcfg' as (D1 & D2 & D3 & D4 & D5 & D6 & D7).
    repeat split; congruence. }
  split.
  { intros s Hs. apply in_app_or in Hs. destruct Hs as [Hs|Hs].
    - destruct (Honly s Hs) as [Hin Heq]. split; [exact Hin|].
      exists e0. split; [rewrite El; now left | now symmetry].
    - destruct (Honly' s Hs) as [Hin (rr & Hrr & Hfrr)].
      split; [now apply Hiff in Hin|].
      exists rr. split; [now apply Hsub | exact Hfrr]. }
  split.
  { intros e He. rewrite <- El in He.
    destruct (Hrest e He) as [->|Hin].
    - split; apply in_or_app; now left.
    - destruct (Hfr' e Hin). split; apply in_or_app; now right. }
  intros s Hs (rr & Hrr & Hfrr). apply (Habs' s Hs).
  exists rr. split; [|exact Hfrr]. apply Hkeep; [exact Hrr|].
  apply Hreg', Hiff in Hs. destruct Hs as [_ Hne]. congruence.
Qed.

Lemma remove_first_NoDup {A : Type} (p : A -> bool) :
  forall l : list A, NoDup l -> NoDup (remove_first p l).
Proof.
  induction l as [|a l IH]; simpl; intros Hnd.
  - constructor.
  - inversion Hnd as [|? ? Hn Hnd']; subst.
    destruct (p a); [exact Hnd'|].
    constructor; [|now apply IH].
    intros Hin. apply Hn. now apply BtreeFacts.remove_first_In in Hin.
Qed.

Lemma remove_first_only {A : Type} (p : A -> bool) (x : A) :
  forall l : list A,
    (forall e, In e l -> p e = true -> e = x) ->
    p x = true ->
    NoDup l ->
    ~ In x (remove_first p l).
Proof.
  induction l as [|a l IH]; simpl; intros Hp Hx Hnd.
  - tauto.
  - inversion Hnd as [|? ? Hn Hnd']; subst.
    destruct (p a) eqn:Pa.
    + assert (a = x) by (apply Hp; auto). now subst a.
    + intros [->|Hin]; [congruence|].
      revert Hin. apply IH; auto.
Qed.

Lemma NoDup_map_eq {A B : Type} (f : A -> B) :
  forall l : list A,
    NoDup (map f l) ->
    forall a b, In a l -> In b l -> f a = f b -> a = b.
Proof.
  induction l as [|x l IH]; simpl; intros Hnd a b Ha Hb Hf.
  - contradiction.
  - inversion Hnd as [|? ? Hn Hnd']; subst.
    destruct Ha as [->|Ha], Hb as [->|Hb].
    + reflexivity.
    + elim Hn. rewrite Hf. now apply in_map.
    + elim Hn. rewrite <- Hf. now apply in_map.
    + now apply IH.
Qed.

Lemma btree_delete_NoDup {A : Type} (t : btree_t A) (key : A) :
  NoDup (elems t) -> NoDup (elems (fst (btree_delete t key))).
Proof.
  unfold btree_delete.
  destruct (existsb (matches t key) (elems t)); simpl; auto.
  apply remove_first_NoDup.
Qed.

Lemma disconnect_services_NoDup (fuel : nat) :
  forall (reg reg' : btree_t rvi_service_t) (skey : rvi_service_t) out,
    disconnect_services fuel reg skey = Some (reg', out) ->
    NoDup (elems reg) -> NoDup (elems reg').
Proof.
  induction fuel as [|fuel IH]; intros reg reg' skey out Hrun Hnd;
    simpl in Hrun; destruct (btree_search reg skey) as [stmp|];
    try discriminate; try (injection Hrun as <- _; exact Hnd).
  pose proof (btree_delete_NoDup reg stmp Hnd) as Hd.
  destruct (btree_delete reg stmp) as [reg1 res].
  destruct (disconnect_services fuel reg1 skey) as [[reg2 out2]|] eqn:E;
    [|discriminate].
  injection Hrun as <- _. eapply IH; eauto.
Qed.

Lemma rvi_disconnect_NoDup (fuel : nat) (ctx : rvi_context_t) (fd_ : Z)
  (r : result) :
  rvi_disconnect fuel ctx fd_ = Some r ->
  NoDup (elems (service_reg_idx ctx)) ->
  NoDup (elems (service_reg_idx (r_ctx r))).
Proof.
  unfold rvi_disconnect.
  destruct (btree_search (remote_idx ctx) (rkey_of fd_)) as [rtmp|].
  - destruct (btree_delete (remote_idx ctx) rtmp) as [ridx res].
    destruct (res <? 0).
    + intros [= <-] H. exact H.
    + destruct (disconnect_services fuel (service_reg_idx ctx)
                  (skey_of_registrant fd_)) as [[sidx out]|] eqn:E;
        [|discriminate].
      intros [= <-] H. simpl. eapply disconnect_services_NoDup; eauto.
  - intros [= <-] H. exact H.
Qed.

Lemma cleanup_remotes_NoDup (fuel : nat) :
  forall (ctx ctx' : rvi_context_t) out,
    cleanup_remotes fuel ctx = Some (ctx', out) ->
    NoDup (elems (service_reg_idx ctx)) ->
    NoDup (elems (service_reg_idx ctx')).
Proof.
  induction fuel as [|fuel IH]; intros ctx ctx' out;
    rewrite cleanup_remotes_eq;
    destruct (count (remote_idx ctx) =? 0);
    try discriminate; try (intros [= <- _] H; exact H).
  destruct (btree_find (remote_idx ctx) (rkey_of 0)) as [rtmp|].
  - destruct (rvi_disconnect fuel ctx (fd rtmp)) as [r|] eqn:Hd;
      [|discriminate].
    destruct (cleanup_remotes fuel (r_ctx r)) as [[c o]|] eqn:Hc;
      [|discriminate].
    intros [= <- _] H. eapply IH; eauto.
    eapply rvi_disconnect_NoDup; eauto.
  - intros Hrun H. eapply IH; eauto.
Qed.

(** ** [parse_config]: keys and credentials *)

Lemma read_config_app (pairs1 pairs2 : list (string * string)) :
  forall ctx,
    read_config ctx (pairs1 ++ pairs2) =
    match read_config ctx pairs1 with
    | Some ctx1 => read_config ctx1 pairs2
    | None => None
    end.
Proof.
  induction pairs1 as [|[k v] pairs1 IH]; intros ctx; simpl.
  - reflexivity.
  - destruct ((CString.strlen k <? 100) && (CString.strlen v <? 100));
      [apply IH | reflexivity].
Qed.

Lemma config_field_cases (k : string) (field : rvi_context_t -> option string) :
  config_field k = Some field ->
  (k = "device.key"%string /\ field = keyfile) \/
  (k = "device.cert"%string /\ field = certfile) \/
  (k = "ca.dir"%string /\ field = cadir) \/
  (k = "cred.dir"%string /\ field = creddir) \/
  (k = "ca.cert"%string /\ field = cafile).
Proof.
  unfold config_field.
  destruct (String.eqb k "device.key") eqn:E1;
    [apply String.eqb_eq in E1; intros [= <-]; auto|].
  destruct (String.eqb k "device.cert") eqn:E2;
    [apply String.eqb_eq in E2; intros [= <-]; auto|].
  destruct (String.eqb k "ca.dir") eqn:E3;
    [apply String.eqb_eq in E3; intros [= <-]; auto 6|].
  destruct (String.eqb k "cred.dir") eqn:E4;
    [apply String.eqb_eq in E4; intros [= <-]; auto 6|].
  destruct (String.eqb k "ca.cert") eqn:E5;
    [apply String.eqb_eq in E5; intros [= <-]; auto 8|].
  discriminate.
Qed.

Lemma assign_key_sets (k v : string) (field : rvi_context_t -> option string)
  (ctx : rvi_context_t) :
  config_field k = Some field -> field (assign_key ctx k v) = Some v.
Proof.
  intros H. apply config_field_cases in H.
  destruct H as [[-> ->]|[[-> ->]|[[-> ->]|[[-> ->]|[-> ->]]]]];
    reflexivity.
Qed.

Lemma assign_key_other (k k' v' : string)
  (field : rvi_context_t -> option string) (ctx : rvi_context_t) :
  config_field k = Some field ->
  CString.strcmp k' k <> 0 ->
  field (assign_key ctx k' v') = field ctx.
Proof.
  intros H Hne. apply config_field_cases in H.
  unfold assign_key.
  destruct H as [[-> ->]|[[-> ->]|[[-> ->]|[[-> ->]|[-> ->]]]]];
    repeat match goal with
      | |- context [CString.strcmp k' ?lit =? 0] =>
          let E := fresh "E" in
          destruct (CString.strcmp k' lit =? 0) eqn:E;
          [try (apply Z.eqb_eq in E; contradiction); try reflexivity|]
      end;
    reflexivity.
Qed.

Lemma read_config_keeps (k : string) (field : rvi_context_t -> option string) :
  forall (pairs : list (string * string)) (ctx ctx' : rvi_context_t),
    config_field k = Some field ->
    (forall k' v', In (k', v') pairs -> CString.strcmp k' k <> 0) ->
    read_config ctx pairs = Some ctx' ->
    field ctx' = field ctx.
Proof.
  induction pairs as [|[k' v'] pairs IH]; simpl; intros ctx ctx' Hf Hne Hrun.
  - now injection Hrun as <-.
  - destruct ((CString.strlen k' <? 100) && (CString.strlen v' <? 100));
      [|discriminate].
    rewrite (IH _ _ Hf (fun a b H => Hne a b (or_intror H)) Hrun).
    apply (assign_key_other k); [exact Hf|].
    apply (Hne k' v'). now left.
Qed.

(** X14.  In the configuration file the last line of a key wins: when a
    pair of one of the five keys is followed by no pair whose key
    compares equal to it, the field of that key holds the value of the
    pair once the file is read. *)
Theorem read_config_last_wins :
  forall (ctx ctx' : rvi_context_t) (pairs1 pairs2 : list (string * string))
         (k v : string) (field : rvi_context_t -> option string),
    config_field k = Some field ->
    (forall k' v', In (k', v') pairs2 -> CString.strcmp k' k <> 0) ->
    read_config ctx (pairs1 ++ (k, v) :: pairs2) = Some ctx' ->
    field ctx' = Some v.
Proof.
  intros ctx ctx' pairs1 pairs2 k v field Hf Hne Hrun.
  rewrite read_config_app in Hrun.
  destruct (read_config ctx pairs1) as [ctx1|]; [|discriminate].
  simpl in Hrun.
  destruct ((CString.strlen k <? 100) && (CString.strlen v <? 100));
    [|discriminate].
  rewrite (read_config_keeps k field pairs2 _ _ Hf Hne Hrun).
  now apply assign_key_sets.
Qed.

Lemma read_config_last_wins_witness :
  exists ctx',
    read_config Sample.ctx
      [("device.key", "old.pem"); ("ca.dir", "/etc/ca");
       ("device.key", "new.pem")]%string = Some ctx' /\
    keyfile ctx' = Some "new.pem"%string.
Proof.
  eexists. split; [reflexivity|].
  apply (read_config_last_wins Sample.ctx _
           [("device.key", "old.pem"); ("ca.dir", "/etc/ca")]%string
           []
           "device.key"%string "new.pem"%string keyfile).
  - reflexivity.
  - intros k' v' [].
  - reflexivity.
Defined.

Lemma read_config_frame :
  forall (pairs : list (string * string)) (ctx ctx' : rvi_context_t),
    read_config ctx pairs = Some ctx' ->
    remote_idx ctx' = remote_idx ctx /\
    service_name_idx ctx' = service_name_idx ctx /\
    service_reg_idx ctx' = service_reg_idx ctx /\
    cred ctx' = cred ctx /\
    ssl_ctx ctx' = ssl_ctx ctx.
Proof.
  induction pairs as [|[k v] pairs IH]; simpl; intros ctx ctx' Hrun.
  - injection Hrun as <-. repeat split.
  - destruct ((CString.strlen k <? 100) && (CString.strlen v <? 100));
      [|discriminate].
    destruct (IH _ _ Hrun) as (H1 & H2 & H3 & H4 & H5).
    rewrite H1, H2, H3, H4, H5. unfold assign_key.
    repeat match goal with
      | |- context [if ?c then _ else _] => destruct c
      end; repeat split.
Qed.

Lemma read_config_fits :
  forall (pairs : list (string * string)) (ctx : rvi_context_t),
    tokens_fit pairs -> exists ctx', read_config ctx pairs = Some ctx'.
Proof.
  induction pairs as [|[k v] pairs IH]; simpl; intros ctx Hfit.
  - now exists ctx.
  - destruct (Hfit k v) as [Hk Hv]; [now left|].
    apply Z.ltb_lt in Hk. apply Z.ltb_lt in Hv. rewrite Hk, Hv. simpl.
    apply IH. intros k' v' H. apply Hfit. now right.
Qed.

(** X15.  Without a [cred.dir] line [parse_config] fails with
    [RVI_ERROR_NOCRED]: it reads the other keys, opens no directory and
    loads no credential. *)
Theorem parse_config_no_creddir :
  forall (RVI_ERROR_NOCRED : Z) (fs : filesystem) (ctx : rvi_context_t)
         (f : string) (pairs : list (string * string)),
    creddir ctx = None ->
    read_pairs fs f = Some pairs ->
    tokens_fit pairs ->
    (forall k v, In (k, v) pairs -> CString.strcmp k "cred.dir" <> 0) ->
    exists ctx',
      parse_config RVI_ERROR_NOCRED fs ctx (Some f)
        = Some (ctx', RVI_ERROR_NOCRED) /\
      read_config ctx pairs = Some ctx' /\
      cred ctx' = cred ctx.
Proof.
  intros E fs ctx f pairs Hnone Hread Hfit Hne.
  destruct (read_config_fits pairs ctx Hfit) as [ctx' Hrun].
  exists ctx'. unfold parse_config. rewrite Hread, Hrun.
  assert (Hc : creddir ctx' = None).
  { rewrite <- Hnone.
    apply (read_config_keeps "cred.dir" creddir pairs); auto. }
  rewrite Hc. split; [reflexivity|]. split; [reflexivity|].
  now apply read_config_frame in Hrun.
Qed.

Lemma parse_config_no_creddir_witness :
  exists ctx',
    parse_config 3
      {| read_pairs := fun _ => Some [("device.key", "k.pem")]%string;
         fopen_errno := 2;
         read_dir := fun _ => None;
         read_token := fun _ => None |}
      (rvi_init_context None None None None None (repeat None 20) None)
      (Some "rvi.config"%string) = Some (ctx', 3) /\
    read_config
      (rvi_init_context None None None None None (repeat None 20) None)
      [("device.key", "k.pem")]%string = Some ctx' /\
    cred ctx' = repeat None 20.
Proof.
  apply (parse_config_no_creddir 3
           {| read_pairs := fun _ => Some [("device.key", "k.pem")]%string;
              fopen_errno := 2;
              read_dir := fun _ => None;
              read_token := fun _ => None |}
           (rvi_init_context None None None None None (repeat None 20) None)
           "rvi.config" [("device.key", "k.pem")]%string).
  - reflexivity.
  - reflexivity.
  - intros k v [[= <- <-]|[]]. split; vm_compute; reflexivity.
  - intros k v [[= <- <-]|[]]. vm_compute. discriminate.
Defined.

Lemma store_at_spec {A : Type} (v : A) :
  forall (l l' : list A) (i : nat),
    store_at i l v = Some l' ->
    List.length l' = List.length l /\
    (i < List.length l)%nat /\
    nth_error l' i = Some v /\
    (forall k, k <> i -> nth_error l' k = nth_error l k).
Proof.
  induction l as [|x l IH]; intros l' i H; destruct i as [|i]; simpl in H;
    try discriminate.
  - injection H as <-. simpl. repeat split; try lia.
    intros [|k] Hk; [congruence | reflexivity].
  - destruct (store_at i l v) as [l''|] eqn:E; [|discriminate].
    injection H as <-. destruct (IH _ _ E) as (H1 & H2 & H3 & H4).
    simpl. repeat split; try lia; auto.
    intros [|k] Hk; [reflexivity | simpl; apply H4; congruence].
Qed.

(** The loop over the directory: the array keeps its size, each entry
    whose name contains [.jwt] opened and took one slot, and the slots
    before the first one used are as they were. *)
Lemma read_creds_spec (fs : filesystem) :
  forall (entries : list string) (i : nat) (buf : string)
         (creds creds' : list (option string)),
    (i <= List.length creds)%nat ->
    read_creds fs entries i buf creds = Some creds' ->
    List.length creds' = List.length creds /\
    (i + List.length (jwt_entries entries) <= List.length creds)%nat /\
    (forall d, In d (jwt_entries entries) -> read_token fs d <> None) /\
    (forall k, (k < i)%nat -> nth_error creds' k = nth_error creds k) /\
    (forall k, (i <= k < i + List.length (jwt_entries entries))%nat ->
               exists c, nth_error creds' k = Some (Some c)).
Proof.
  induction entries as [|d rest IH]; intros i buf creds creds' Hi Hrun;
    simpl in Hrun.
  - injection Hrun as <-. simpl.
    split; [reflexivity|]. split; [lia|]. split; [intros d []|].
    split; [reflexivity|]. intros k Hk. lia.
  - unfold jwt_entries in *. simpl.
    destruct (strstr_found d ".jwt") eqn:Ej.
    + destruct (read_token fs d) as [tok|] eqn:Et; [|discriminate].
      set (buf' := match tok with Some t => t | None => buf end) in *.
      destruct (2048 <=? CString.strlen buf'); [discriminate|].
      destruct (store_at i creds (Some buf')) as [creds1|] eqn:Es;
        [|discriminate].
      destruct (store_at_spec _ _ _ _ Es) as (L1 & L2 & L3 & L4).
      assert (Hi' : (S i <= List.length creds1)%nat) by lia.
      destruct (IH _ _ _ _ Hi' Hrun) as (H1 & H2 & H3 & H4 & H5).
      simpl. repeat split.
      * congruence.
      * lia.
      * intros d' [<-|Hd']; [congruence | now apply H3].
      * intros k Hk. rewrite H4 by lia. apply L4. lia.
      * intros k Hk. destruct (Nat.eq_dec k i) as [->|Hne].
        -- exists buf'. rewrite H4 by lia. exact L3.
        -- apply H5. lia.
    + destruct (IH _ _ _ _ Hi Hrun) as (H1 & H2 & H3 & H4 & H5).
      repeat split; auto.
Qed.

(** The successful return of [parse_config], in full. *)
Lemma parse_config_ok_aux :
  forall (RVI_ERROR_NOCRED : Z) (fs : filesystem) (ctx ctx' : rvi_context_t)
         (filename : option string),
    RVI_ERROR_NOCRED <> 0 ->
    fopen_errno fs <> 0 ->
    parse_config RVI_ERROR_NOCRED fs ctx filename = Some (ctx', RVI_OK) ->
    exists d entries,
      creddir ctx' = Some d /\
      read_dir fs d = Some entries /\
      (List.length (jwt_entries entries) <= List.length (cred ctx))%nat /\
      List.length (cred ctx') = List.length (cred ctx) /\
      (forall e, In e (jwt_entries entries) -> read_token fs e <> None) /\
      (forall k, (k < List.length (jwt_entries entries))%nat ->
                 exists c, nth_error (cred ctx') k = Some (Some c)) /\
      remote_idx ctx' = remote_idx ctx /\
      service_name_idx ctx' = service_name_idx ctx /\
      service_reg_idx ctx' = service_reg_idx ctx.
Proof.
  intros E fs ctx ctx' filename HE Herr. unfold parse_config, RVI_OK, EINVAL.
  destruct filename as [f|]; [|discriminate].
  destruct (read_pairs fs f) as [pairs|]; [|intros [= _ H]; congruence].
  destruct (read_config ctx pairs) as [ctx1|] eqn:Hrc; [|discriminate].
  destruct (creddir ctx1) as [d|] eqn:Hd; [|intros [= _ H]; congruence].
  destruct (read_dir fs d) as [entries|] eqn:Hrd;
    [|intros [= _ H]; congruence].
  destruct (read_creds fs entries 0 EmptyString (cred ctx1)) as [creds|] eqn:Hc;
    [|discriminate].
  intros [= <-].
  destruct (read_config_frame _ _ _ Hrc) as (F1 & F2 & F3 & F4 & F5).
  destruct (read_creds_spec fs _ _ _ _ _ (Nat.le_0_l _) Hc)
    as (H1 & H2 & H3 & _ & H5).
  exists d, entries. simpl. rewrite <- F4.
  repeat split; auto; try lia.
  intros k Hk. apply H5. lia.
Qed.

(** X16.  What a return of [RVI_OK] from [parse_config] means (the two
    error codes being non-zero): the credential directory was named and
    opened, each entry whose name contains [.jwt] was opened, from the
    working directory, and filled the next slot of the credential array,
    so there are no more of them than slots; the array keeps its size and
    the three indexes are untouched. *)
Theorem parse_config_ok :
  forall (RVI_ERROR_NOCRED : Z) (fs : filesystem) (ctx ctx' : rvi_context_t)
         (filename : option string),
    RVI_ERROR_NOCRED <> 0 ->
    fopen_errno fs <> 0 ->
    parse_config RVI_ERROR_NOCRED fs ctx filename = Some (ctx', RVI_OK) ->
    exists d entries,
      creddir ctx' = Some d /\
      read_dir fs d = Some entries /\
      (List.length (jwt_entries entries) <= List.length (cred ctx))%nat /\
      List.length (cred ctx') = List.length (cred ctx) /\
      (forall e, In e (jwt_entries entries) -> read_token fs e <> None) /\
      (forall k, (k < List.length (jwt_entries entries))%nat ->
                 exists c, nth_error (cred ctx') k = Some (Some c)) /\
      remote_idx ctx' = remote_idx ctx /\
      service_name_idx ctx' = service_name_idx ctx /\
      service_reg_idx ctx' = service_reg_idx ctx.
Proof.
  intros E fs ctx ctx' filename HE Herr. unfold parse_config, RVI_OK, EINVAL.
  destruct filename as [f|]; [|discriminate].
  destruct (read_pairs fs f) as [pairs|]; [|intros [= _ H]; congruence].
  destruct (read_config ctx pairs) as [ctx1|] eqn:Hrc; [|discriminate].
  destruct (creddir ctx1) as [d|] eqn:Hd; [|intros [= _ H]; congruence].
  destruct (read_dir fs d) as [entries|] eqn:Hrd;
    [|intros [= _ H]; congruence].
  destruct (read_creds fs entries 0 EmptyString (cred ctx1)) as [creds|] eqn:Hc;
    [|discriminate].
  intros [= <-].
  destruct (read_config_frame _ _ _ Hrc) as (F1 & F2 & F3 & F4 & F5).
  destruct (read_creds_spec fs _ _ _ _ _ (Nat.le_0_l _) Hc)
    as (H1 & H2 & H3 & _ & H5).
  exists d, entries. simpl. rewrite <- F4.
  repeat split; auto; try lia.
  intros k Hk. apply H5. lia.
Qed.

Lemma parse_config_ok_witness :
  exists d entries,
    creddir
      (set_cred (set_creddir Sample.ctx (Some "creds"%string))
         [Some "tok"%string]) = Some d /\
    read_dir
      {| read_pairs := fun _ => Some [("cred.dir", "creds")]%string;
         fopen_errno := 2;
         read_dir := fun _ => Some ["node.jwt"; "README"]%string;
         read_token := fun _ => Some (Some "tok"%string) |} d
      = Some entries /\
    (List.length (jwt_entries entries) <= List.length (cred Sample.ctx))%nat /\
    List.length
      (cred (set_cred (set_creddir Sample.ctx (Some "creds"%string))
               [Some "tok"%string]))
      = List.length (cred Sample.ctx) /\
    (forall e, In e (jwt_entries entries) ->
               read_token
                 {| read_pairs := fun _ => Some [("cred.dir", "creds")]%string;
                    fopen_errno := 2;
                    read_dir := fun _ => Some ["node.jwt"; "README"]%string;
                    read_token := fun _ => Some (Some "tok"%string) |} e
               <> None) /\
    (forall k, (k < List.length (jwt_entries entries))%nat ->
               exists c,
                 nth_error
                   (cred (set_cred
                            (set_creddir Sample.ctx (Some "creds"%string))
                            [Some "tok"%string])) k = Some (Some c)) /\
    remote_idx (set_cred (set_creddir Sample.ctx (Some "creds"%string))
                  [Some "tok"%string]) = remote_idx Sample.ctx /\
    service_name_idx (set_cred (set_creddir Sample.ctx (Some "creds"%string))
                        [Some "tok"%string]) = service_name_idx Sample.ctx /\
    service_reg_idx (set_cred (set_creddir Sample.ctx (Some "creds"%string))
                       [Some "tok"%string]) = service_reg_idx Sample.ctx.
Proof.
  apply (parse_config_ok 3
           {| read_pairs := fun _ => Some [("cred.dir", "creds")]%string;
              fopen_errno := 2;
              read_dir := fun _ => Some ["node.jwt"; "README"]%string;
              read_token := fun _ => Some (Some "tok"%string) |}
           Sample.ctx _ (Some "rvi.config"%string)).
  - lia.
  - simpl. lia.
  - reflexivity.
Defined.

Lemma read_creds_jwt (fs : filesystem) (d : string) (rest : list string)
  (i : nat) (buf : string) (creds : list (option string))
  (tok : option string) :
  strstr_found d ".jwt" = true ->
  read_token fs d = Some tok ->
  read_creds fs (d :: rest) i buf creds =
  let buf' := match tok with Some t => t | None => buf end in
  if 2048 <=? CString.strlen buf' then None
  else
    match store_at i creds (Some buf') with
    | None => None
    | Some creds' => read_creds fs rest (S i) buf' creds'
    end.
Proof.
  intros J T. cbn [read_creds]. now rewrite J, T.
Qed.

(** X17.  The buffer [cred] is not cleared between two files: a
    credential file from which [fscanf] reads nothing yields a copy of the
    credential of the file before it. *)
Theorem read_creds_stale_buffer :
  forall (fs : filesystem) (d1 d2 : string) (rest : list string) (i : nat)
         (buf t : string) (creds creds' : list (option string)),
    strstr_found d1 ".jwt" = true ->
    strstr_found d2 ".jwt" = true ->
    read_token fs d1 = Some (Some t) ->
    read_token fs d2 = Some None ->
    read_creds fs (d1 :: d2 :: rest) i buf creds = Some creds' ->
    nth_error creds' i = Some (Some t) /\
    nth_error creds' (S i) = Some (Some t).
Proof.
  intros fs d1 d2 rest i buf t creds creds' J1 J2 T1 T2 Hrun.
  rewrite (read_creds_jwt fs d1 _ i buf creds _ J1 T1) in Hrun.
  cbv zeta in Hrun.
  destruct (2048 <=? CString.strlen t) eqn:E0; [discriminate|].
  destruct (store_at i creds (Some t)) as [creds1|] eqn:E1; [|discriminate].
  rewrite (read_creds_jwt fs d2 _ (S i) t creds1 _ J2 T2) in Hrun.
  cbv zeta in Hrun. rewrite E0 in Hrun.
  destruct (store_at (S i) creds1 (Some t)) as [creds2|] eqn:E2;
    [|discriminate].
  destruct (store_at_spec _ _ _ _ E1) as (A1 & A2 & A3 & A4).
  destruct (store_at_spec _ _ _ _ E2) as (B1 & B2 & B3 & B4).
  assert (Hi : (S (S i) <= List.length creds2)%nat) by lia.
  destruct (read_creds_spec fs _ _ _ _ _ Hi Hrun) as (_ & _ & _ & Hkeep & _).
  split.
  - rewrite Hkeep by lia. rewrite B4 by lia. exact A3.
  - rewrite Hkeep by lia. exact B3.
Qed.

Lemma read_creds_stale_buffer_witness :
  nth_error [Some "tok"%string; Some "tok"%string; None] 0
    = Some (Some "tok"%string) /\
  nth_error [Some "tok"%string; Some "tok"%string; None] 1
    = Some (Some "tok"%string).
Proof.
  apply (read_creds_stale_buffer
           {| read_pairs := fun _ => None; fopen_errno := 2;
              read_dir := fun _ => None;
              read_token := fun f => if String.eqb f "a.jwt"
                                     then Some (Some "tok"%string)
                                     else Some None |}
           "a.jwt" "b.jwt" [] 0 EmptyString "tok"
           [None; None; None]); reflexivity.
Defined.

(** ** The credential loop of [rvi_cleanup] *)

Lemma free_creds_none :
  forall creds : list (option string),
    free_creds creds = None <-> (forall c, In c creds -> c <> None).
Proof.
  induction creds as [|[c|] creds IH]; simpl.
  - split; [intros _ c [] | reflexivity].
  - destruct (free_creds creds) as [freed|].
    + split; [discriminate|]. intros H. exfalso.
      assert (Hn : Some freed = None)
        by (apply IH; intros c' Hc'; apply H; now right).
      discriminate.
    + split; [|reflexivity]. intros _ c' [<-|Hc']; [discriminate|].
      now apply IH.
  - split; [discriminate|]. intros H. now elim (H None (or_introl eq_refl)).
Qed.

(** X18.  The loop that frees the credentials stops at the first NULL
    slot and frees what is before it; on an array without a NULL slot it
    runs past the end of the array. *)
Theorem free_creds_spec :
  forall creds : list (option string),
    (free_creds creds = None <-> (forall c, In c creds -> c <> None)) /\
    (forall freed, free_creds creds = Some freed ->
                   exists rest, creds = map Some freed ++ None :: rest).
Proof.
  intros creds. split; [apply free_creds_none|].
  induction creds as [|[c|] creds IH]; simpl; intros freed H.
  - discriminate.
  - destruct (free_creds creds) as [freed'|]; [|discriminate].
    injection H as <-. destruct (IH freed' eq_refl) as [rest ->].
    now exists rest.
  - injection H as <-. now exists creds.
Qed.

(** X19.  As many credential files as the array has slots: [parse_config]
    returns [RVI_OK] and leaves no NULL slot, and the loop of
    [rvi_cleanup] that frees the credentials then runs past the end of the
    array. *)
Theorem parse_config_full_then_free :
  forall (RVI_ERROR_NOCRED : Z) (fs : filesystem) (ctx ctx' : rvi_context_t)
         (filename : option string) (d : string) (entries : list string),
    RVI_ERROR_NOCRED <> 0 ->
    fopen_errno fs <> 0 ->
    parse_config RVI_ERROR_NOCRED fs ctx filename = Some (ctx', RVI_OK) ->
    creddir ctx' = Some d ->
    read_dir fs d = Some entries ->
    List.length (jwt_entries entries) = List.length (cred ctx) ->
    free_creds (cred ctx') = None.
Proof.
  intros E fs ctx ctx' filename d entries HE Herr Hrun Hd Hrd Hfull.
  destruct (parse_config_ok_aux E fs ctx ctx' filename HE Herr Hrun)
    as (d' & entries' & Hd' & Hrd' & _ & Hlen & _ & Hslots & _).
  rewrite Hd in Hd'. injection Hd' as <-.
  rewrite Hrd in Hrd'. injection Hrd' as <-.
  apply free_creds_none. intros c Hc ->.
  apply In_nth_error in Hc. destruct Hc as [k Hk].
  assert (Hlt : (k < List.length (cred ctx'))%nat).
  { apply nth_error_Some. congruence. }
  destruct (Hslots k) as [c Hc]; [lia|]. congruence.
Qed.

Lemma parse_config_full_then_free_witness :
  free_creds [Some "tok"%string] = None.
Proof.
  apply (parse_config_full_then_free 3
           {| read_pairs := fun _ => Some [("cred.dir", "creds")]%string;
              fopen_errno := 2;
              read_dir := fun _ => Some ["node.jwt"; "README"]%string;
              read_token := fun _ => Some (Some "tok"%string) |}
           Sample.ctx
           (set_cred (set_creddir Sample.ctx (Some "creds"%string))
              [Some "tok"%string])
           (Some "rvi.config"%string) "creds"
           ["node.jwt"; "README"]%string); try reflexivity.
  - lia.
  - simpl. lia.
Defined.

(** ** [rvi_init] *)

(** X20.  A handle returned by [rvi_init] (the two error codes of
    [parse_config] being non-zero) is a context whose three trees are
    empty and carry the comparators of rvi.c, so the two service indexes
    agree; it has 20 credential slots, the credential directory named in
    the file [rvi.config] and the SSL context on which the four loading
    steps each returned 1; nothing was printed. *)
Theorem rvi_init_ok :
  forall (RVI_ERROR_NOCRED : Z) (malloc_ok : bool) (fs : filesystem)
         (lib : openssl) (config_filename : option string)
         (ctx : rvi_context_t) (out : list event),
    RVI_ERROR_NOCRED <> 0 ->
    fopen_errno fs <> 0 ->
    rvi_init RVI_ERROR_NOCRED malloc_ok fs lib config_filename
      = Some (Some ctx, out) ->
    wf_context ctx /\
    elems (remote_idx ctx) = [] /\
    elems (service_name_idx ctx) = [] /\
    elems (service_reg_idx ctx) = [] /\
    dual_index_consistent ctx /\
    List.length (cred ctx) = 20%nat /\
    (exists d, creddir ctx = Some d) /\
    read_pairs fs "rvi.config" <> None /\
    ssl_ctx ctx = ssl_ctx_new lib /\
    ssl_ctx ctx <> None /\
    load_verify_locations lib (cafile ctx) (cadir ctx) = 1 /\
    set_default_verify_paths lib = 1 /\
    use_certificate_chain_file lib (certfile ctx) = 1 /\
    use_PrivateKey_file lib (keyfile ctx) = 1 /\
    out = [].
Proof.
  intros E malloc_ok fs lib f ctx out HE Herr. unfold rvi_init.
  destruct malloc_ok; simpl negb; cbv iota; [|discriminate].
  set (ctx0 := rvi_init_context None None None None None (repeat None 20) None).
  destruct (parse_config E fs ctx0 (Some "rvi.config"%string))
    as [[ctx1 ret]|] eqn:Hp; [|discriminate].
  destruct (ret =? 0) eqn:Hret; simpl negb; cbv iota; [|discriminate].
  apply Z.eqb_eq in Hret. subst ret.
  assert (Hread : read_pairs fs "rvi.config" <> None).
  { unfold parse_config in Hp.
    destruct (read_pairs fs "rvi.config"); [discriminate|].
    injection Hp as _ H. congruence. }
  destruct (parse_config_ok_aux E fs ctx0 ctx1 _ HE Herr Hp)
    as (d & entries & Hd & _ & _ & Hlen & _ & _ & F1 & F2 & F3).
  unfold setup_client_ctx.
  destruct (ssl_ctx_new lib) as [c|]; [|discriminate].
  destruct (load_verify_locations lib (cafile ctx1) (cadir ctx1) =? 1) eqn:S1;
    simpl negb; cbv iota; [|discriminate].
  destruct (set_default_verify_paths lib =? 1) eqn:S2;
    simpl negb; cbv iota; [|discriminate].
  destruct (use_certificate_chain_file lib (certfile ctx1) =? 1) eqn:S3;
    simpl negb; cbv iota; [|discriminate].
  destruct (use_PrivateKey_file lib (keyfile ctx1) =? 1) eqn:S4;
    simpl negb; cbv iota; [|discriminate].
  intros [= <- <-].
  apply Z.eqb_eq in S1, S2, S3, S4.
  unfold wf_context, dual_index_consistent, in_name_idx, in_reg_idx,
    set_ssl_ctx, set_config.
  cbn [remote_idx service_name_idx service_reg_idx cred creddir ssl_ctx
       cafile cadir certfile keyfile].
  rewrite F1, F2, F3, Hlen. simpl.
  repeat split; auto; try discriminate; try tauto.
  now exists d.
Qed.

Lemma rvi_init_ok_witness :
  exists ctx out,
    rvi_init 3 true SampleInit.fs SampleInit.lib (Some "other.config"%string)
      = Some (Some ctx, out) /\
    wf_context ctx /\
    elems (remote_idx ctx) = [] /\
    elems (service_name_idx ctx) = [] /\
    elems (service_reg_idx ctx) = [] /\
    dual_index_consistent ctx /\
    List.length (cred ctx) = 20%nat /\
    (exists d, creddir ctx = Some d) /\
    read_pairs SampleInit.fs "rvi.config" <> None /\
    ssl_ctx ctx = ssl_ctx_new SampleInit.lib /\
    ssl_ctx ctx <> None /\
    load_verify_locations SampleInit.lib (cafile ctx) (cadir ctx) = 1 /\
    set_default_verify_paths SampleInit.lib = 1 /\
    use_certificate_chain_file SampleInit.lib (certfile ctx) = 1 /\
    use_PrivateKey_file SampleInit.lib (keyfile ctx) = 1 /\
    out = [].
Proof.
  eexists. eexists. split; [reflexivity|].
  apply (rvi_init_ok 3 true SampleInit.fs SampleInit.lib
           (Some "other.config"%string)).
  - lia.
  - simpl. lia.
  - reflexivity.
Defined.

Lemma rvi_disconnect_no_services (fuel : nat) (ctx : rvi_context_t) (fd_ : Z) :
  elems (service_reg_idx ctx) = [] ->
  exists r, rvi_disconnect fuel ctx fd_ = Some r.
Proof.
  intros Hr. unfold rvi_disconnect.
  destruct (btree_search (remote_idx ctx) (rkey_of fd_)) as [rtmp|];
    [|eexists; reflexivity].
  destruct (btree_delete (remote_idx ctx) rtmp) as [ridx res].
  destruct (res <? 0); [eexists; reflexivity|].
  assert (Hl : disconnect_services fuel (service_reg_idx ctx)
                 (skey_of_registrant fd_) = Some (service_reg_idx ctx, [])).
  { destruct fuel; simpl; unfold btree_search; rewrite Hr; reflexivity. }
  rewrite Hl. eexists. reflexivity.
Qed.

(** X21.  From a handle returned by [rvi_init], every sequence of
    register, unregister and disconnect calls runs to its end, without
    one iteration of the service loop, and leaves both service indexes
    empty: no call of rvi.c stores a service. *)
Theorem rvi_init_then_api :
  forall (RVI_ERROR_NOCRED : Z) (malloc_ok : bool) (fs : filesystem)
         (lib : openssl) (config_filename : option string)
         (ctx : rvi_context_t) (out : list event) (ops : list api_op),
    rvi_init RVI_ERROR_NOCRED malloc_ok fs lib config_filename
      = Some (Some ctx, out) ->
    exists ctx',
      run_ops 0 ctx ops = Some ctx' /\
      elems (service_name_idx ctx') = [] /\
      elems (service_reg_idx ctx') = [].
Proof.
  intros E malloc_ok fs lib f ctx out ops Hinit.
  assert (Hempty : elems (service_name_idx ctx) = [] /\
                   elems (service_reg_idx ctx) = []).
  { unfold rvi_init in Hinit.
    destruct malloc_ok; simpl negb in Hinit; cbv iota in Hinit;
      [|discriminate].
    destruct (parse_config E fs _ (Some "rvi.config"%string))
      as [[ctx1 ret]|] eqn:Hp; [|discriminate].
    destruct (negb (ret =? 0)); [discriminate|].
    destruct (setup_client_ctx lib ctx1) as [[c|]|]; try discriminate.
    injection Hinit as <- _.
    unfold parse_config in Hp.
    destruct (read_pairs fs "rvi.config") as [pairs|];
      [|injection Hp as <- _; now split].
    destruct (read_config _ pairs) as [ctx2|] eqn:Hrc; [|discriminate].
    destruct (read_config_frame _ _ _ Hrc) as (_ & F2 & F3 & _).
    destruct (creddir ctx2) as [d|];
      [|injection Hp as <- _; simpl; now rewrite F2, F3].
    destruct (read_dir fs d) as [entries|];
      [|injection Hp as <- _; simpl; now rewrite F2, F3].
    destruct (read_creds fs entries 0 EmptyString (cred ctx2));
      [|discriminate].
    injection Hp as <- _. simpl. now rewrite F2, F3. }
  clear Hinit. destruct Hempty as [Hn Hr].
  revert ctx Hn Hr. induction ops as [|op ops IH]; intros ctx Hn Hr.
  - exists ctx. now split.
  - assert (Hstep : exists ctx1, run_op 0 ctx op = Some ctx1).
    { destruct op as [n cb d|n|fd_]; simpl; try (eexists; reflexivity).
      destruct (rvi_disconnect_no_services 0 ctx fd_ Hr) as [r ->].
      eexists. reflexivity. }
    destruct Hstep as [ctx1 Hstep].
    destruct (api_services_stay_empty 0 [op] ctx ctx1 Hn Hr) as [Hn1 Hr1].
    { simpl. now rewrite Hstep. }
    destruct (IH ctx1 Hn1 Hr1) as (ctx' & Hrun & H1 & H2).
    exists ctx'. simpl. rewrite Hstep. now split.
Qed.

Lemma rvi_init_then_api_witness :
  exists ctx',
    run_ops 0
      (set_ssl_ctx
         (set_cred
            (set_keyfile
               (set_creddir
                  (rvi_init_context None None None None None
                     (repeat None 20) None)
                  (Some "creds"%string))
               (Some "k.pem"%string))
            (Some "tok"%string :: repeat None 19))
         (Some 12288))
      [Op_register (Some "diag.ping"%string) (Some 8192) 0;
       Op_disconnect 5;
       Op_unregister (Some "diag.ping"%string)] = Some ctx' /\
    elems (service_name_idx ctx') = [] /\
    elems (service_reg_idx ctx') = [].
Proof.
  apply (rvi_init_then_api 3 true SampleInit.fs SampleInit.lib None _ []).
  reflexivity.
Defined.

(** ** The contexts that rvi.c builds hold no service *)

Lemma remove_first_NoDup_map {A B : Type} (f : A -> B) (p : A -> bool) :
  forall l : list A, NoDup (map f l) -> NoDup (map f (remove_first p l)).
Proof.
  induction l as [|a l IH]; simpl; intros Hnd.
  - constructor.
  - inversion Hnd as [|? ? Hn Hnd']; subst.
    destruct (p a); [exact Hnd'|]. simpl.
    constructor; [|now apply IH].
    intros Hin. apply Hn. apply in_map_iff in Hin.
    destruct Hin as (x & Hx & Hin). apply in_map_iff. exists x.
    split; [exact Hx|]. now apply BtreeFacts.remove_first_In in Hin.
Qed.


Lemma rvi_init_shape (nocred : Z) (malloc_ok : bool) (fs : filesystem)
  (lib : openssl) (f : option string) (ctx : rvi_context_t)
  (out : list event) :
  rvi_init nocred malloc_ok fs lib f = Some (Some ctx, out) ->
  wf_context ctx /\
  elems (remote_idx ctx) = [] /\
  elems (service_name_idx ctx) = [] /\
  elems (service_reg_idx ctx) = [].
Proof.
  unfold rvi_init.
  destruct malloc_ok; simpl negb; cbv iota; [|discriminate].
  set (ctx0 := rvi_init_context None None None None None (repeat None 20) None).
  assert (H0 : forall c : rvi_context_t,
             remote_idx c = remote_idx ctx0 ->
             service_name_idx c = service_name_idx ctx0 ->
             service_reg_idx c = service_reg_idx ctx0 ->
             forall v,
               wf_context (set_ssl_ctx c v) /\
               elems (remote_idx (set_ssl_ctx c v)) = [] /\
               elems (service_name_idx (set_ssl_ctx c v)) = [] /\
               elems (service_reg_idx (set_ssl_ctx c v)) = []).
  { intros c E1 E2 E3 v. unfold wf_context, set_ssl_ctx, set_config.
    cbn [remote_idx service_name_idx service_reg_idx].
    rewrite E1, E2, E3. repeat split. }
  destruct (parse_config nocred fs ctx0 (Some "rvi.config"%string))
    as [[ctx1 ret]|] eqn:Hp; [|discriminate].
  destruct (negb (ret =? 0)); [discriminate|].
  destruct (setup_client_ctx lib ctx1) as [[c|]|]; try discriminate.
  intros [= <- _]. unfold parse_config in Hp.
  destruct (read_pairs fs "rvi.config") as [pairs|];
    [|injection Hp as <- _; now apply H0].
  destruct (read_config ctx0 pairs) as [ctx2|] eqn:Hrc; [|discriminate].
  destruct (read_config_frame _ _ _ Hrc) as (F1 & F2 & F3 & _).
  destruct (creddir ctx2) as [d|]; [|injection Hp as <- _; now apply H0].
  destruct (read_dir fs d) as [entries|];
    [|injection Hp as <- _; now apply H0].
  destruct (read_creds fs entries 0 EmptyString (cred ctx2));
    [|discriminate].
  injection Hp as <- _. now apply H0.
Qed.

(** Every return of [rvi_connect]: the context as it was, or the new
    remote handed to [btree_insert]. *)
Lemma rvi_connect_inv (E : Z) (dup : dup_policy) (ctx : rvi_context_t)
  (addr port : option string) (net : transport) (r : result) :
  rvi_connect E dup ctx addr port net = Some r ->
  r_ctx r = ctx \/
  exists b,
    0 <= ssl_get_fd net /\
    r_ctx r = set_remote_idx ctx
                (fst (btree_insert dup (remote_idx ctx)
                        (remote_of b (ssl_get_fd net)))).
Proof.
  unfold rvi_connect, rvi_remote_create.
  destruct addr as [a|]; [|intros [= <-]; now left].
  destruct port as [p|]; [|intros [= <-]; now left].
  destruct (new_ssl_connect net) as [b|]; [|intros [= <-]; now left].
  destruct (get_ssl net) as [s|]; [|intros [= <-]; now left].
  destruct (do_connect net <=? 0); [intros [= <-]; now left|].
  destruct (do_handshake net <=? 0); [intros [= <-]; now left|].
  destruct (ssl_get_fd net <? 0) eqn:E3; [discriminate|].
  destruct (hd None (cred ctx)) as [c|]; [|discriminate].
  destruct (500 <=? CString.strlen (au_message c)); [discriminate|].
  intros [= <-]. right. exists b. apply Z.ltb_ge in E3. now split.
Qed.

(** Where the registrant index is empty the service loop of
    [rvi_disconnect] does not turn once. *)
Lemma rvi_disconnect_empty_reg (fuel : nat) (ctx : rvi_context_t) (fd_ : Z)
  (r : result) :
  elems (service_reg_idx ctx) = [] ->
  rvi_disconnect fuel ctx fd_ = Some r ->
  service_name_idx (r_ctx r) = service_name_idx ctx /\
  service_reg_idx (r_ctx r) = service_reg_idx ctx /\
  compare (remote_idx (r_ctx r)) = compare (remote_idx ctx) /\
  (forall e, In e (elems (remote_idx (r_ctx r))) ->
             In e (elems (remote_idx ctx))) /\
  (unique_fds ctx -> unique_fds (r_ctx r)).
Proof.
  intros Hr. unfold rvi_disconnect.
  destruct (btree_search (remote_idx ctx) (rkey_of fd_)) as [rtmp|];
    [|intros [= <-]; repeat split; auto].
  assert (Hl : disconnect_services fuel (service_reg_idx ctx)
                 (skey_of_registrant fd_) = Some (service_reg_idx ctx, [])).
  { destruct fuel; simpl; unfold btree_search; rewrite Hr; reflexivity. }
  pose proof (btree_delete_incl (remote_idx ctx) rtmp) as Hincl.
  assert (Hc : compare (fst (btree_delete (remote_idx ctx) rtmp))
               = compare (remote_idx ctx)).
  { unfold btree_delete. now destruct (existsb _ _). }
  assert (Hu : unique_fds ctx ->
               NoDup (map fd (elems (fst (btree_delete (remote_idx ctx)
                                            rtmp))))).
  { unfold unique_fds, btree_delete. destruct (existsb _ _); simpl; auto.
    apply remove_first_NoDup_map. }
  destruct (btree_delete (remote_idx ctx) rtmp) as [ridx res].
  destruct (res <? 0).
  - intros [= <-]. simpl in *. repeat split; auto.
  - rewrite Hl. intros [= <-]. simpl in *. repeat split; auto.
Qed.

(** What holds of every reachable context. *)
Lemma reachable_inv (E : Z) (dup : dup_policy) (ctx : rvi_context_t) :
  reachable E dup ctx ->
  wf_context ctx /\
  fds_created ctx /\
  elems (service_name_idx ctx) = [] /\
  elems (service_reg_idx ctx) = [].
Proof.
  induction 1 as [nocred malloc_ok fs lib f ctx out Hinit
                 |ctx addr port net r Hreach IH Hfd Hrun
                 |fuel ctx fd_ r Hreach IH Hrun
                 |ctx Hreach IH
                 |ctx n cb d Hreach IH
                 |ctx n Hreach IH
                 |ctx Hreach IH
                 |ctx n q Hreach IH
                 |ctx fd_arr fd_len Hreach IH];
    try exact IH.
  - destruct (rvi_init_shape _ _ _ _ _ _ _ Hinit) as (Hwf & Hr & Hn & Hs).
    split; [exact Hwf|]. split; [|now split].
    intros e He. rewrite Hr in He. contradiction.
  - destruct IH as ((Hcf & Hcn & Hcr) & Hfds & Hn & Hs).
    destruct (rvi_connect_inv _ _ _ _ _ _ _ Hrun) as [->|(b & H0 & ->)].
    + split; [now repeat split|]. now split.
    + destruct (btree_insert_shape dup (remote_idx ctx)
                  (remote_of b (ssl_get_fd net))) as (_ & Hc & Hsub & _).
      split; [|split; [|now split]].
      * split; [|now split]. simpl. now rewrite Hc.
      * intros e He. destruct (Hsub e He) as [->|Hold]; [|now apply Hfds].
        simpl. unfold CInt.in_range in Hfd. lia.
  - destruct IH as ((Hcf & Hcn & Hcr) & Hfds & Hn & Hs).
    destruct (rvi_disconnect_empty_reg _ _ _ _ Hs Hrun)
      as (E1 & E2 & E3 & Hsub & _).
    split; [|split; [|split]].
    + split; [now rewrite E3|]. split; [now rewrite E1|now rewrite E2].
    + intros e He. apply Hfds. now apply Hsub.
    + now rewrite E1.
    + now rewrite E2.
Qed.


Ltac sample_reachable :=
  change SampleRun.connected
    with (r_ctx {| r_ctx := SampleRun.connected; r_ret := 5;
                   r_out := [Malloc_remote;
                             BIO_puts 16384 (au_message "tok");
                             BIO_read 16384 2;
                             BIO_write_stdout "{}"] |});
  apply (reach_connect _ _ SampleRun.handle (Some "peer"%string)
           (Some "8807"%string) Sample.net5);
  [ apply (reach_init _ _ 3 true SampleInit.fs SampleInit.lib None _ []);
    reflexivity
  | unfold CInt.in_range; vm_compute; split; discriminate
  | reflexivity ].





(** ** [rvi_cleanup] *)

Lemma cleanup_services_eq (fuel : nat) (freed : list rvi_service_t)
  (ctx : rvi_context_t) :
  cleanup_services fuel freed ctx =
  if count (service_name_idx ctx) =? 0 then Done (ctx, [])
  else
    match fuel with
    | O => Out_of_fuel
    | S fuel' =>
        match btree_find_f (live_service freed) (service_name_idx ctx)
                (skey_of_name EmptyString) with
        | None => Undefined
        | Some None => cleanup_services fuel' freed ctx
        | Some (Some stmp) =>
            match btree_delete_f (live_service freed) (service_name_idx ctx)
                    stmp with
            | None => Undefined
            | Some (nidx, _) =>
                match btree_delete_live (live_service freed)
                        (service_reg_idx ctx) stmp with
                | None => Undefined
                | Some (ridx, _) =>
                    let ctx2 :=
                      set_service_reg_idx (set_service_name_idx ctx nidx)
                        ridx in
                    match cleanup_services fuel' (stmp :: freed) ctx2 with
                    | Done (ctx', out) =>
                        Done (ctx', rvi_service_destroy (Some stmp) ++ out)
                    | Undefined => Undefined
                    | Out_of_fuel => Out_of_fuel
                    end
                end
            end
        end
    end.
Proof. destruct fuel; reflexivity. Qed.

Lemma live_service_true (freed : list rvi_service_t) (s : rvi_service_t) :
  live_service freed s = true <-> ~ In s freed.
Proof.
  unfold live_service. destruct (in_dec service_eq_dec s freed); split;
    intros H; try reflexivity; try discriminate; tauto.
Qed.

Lemma freed_services_In (s : rvi_service_t) :
  forall out : list event,
    In s (freed_services out) <-> In (Free_service s) out.
Proof.
  induction out as [|ev out IH]; simpl; [tauto|].
  destruct ev; simpl; rewrite IH; split; intros H;
    try (now right); try (destruct H as [H|H]; [discriminate | exact H]).
  - destruct H as [->|H]; [now left | now right].
  - destruct H as [[= ->]|H]; [now left | now right].
Qed.

Lemma freed_services_app (a b : list event) :
  freed_services (a ++ b) = freed_services a ++ freed_services b.
Proof.
  induction a as [|ev a IH]; simpl; [reflexivity|].
  destruct ev; simpl; now rewrite IH.
Qed.

Lemma freed_services_none (out : list event) :
  (forall s, ~ In (Free_service s) out) -> freed_services out = [].
Proof.
  intros H. destruct (freed_services out) as [|s l] eqn:E; [reflexivity|].
  exfalso. apply (H s). apply freed_services_In. rewrite E. now left.
Qed.

Lemma freed_services_map (l : list rvi_service_t) :
  freed_services (map Free_service l) = l.
Proof. induction l as [|s l IH]; simpl; [reflexivity | now rewrite IH]. Qed.

Lemma freed_services_strings (l : list string) :
  freed_services (map (fun c => Free_string (Some c)) l) = [].
Proof. induction l as [|s l IH]; simpl; [reflexivity | exact IH]. Qed.

(** On records that are all live, and with a comparator that does not
    fault, the faulting walk is the plain one. *)
Lemma remove_first_f_live {A : Type} (live : A -> bool) (c : A -> A -> Z)
  (key : A) :
  forall l : list A,
    (forall e, In e l -> live e = true) ->
    remove_first_f live (fun a b => Some (c a b)) key l
    = Some (if existsb (fun e => c key e =? 0) l
            then Some (remove_first (fun e => c key e =? 0) l)
            else None).
Proof.
  induction l as [|e l IH]; simpl; intros Hl; [reflexivity|].
  unfold probe. rewrite (Hl e (or_introl eq_refl)). simpl.
  destruct (c key e =? 0); simpl; [reflexivity|].
  rewrite IH by (intros e' He'; apply Hl; now right).
  destruct (existsb _ l); reflexivity.
Qed.

Lemma btree_delete_live_all {A : Type} (live : A -> bool) (t : btree_t A)
  (key : A) :
  (forall e, In e (elems t) -> live e = true) ->
  btree_delete_live live t key = Some (btree_delete t key).
Proof.
  intros Hl. unfold btree_delete_live, btree_delete.
  rewrite (remove_first_f_live live (compare t) key (elems t) Hl).
  unfold matches. destruct (existsb _ _); reflexivity.
Qed.

(** The first record of a name index whose records are live and named is
    the one that the service loop finds and deletes. *)
Lemma name_idx_head (freed : list rvi_service_t) (ctx : rvi_context_t)
  (e0 : rvi_service_t) (l : list rvi_service_t) (n0 : string) :
  compare (service_name_idx ctx) = compare_name ->
  elems (service_name_idx ctx) = e0 :: l ->
  live_service freed e0 = true ->
  name e0 = Some n0 ->
  btree_find_f (live_service freed) (service_name_idx ctx)
    (skey_of_name EmptyString) = Some (Some e0) /\
  btree_delete_f (live_service freed) (service_name_idx ctx) e0
  = Some ({| order := order (service_name_idx ctx);
             compare := compare (service_name_idx ctx);
             elems := l |}, 0).
Proof.
  intros Hcn El Hl0 Hn0. split.
  - unfold btree_find_f. rewrite El, Hcn. cbn [find_f]. unfold probe.
    rewrite Hl0. unfold compare_name. cbn [name skey_of_name].
    rewrite Hn0. cbn [option_map].
    pose proof (strcmp_empty_l n0) as Hle. apply Z.leb_le in Hle.
    now rewrite Hle.
  - unfold btree_delete_f. rewrite El. cbn [remove_first_f]. unfold probe.
    rewrite Hl0, Hcn. unfold compare_name. rewrite Hn0. cbn [option_map].
    rewrite CStringFacts.strcmp_refl. reflexivity.
Qed.

(** The service loop on records that are all live: it ends with both
    indexes empty and frees each service of the name index once. *)
Lemma cleanup_services_clean (fuel : nat) :
  forall (freed : list rvi_service_t) (ctx : rvi_context_t),
    compare (service_name_idx ctx) = compare_name ->
    compare (service_reg_idx ctx) = compare_registrant ->
    services_named ctx ->
    unique_names ctx ->
    NoDup (elems (service_reg_idx ctx)) ->
    (forall s, in_reg_idx ctx s -> in_name_idx ctx s) ->
    (forall s, in_name_idx ctx s -> ~ In s freed) ->
    (List.length (elems (service_name_idx ctx)) <= fuel)%nat ->
    exists ctx' out,
      cleanup_services fuel freed ctx = Done (ctx', out) /\
      elems (service_name_idx ctx') = [] /\
      elems (service_reg_idx ctx') = [] /\
      remote_idx ctx' = remote_idx ctx /\
      same_config ctx ctx' /\
      out = map Free_service (elems (service_name_idx ctx)).
Proof.
  induction fuel as [|fuel IH];
    intros freed ctx Hcn Hcr Hnamed Huniq Hnd Hincl Hlive Hlen;
    rewrite cleanup_services_eq;
    destruct (elems (service_name_idx ctx)) as [|e0 l] eqn:El;
    try (simpl in Hlen; lia);
    try (rewrite (count_nil _ El); exists ctx, [];
         split; [reflexivity|]; split; [exact El|];
         split;
         [destruct (elems (service_reg_idx ctx)) as [|s ss] eqn:Er;
          [reflexivity|];
          exfalso; specialize (Hincl s);
          unfold in_reg_idx, in_name_idx in Hincl;
          rewrite Er, El in Hincl; apply Hincl; now left|];
         split; [reflexivity|];
         split; [unfold same_config; repeat split | reflexivity]).
  rewrite (count_cons _ _ _ El).
  assert (He0 : in_name_idx ctx e0).
  { unfold in_name_idx. rewrite El. now left. }
  destruct (Hnamed e0 He0) as (n0 & Hn0 & Hc0).
  assert (Hl0 : live_service freed e0 = true).
  { apply live_service_true. now apply Hlive. }
  destruct (name_idx_head freed ctx e0 l n0 Hcn El Hl0 Hn0) as [Hfind Hdel].
  rewrite Hfind, Hdel.
  rewrite btree_delete_live_all.
  2:{ intros e He. apply live_service_true. apply Hlive. now apply Hincl. }
  assert (Hsame : forall e, In e (elems (service_reg_idx ctx)) ->
                    matches (service_reg_idx ctx) e0 e = true -> e = e0).
  { intros e He Hm. unfold matches in Hm. apply Z.eqb_eq in Hm.
    rewrite Hcr in Hm.
    assert (Hen : in_name_idx ctx e) by now apply Hincl.
    destruct (Hnamed e Hen) as (n & Hn & Hc).
    pose proof (compare_registrant_zero_sub _ _ Hm) as Hs.
    unfold compare_registrant in Hm. rewrite Hs, Hn, Hn0 in Hm. simpl in Hm.
    apply strcmp_eq0 in Hm; auto.
    apply (NoDup_map_eq name (elems (service_name_idx ctx)));
      [exact Huniq | exact Hen | exact He0 | congruence]. }
  assert (Hgone : ~ In e0 (elems (fst (btree_delete (service_reg_idx ctx)
                                         e0)))).
  { unfold btree_delete.
    destruct (existsb (matches (service_reg_idx ctx) e0)
                (elems (service_reg_idx ctx))) eqn:Ex; simpl.
    - apply remove_first_only; auto.
      unfold matches. rewrite Hcr. apply Z.eqb_eq.
      apply compare_registrant_refl.
    - intros Hin.
      assert (existsb (matches (service_reg_idx ctx) e0)
                (elems (service_reg_idx ctx)) = true); [|congruence].
      apply existsb_exists. exists e0. split; [exact Hin|].
      unfold matches. rewrite Hcr. apply Z.eqb_eq.
      apply compare_registrant_refl. }
  assert (Hcr' : compare (fst (btree_delete (service_reg_idx ctx) e0))
                 = compare_registrant).
  { unfold btree_delete. destruct (existsb _ _); simpl; exact Hcr. }
  pose proof (btree_delete_NoDup (service_reg_idx ctx) e0 Hnd) as Hnd'.
  pose proof (btree_delete_incl (service_reg_idx ctx) e0) as Hsub.
  destruct (btree_delete (service_reg_idx ctx) e0) as [ridx res].
  cbn [fst] in Hgone, Hcr', Hnd', Hsub. cbv zeta.
  assert (Hnl : ~ In e0 l).
  { unfold unique_names in Huniq. rewrite El in Huniq. simpl in Huniq.
    inversion Huniq as [|? ? Hni _]; subst. intros Hin. apply Hni.
    now apply in_map. }
  match goal with
  | |- context [cleanup_services fuel ?f ?c] =>
      destruct (IH f c)
        as (ctx' & out & Hrec & Hempty & Hempty2 & Hrem & Hcfg & Hout)
  end.
  - exact Hcn.
  - exact Hcr'.
  - intros s Hs. apply Hnamed. unfold in_name_idx in *. simpl in Hs.
    rewrite El. now right.
  - unfold unique_names in *. simpl. rewrite El in Huniq. simpl in Huniq.
    now inversion Huniq.
  - exact Hnd'.
  - intros s Hs. unfold in_reg_idx, in_name_idx in *. simpl in *.
    pose proof (Hsub _ Hs) as Hold.
    apply Hincl in Hold. rewrite El in Hold.
    destruct Hold as [<-|Hl]; [contradiction | exact Hl].
  - intros s Hs [<-|Hf].
    + now apply Hnl.
    + apply (Hlive s); [|exact Hf]. unfold in_name_idx in *. simpl in Hs.
      rewrite El. now right.
  - simpl in *. lia.
  - rewrite Hrec. exists ctx', (rvi_service_destroy (Some e0) ++ out).
    split; [reflexivity|]. split; [exact Hempty|]. split; [exact Hempty2|].
    split; [exact Hrem|]. split; [exact Hcfg|]. simpl. now rewrite Hout.
Qed.

(** The service loop reads a record that has been freed: where the name
    index holds one, the loop ends in undefined behaviour. *)
Lemma cleanup_services_uaf (fuel : nat) :
  forall (freed : list rvi_service_t) (ctx : rvi_context_t),
    compare (service_name_idx ctx) = compare_name ->
    (exists s, in_name_idx ctx s /\ In s freed) ->
    (List.length (elems (service_name_idx ctx)) <= fuel)%nat ->
    cleanup_services fuel freed ctx = Undefined.
Proof.
  induction fuel as [|fuel IH];
    intros freed ctx Hcn (s & Hs & Hf) Hlen;
    rewrite cleanup_services_eq; unfold in_name_idx in Hs;
    destruct (elems (service_name_idx ctx)) as [|e0 l] eqn:El;
    try contradiction; try (simpl in Hlen; lia).
  rewrite (count_cons _ _ _ El).
  destruct (live_service freed e0) eqn:Hl0.
  - destruct (name e0) as [n0|] eqn:Hn0.
    + destruct (name_idx_head freed ctx e0 l n0 Hcn El Hl0 Hn0)
        as [Hfind Hdel].
      rewrite Hfind, Hdel.
      destruct (btree_delete_live (live_service freed) (service_reg_idx ctx)
                  e0) as [[ridx res]|]; [|reflexivity].
      cbv zeta. rewrite IH; [reflexivity| exact Hcn | | simpl in *; lia].
      exists s. split; [|now right].
      unfold in_name_idx. simpl. destruct Hs as [<-|Hs]; [|exact Hs].
      apply live_service_true in Hl0. contradiction.
    + unfold btree_find_f. rewrite El, Hcn. cbn [find_f]. unfold probe.
      rewrite Hl0. unfold compare_name. cbn [name skey_of_name].
      rewrite Hn0. reflexivity.
  - unfold btree_find_f. rewrite El. cbn [find_f]. unfold probe.
    rewrite Hl0. reflexivity.
Qed.

Ltac sample_local_facts :=
  match goal with
  | |- fds_created _ => intros ? [<-|[]]; unfold CInt.int_max; simpl; lia
  | |- no_connected_registrant _ =>
      intros ? [<-|[<-|[]]] (? & [<-|[]] & ?); discriminate
  | |- services_named _ =>
      intros ? [<-|[<-|[]]]; eexists; split; reflexivity
  | |- unique_names _ =>
      unfold unique_names; simpl; repeat constructor; simpl;
      [intros [?|[]]; discriminate | tauto]
  | |- NoDup _ =>
      simpl; repeat constructor; simpl;
      [intros [?|[]]; discriminate | tauto]
  | |- forall s, in_reg_idx _ s -> in_name_idx _ s => intros ? H; exact H
  | |- free_creds _ = _ => reflexivity
  | |- in_name_idx _ _ => right; now left
  | |- in_reg_idx _ _ => right; now left
  | |- _ => sample_ctx_facts
  end.

(** X11.  [rvi_cleanup] on a context whose records are all in order
    (descriptors not negative, services named, one service per name, the
    registrant index holding once each services of the name index and
    none registered by a connected remote) and whose credential array has
    a NULL slot: with as many iterations as there are remotes and
    services it returns [RVI_OK], leaves the three trees empty, closes and
    frees every remote, frees each service of the name index once, frees
    each credential before the first NULL slot, and ends by freeing the
    array, the five strings of the configuration and the context. *)
Theorem rvi_cleanup_clean :
  forall (fuel : nat) (ctx : rvi_context_t) (freed : list string),
    wf_context ctx ->
    fds_created ctx ->
    registrants_in_range ctx ->
    no_connected_registrant ctx ->
    services_named ctx ->
    unique_names ctx ->
    NoDup (elems (service_reg_idx ctx)) ->
    (forall s, in_reg_idx ctx s -> in_name_idx ctx s) ->
    free_creds (cred ctx) = Some freed ->
    (List.length (elems (remote_idx ctx))
     + List.length (elems (service_reg_idx ctx)) <= fuel)%nat ->
    (List.length (elems (service_name_idx ctx)) <= fuel)%nat ->
    exists r,
      rvi_cleanup fuel ctx = Done r /\
      r_ret r = RVI_OK /\
      elems (remote_idx (r_ctx r)) = [] /\
      elems (service_name_idx (r_ctx r)) = [] /\
      elems (service_reg_idx (r_ctx r)) = [] /\
      (forall e, In e (elems (remote_idx ctx)) ->
                 In (BIO_free_all (sbio e)) (r_out r) /\
                 In (Free_remote e) (r_out r)) /\
      freed_services (r_out r) = elems (service_name_idx ctx) /\
      exists out,
        r_out r = SSL_CTX_free (ssl_ctx ctx) :: out
                  ++ map (fun c => Free_string (Some c)) freed
                  ++ [Free_cred_array;
                      Free_string (certfile ctx);
                      Free_string (keyfile ctx);
                      Free_string (cafile ctx);
                      Free_string (cadir ctx);
                      Free_string (creddir ctx);
                      Free_context].
Proof.
  intros fuel ctx freed Hwf Hfds Hsr Hnc Hnamed Huniq Hnd Hincl Hcred
    Hlen1 Hlen2.
  destruct (cleanup_remotes_enough fuel ctx Hwf Hfds Hsr Hlen1)
    as (ctx1 & out1 & Hrun1 & Hempty1 & Hwf1 & Hname1 & Hreg1 & _ & Hcfg1
        & Honly1 & Hfree1 & _).
  pose proof (cleanup_remotes_NoDup fuel ctx ctx1 out1 Hrun1 Hnd) as Hnd1.
  destruct Hwf1 as (Hcf1 & Hcn1 & Hcr1).
  assert (Hnone : freed_services out1 = []).
  { apply freed_services_none. intros s Hs.
    destruct (Honly1 s Hs) as [Hin Hp]. now apply (Hnc s). }
  destruct (cleanup_services_clean fuel (freed_services out1) ctx1)
    as (ctx2 & out2 & Hrun2 & He2 & He3 & Hrem2 & Hcfg2 & Hout2); auto.
  { intros s Hs. apply Hnamed. unfold in_name_idx in *.
    now rewrite <- Hname1. }
  { unfold unique_names in *. now rewrite Hname1. }
  { intros s Hs. unfold in_name_idx. rewrite Hname1.
    now apply Hincl, Hreg1. }
  { intros s _. rewrite Hnone. auto. }
  { now rewrite Hname1. }
  destruct Hcfg1 as (C1 & C2 & C3 & C4 & C5 & C6 & C7).
  destruct Hcfg2 as (D1 & D2 & D3 & D4 & D5 & D6 & D7).
  unfold rvi_cleanup. rewrite Hrun1, Hrun2.
  rewrite <- D1, <- C1, Hcred. eexists. split; [reflexivity|].
  cbn [r_ret r_ctx r_out].
  split; [reflexivity|].
  split; [now rewrite Hrem2|].
  split; [exact He2|].
  split; [exact He3|].
  split.
  { intros e He. destruct (Hfree1 e He) as [Hb Hf].
    split; right; apply in_or_app; now left. }
  split.
  { cbn [freed_services]. rewrite !freed_services_app, Hnone, Hout2.
    rewrite freed_services_map, freed_services_strings, Hname1. simpl.
    now rewrite app_nil_r. }
  exists (out1 ++ [Btree_destroy Remote_idx] ++ out2
          ++ [Btree_destroy Service_name_idx; Btree_destroy Service_reg_idx]).
  rewrite <- D2, <- D3, <- D4, <- D5, <- D6, <- C2, <- C3, <- C4, <- C5, <- C6.
  f_equal. rewrite <- !app_assoc. reflexivity.
Qed.

Lemma rvi_cleanup_clean_witness :
  exists r,
    rvi_cleanup 3 SampleLocal.ctx = Done r /\
    r_ret r = RVI_OK /\
    elems (remote_idx (r_ctx r)) = [] /\
    elems (service_name_idx (r_ctx r)) = [] /\
    elems (service_reg_idx (r_ctx r)) = [] /\
    (forall e, In e (elems (remote_idx SampleLocal.ctx)) ->
               In (BIO_free_all (sbio e)) (r_out r) /\
               In (Free_remote e) (r_out r)) /\
    freed_services (r_out r) = elems (service_name_idx SampleLocal.ctx) /\
    exists out,
      r_out r = SSL_CTX_free (ssl_ctx SampleLocal.ctx) :: out
                ++ map (fun c => Free_string (Some c))
                     ["eyJhbGciOiJSUzI1NiJ9"%string]
                ++ [Free_cred_array;
                    Free_string (certfile SampleLocal.ctx);
                    Free_string (keyfile SampleLocal.ctx);
                    Free_string (cafile SampleLocal.ctx);
                    Free_string (cadir SampleLocal.ctx);
                    Free_string (creddir SampleLocal.ctx);
                    Free_context].
Proof.
  apply (rvi_cleanup_clean 3 SampleLocal.ctx ["eyJhbGciOiJSUzI1NiJ9"%string]);
    sample_local_facts.
Defined.

(** X12.  Use after free in [rvi_cleanup]: a service that is in both
    indexes and was registered by a connected remote is freed by the loop
    over the remotes, through [rvi_disconnect], which leaves the record in
    the name index; the loop over the services then reads the freed
    record, so that the call has undefined behaviour. *)
Theorem rvi_cleanup_use_after_free :
  forall (fuel : nat) (ctx : rvi_context_t) (s : rvi_service_t),
    wf_context ctx ->
    fds_created ctx ->
    registrants_in_range ctx ->
    in_name_idx ctx s ->
    in_reg_idx ctx s ->
    remote_present ctx (registrant s) ->
    (List.length (elems (remote_idx ctx))
     + List.length (elems (service_reg_idx ctx)) <= fuel)%nat ->
    (List.length (elems (service_name_idx ctx)) <= fuel)%nat ->
    (exists ctx1 out1,
        cleanup_remotes fuel ctx = Some (ctx1, out1) /\
        In (Free_service s) out1 /\
        in_name_idx ctx1 s /\
        ~ in_reg_idx ctx1 s) /\
    rvi_cleanup fuel ctx = Undefined.
Proof.
  intros fuel ctx s Hwf Hfds Hsr Hn Hr Hp Hlen1 Hlen2.
  destruct (cleanup_remotes_enough fuel ctx Hwf Hfds Hsr Hlen1)
    as (ctx1 & out1 & Hrun1 & Hempty1 & (_ & Hcn1 & _) & Hname1 & Hreg1
        & Hall & _ & _ & _ & Habs).
  assert (Hfreed : In (Free_service s) out1) by now apply Hall.
  assert (Hn1 : in_name_idx ctx1 s).
  { unfold in_name_idx in *. now rewrite Hname1. }
  split.
  - exists ctx1, out1. split; [exact Hrun1|]. split; [exact Hfreed|].
    split; [exact Hn1|].
    intros Hin. now apply (Habs s Hin).
  - unfold rvi_cleanup. rewrite Hrun1.
    rewrite (cleanup_services_uaf fuel (freed_services out1) ctx1 Hcn1);
      [reflexivity | | now rewrite Hname1].
    exists s. split; [exact Hn1|]. now apply freed_services_In.
Qed.

Lemma rvi_cleanup_use_after_free_witness :
  (exists ctx1 out1,
      cleanup_remotes 3 Sample.ctx = Some (ctx1, out1) /\
      In (Free_service Sample.fleet_status) out1 /\
      in_name_idx ctx1 Sample.fleet_status /\
      ~ in_reg_idx ctx1 Sample.fleet_status) /\
  rvi_cleanup 3 Sample.ctx = Undefined.
Proof.
  apply (rvi_cleanup_use_after_free 3 Sample.ctx Sample.fleet_status);
    sample_local_facts.
Defined.

(** X13.  [rvi_cleanup] on a reachable context whose credential array
    has a NULL slot: with as many iterations as there are remotes it
    returns [RVI_OK], closes and frees every remote, leaves the three
    trees empty, frees no service, there being none, and frees each
    credential before the first NULL slot. *)
Theorem rvi_cleanup_reachable :
  forall (E : Z) (dup : dup_policy) (fuel : nat) (ctx : rvi_context_t)
         (freed : list string),
    reachable E dup ctx ->
    free_creds (cred ctx) = Some freed ->
    (List.length (elems (remote_idx ctx)) <= fuel)%nat ->
    exists r,
      rvi_cleanup fuel ctx = Done r /\
      r_ret r = RVI_OK /\
      elems (remote_idx (r_ctx r)) = [] /\
      elems (service_name_idx (r_ctx r)) = [] /\
      elems (service_reg_idx (r_ctx r)) = [] /\
      (forall e, In e (elems (remote_idx ctx)) ->
                 In (BIO_free_all (sbio e)) (r_out r) /\
                 In (Free_remote e) (r_out r)) /\
      freed_services (r_out r) = [] /\
      (forall c, In c freed -> In (Free_string (Some c)) (r_out r)) /\
      In Free_context (r_out r).
Proof.
  intros E dup fuel ctx freed Hreach Hcred Hlen.
  destruct (reachable_inv E dup ctx Hreach) as (Hwf & Hfds & Hn & Hs).
  assert (Hsr : registrants_in_range ctx).
  { intros s Hin. rewrite Hs in Hin. contradiction. }
  destruct (cleanup_remotes_enough fuel ctx Hwf Hfds Hsr)
    as (ctx1 & out1 & Hrun1 & Hempty1 & _ & Hname1 & Hreg1 & _
        & (C1 & _) & Honly1 & Hfree1 & _).
  { rewrite Hs. simpl. lia. }
  assert (Hnone : freed_services out1 = []).
  { apply freed_services_none. intros s Hin.
    destruct (Honly1 s Hin) as [Hin' _]. unfold in_reg_idx in Hin'.
    rewrite Hs in Hin'. contradiction. }
  assert (Hreg' : elems (service_reg_idx ctx1) = []).
  { destruct (elems (service_reg_idx ctx1)) as [|s ss] eqn:Er;
      [reflexivity|].
    assert (Hin : in_reg_idx ctx s)
      by (apply Hreg1; unfold in_reg_idx; rewrite Er; now left).
    unfold in_reg_idx in Hin. rewrite Hs in Hin. contradiction. }
  assert (Hrun2 : cleanup_services fuel (freed_services out1) ctx1
                  = Done (ctx1, [])).
  { rewrite cleanup_services_eq, count_nil; [reflexivity|].
    now rewrite Hname1. }
  unfold rvi_cleanup. rewrite Hrun1, Hrun2, <- C1, Hcred.
  eexists. split; [reflexivity|]. cbn [r_ret r_ctx r_out].
  split; [reflexivity|].
  split; [exact Hempty1|].
  split; [now rewrite Hname1|].
  split; [exact Hreg'|].
  split.
  { intros e He. destruct (Hfree1 e He) as [Hb Hf].
    split; right; apply in_or_app; now left. }
  split.
  { cbn [freed_services]. rewrite !freed_services_app, Hnone.
    rewrite freed_services_strings. reflexivity. }
  split.
  - intros c Hc. right. apply in_or_app. right. simpl. do 3 right.
    apply in_or_app. left. apply in_map_iff. exists c. now split.
  - right. apply in_or_app. right. simpl. do 3 right.
    apply in_or_app. right. simpl. tauto.
Qed.

Lemma rvi_cleanup_reachable_witness :
  exists r,
    rvi_cleanup 1 SampleRun.connected = Done r /\
    r_ret r = RVI_OK /\
    elems (remote_idx (r_ctx r)) = [] /\
    elems (service_name_idx (r_ctx r)) = [] /\
    elems (service_reg_idx (r_ctx r)) = [] /\
    (forall e, In e (elems (remote_idx SampleRun.connected)) ->
               In (BIO_free_all (sbio e)) (r_out r) /\
               In (Free_remote e) (r_out r)) /\
    freed_services (r_out r) = [] /\
    (forall c, In c ["tok"%string] -> In (Free_string (Some c)) (r_out r)) /\
    In Free_context (r_out r).
Proof.
  apply (rvi_cleanup_reachable 1 DupKeep 1 SampleRun.connected
           ["tok"%string]).
  - sample_reachable.
  - reflexivity.
  - simpl. lia.
Defined.
